(** * Gradient infill post-processor: a shallow embedding in Rocq

    This development embeds the G-code rewriting engine of the
    GradientInfill repository:
    - [src/addGradientInfill.py], the stand-alone script ([Standalone]);
    - [src/GradientInfill.py], the Cura post-processing plug-in ([Plugin]).

    Python floats are modelled as real numbers [R]; every Python operation
    that may raise (a division by zero, [min] of an empty sequence, [float]
    of a malformed string, reading a variable that was never assigned) is an
    [option] whose [None] is the raised exception, which ends the run.
    Text written to the output is a list of [piece]s: verbatim strings and
    the decimal renderings [str(round(v, n))] of computed numbers. *)

From Stdlib Require Import Reals Lra Lia ZArith String Ascii List Bool.
Import ListNotations.
Open Scope R_scope.

(** ** Error monad: [None] is a raised Python exception *)

Definition bind {A B : Type} (m : option A) (k : A -> option B) : option B :=
  match m with
  | Some a => k a
  | None => None
  end.

Notation "x <- m ;; k" := (bind m (fun x => k))
  (at level 61, m at next level, right associativity).

(** ** Strings: [in], [startswith], [split(" ")] and the regexes *)

Module Str.

Open Scope string_scope.

(** [needle in hay] *)
Fixpoint contains (needle hay : string) : bool :=
  if String.prefix needle hay then true
  else match hay with
       | EmptyString => false
       | String _ rest => contains needle rest
       end.

(** [hay.startswith(p)] *)
Definition startswith (hay p : string) : bool := String.prefix p hay.

(** [s.split(" ")]: the separator is a single space; empty fields are kept. *)
Fixpoint split_acc (acc : list ascii) (s : string) : list string :=
  match s with
  | EmptyString => [string_of_list_ascii (rev acc)]
  | String c rest =>
      if Ascii.eqb c " "%char then string_of_list_ascii (rev acc) :: split_acc [] rest
      else split_acc (c :: acc) rest
  end.

Definition split_space (s : string) : list string := split_acc [] s.

(** [element[1:]] *)
Definition drop1 (s : string) : string :=
  match s with
  | EmptyString => EmptyString
  | String _ rest => rest
  end.

Definition is_digit (c : ascii) : bool :=
  let n := nat_of_ascii c in (48 <=? n)%nat && (n <=? 57)%nat.

Definition is_space (c : ascii) : bool :=
  let n := nat_of_ascii c in
  (n =? 32)%nat || ((9 <=? n)%nat && (n <=? 13)%nat).

Fixpoint take_digits (l : list ascii) : list ascii * list ascii :=
  match l with
  | c :: t =>
      if is_digit c then let (d, r) := take_digits t in (c :: d, r) else ([], l)
  | [] => ([], [])
  end.

(** The group of the pattern [\d* \.? \d*] at the start of [l]; the greedy match of
    this pattern never backtracks since every part of it is optional. *)
Definition num_group (l : list ascii) : list ascii :=
  let (d1, r) := take_digits l in
  match r with
  | c :: r' => if Ascii.eqb c "."%char then (d1 ++ c :: fst (take_digits r'))%list else d1
  | [] => d1
  end.

(** Everything after the first occurrence of [c]. *)
Fixpoint after_char (c : ascii) (l : list ascii) : option (list ascii) :=
  match l with
  | [] => None
  | d :: t => if Ascii.eqb c d then Some t else after_char c t
  end.

(** [re.search(r"C(\d*\.?\d* )", s).group(1)] (without the space), [None] when there is no match. *)
Definition re_search_num (c : ascii) (s : string) : option string :=
  match after_char c (list_ascii_of_string s) with
  | Some rest => Some (string_of_list_ascii (num_group rest))
  | None => None
  end.

Fixpoint drop_spaces (l : list ascii) : list ascii :=
  match l with
  | c :: t => if is_space c then drop_spaces t else l
  | [] => []
  end.

Definition strip (l : list ascii) : list ascii := rev (drop_spaces (rev (drop_spaces l))).

Definition digit_value (c : ascii) : Z := Z.of_nat (nat_of_ascii c - 48).

Definition digits_value (ds : list ascii) : Z :=
  fold_left (fun a c => a * 10 + digit_value c)%Z ds 0%Z.

Definition sign_of (l : list ascii) : Z * list ascii :=
  match l with
  | c :: t =>
      if Ascii.eqb c "-"%char then (-1, t)%Z
      else if Ascii.eqb c "+"%char then (1, t)%Z else (1%Z, l)
  | [] => (1%Z, [])
  end.

Definition exponent (l : list ascii) : option Z :=
  match l with
  | [] => Some 0%Z
  | c :: t =>
      if Ascii.eqb c "e"%char || Ascii.eqb c "E"%char then
        let (sg, t') := sign_of t in
        let (ds, r) := take_digits t' in
        match ds, r with
        | _ :: _, [] => Some (sg * digits_value ds)%Z
        | _, _ => None
        end
      else None
  end.

(** Python's [float(s)] on decimal literals: surrounding white space, an
    optional sign, digits with an optional point (at least one digit) and an
    optional exponent. The spellings [inf], [nan] and digits grouped with
    [_] have no real value and are not modelled (they give [None]). *)
Definition py_float (s : string) : option R :=
  let l := strip (list_ascii_of_string s) in
  let (sg, l1) := sign_of l in
  let (ip, l2) := take_digits l1 in
  let (fp, l3) :=
    match l2 with
    | c :: t => if Ascii.eqb c "."%char then take_digits t else ([], l2)
    | [] => ([], [])
    end in
  match (ip ++ fp)%list with
  | [] => None
  | ds =>
      match exponent l3 with
      | None => None
      | Some e =>
          let m := (sg * digits_value ds)%Z in
          let k := (e - Z.of_nat (length fp))%Z in
          if (0 <=? k)%Z then Some (IZR (m * 10 ^ k))
          else Some (IZR m / IZR (10 ^ (- k)))
      end
  end.

End Str.

(** ** Output text *)

(** A piece of output text: a verbatim string, [str(round(v, n))] for a
    computed float [v], [str(v)] for a float, or [str(int(v))]. *)
Inductive piece : Type :=
| PStr (s : string)
| PRound (n : nat) (v : R)
| PFloat (v : R)
| PInt (v : R).

(** ** Geometry ([dist], [get_points_distance], [min_distance_from_segment]) *)

Record Point2D := mkPoint { x : R; y : R }.
Record Segment := mkSegment { point1 : Point2D; point2 : Point2D }.

(** Python's [a / b] on floats: raises [ZeroDivisionError] when [b == 0]. *)
Definition fdiv (a b : R) : option R :=
  if Req_dec_T b 0 then None else Some (a / b).

(** [v ** 0.5] for [v >= 0]. *)
Definition pow_half (v : R) : R := sqrt v.

Definition dist (segment : Segment) (point : Point2D) : option R :=
  let px_ := x (point2 segment) - x (point1 segment) in
  let py_ := y (point2 segment) - y (point1 segment) in
  let norm := px_ * px_ + py_ * py_ in
  u0 <- fdiv ((x point - x (point1 segment)) * px_ + (y point - y (point1 segment)) * py_) norm ;;
  let u := if Rlt_dec 1 u0 then 1 else if Rlt_dec u0 0 then 0 else u0 in
  let x_ := x (point1 segment) + u * px_ in
  let y_ := y (point1 segment) + u * py_ in
  let dx := x_ - x point in
  let dy := y_ - y point in
  Some (pow_half (dx * dx + dy * dy)).

Definition get_points_distance (p1 p2 : Point2D) : R :=
  pow_half ((x p1 - x p2) ^ 2 + (y p1 - y p2) ^ 2).

(** Python's [min] of a sequence: [ValueError] when it is empty. *)
Definition py_min (l : list R) : option R :=
  match l with
  | [] => None
  | v :: rest => Some (fold_left Rmin rest v)
  end.

(** Evaluates [f] on every element, the first exception propagating. *)
Fixpoint map_opt {A B : Type} (f : A -> option B) (l : list A) : option (list B) :=
  match l with
  | [] => Some []
  | a :: rest => b <- f a ;; bs <- map_opt f rest ;; Some (b :: bs)
  end.

Definition midpoint (segment : Segment) : Point2D :=
  mkPoint ((x (point1 segment) + x (point2 segment)) / 2)
          ((y (point1 segment) + y (point2 segment)) / 2).

Definition min_distance_from_segment (segment : Segment) (segments : list Segment) : option R :=
  let middlePoint := midpoint segment in
  ds <- map_opt (fun s => dist s middlePoint) segments ;;
  py_min ds.

(** [getXY]: the first [X] and the first [Y] of the line and the unsigned
    decimal that follows each ([float("")] raises). *)
Definition getXY (currentLine : string) : option Point2D :=
  match Str.re_search_num "X"%char currentLine, Str.re_search_num "Y"%char currentLine with
  | Some elementX, Some elementY =>
      vx <- Str.py_float elementX ;;
      vy <- Str.py_float elementY ;;
      Some (mkPoint vx vy)
  | _, _ => None
  end.

(** [mapRange((a1, a2), (b1, b2), s)] *)
Definition mapRange (a : R * R) (b : R * R) (s : R) : option R :=
  let (a1, a2) := a in
  let (b1, b2) := b in
  q <- fdiv ((s - a1) * (b2 - b1)) (a2 - a1) ;;
  Some (b1 + q).

(** [get_extrusion_command(x, y, e)] = ["G1 X{} Y{} E{}\n".format(round(x, 3), round(y, 3), round(e, 5))] *)
Definition get_extrusion_command (x_ y_ extrusion : R) : list piece :=
  [PStr "G1 X"; PRound 3 x_; PStr " Y"; PRound 3 y_; PStr " E"; PRound 5 extrusion; PStr "
"].

(** The flow multiplier of a move at [shortestDistance] from the wall, as the
    callers compute it: [mapRange] inside the gradient, [min_flow / 100] from
    [gradient_thickness] on. *)
Definition flow_multiplier (gradient_thickness max_flow min_flow shortestDistance : R) : option R :=
  if Rlt_dec shortestDistance gradient_thickness
  then mapRange (0, gradient_thickness) (max_flow / 100, min_flow / 100) shortestDistance
  else Some (min_flow / 100).

(** Python's [int(v)]: truncation toward zero. *)
Definition py_int (v : R) : Z :=
  if Rle_dec 0 v then Int_part v else (- Int_part (- v))%Z.

(** The extrusion value of a line: [for element in splitLine: if "E" in
    element: extrusionLength = float(element[1:])]; the last such element
    wins, each is parsed. The inner [None] (no element contains [E]) cannot
    occur on the lines that reach this code, which all contain an [E]. *)
Fixpoint find_extrusion (acc : option R) (splitLine : list string) : option (option R) :=
  match splitLine with
  | [] => Some acc
  | element :: rest =>
      if Str.contains "E" element
      then v <- Str.py_float (Str.drop1 element) ;; find_extrusion (Some v) rest
      else find_extrusion acc rest
  end.

(** The rebuilt line: [for element in splitLine: if "E" in element:
    outPutLine += "E" + str(round(newE, 5)) else: outPutLine += element + " "]. *)
Fixpoint rebuild (newE : string -> option R) (splitLine : list string) : option (list piece) :=
  match splitLine with
  | [] => Some []
  | element :: rest =>
      if Str.contains "E" element
      then v <- newE element ;; r <- rebuild newE rest ;; Some (PStr "E" :: PRound 5 v :: r)
      else r <- rebuild newE rest ;; Some (PStr (element ++ " ") :: r)
  end.

(** ** The stand-alone script, [src/addGradientInfill.py] *)

Module Standalone.

Inductive InfillType := SMALL_SEGMENTS | LINEAR.

Inductive Section := NOTHING | INNER_WALL | INFILL.

Definition Section_eqb (a b : Section) : bool :=
  match a, b with
  | NOTHING, NOTHING | INNER_WALL, INNER_WALL | INFILL, INFILL => true
  | _, _ => false
  end.

(** The arguments of [process_gcode] (file names apart). *)
Record Config := mkConfig {
  infill_type : InfillType;
  max_flow : R;
  min_flow : R;
  gradient_thickness : R;
  gradient_discretization : R }.

(** The local variables carried from line to line. [perimeterSegments] is
    [None] until the first [;LAYER:] line assigns it. *)
Record State := mkState {
  currentSection : Section;
  lastPosition : Point2D;
  perimeterSegments : option (list Segment) }.

Definition initial_state : State :=
  mkState NOTHING (mkPoint (-10000) (-10000)) None.

Definition is_begin_layer_line (line : string) : bool := Str.startswith line ";LAYER:".
Definition is_begin_inner_wall_line (line : string) : bool := Str.startswith line ";TYPE:WALL-INNER".
Definition is_end_inner_wall_line (line : string) : bool := Str.startswith line ";TYPE:WALL-OUTER".
Definition is_begin_infill_segment_line (line : string) : bool := Str.startswith line ";TYPE:FILL".

Definition is_extrusion_line (line : string) : bool :=
  Str.contains "G1" line && Str.contains " X" line && Str.contains "Y" line && Str.contains "E" line.

(** The loop [for step in range(int(segmentSteps))]: returns the sub-moves
    written and the final value of [lastPosition]. *)
Fixpoint linear_steps (cfg : Config) (perim : option (list Segment)) (segmentDirection : Point2D)
    (extrusionLengthPerSegment : R) (n : nat) (lastP : Point2D) : option (list piece * Point2D) :=
  match n with
  | O => Some ([], lastP)
  | S n' =>
      let segmentEnd := mkPoint (x lastP + x segmentDirection) (y lastP + y segmentDirection) in
      ps <- perim ;;
      shortestDistance <- min_distance_from_segment (mkSegment lastP segmentEnd) ps ;;
      segmentExtrusion <-
        (if Rlt_dec shortestDistance (gradient_thickness cfg)
         then m <- mapRange (0, gradient_thickness cfg) (max_flow cfg / 100, min_flow cfg / 100) shortestDistance ;;
              Some (extrusionLengthPerSegment * m)
         else Some (extrusionLengthPerSegment * min_flow cfg / 100)) ;;
      r <- linear_steps cfg perim segmentDirection extrusionLengthPerSegment n' segmentEnd ;;
      Some (get_extrusion_command (x segmentEnd) (y segmentEnd) segmentExtrusion ++ fst r, snd r)
  end.

(** The [InfillType.LINEAR] branch: the text written and the new [lastPosition]. *)
Definition linear_move (cfg : Config) (gdl : R) (perim : option (list Segment))
    (lastPosition currentPosition : Point2D) (splitLine : list string) : option (list piece * Point2D) :=
  found <- find_extrusion None splitLine ;;
  extrusionLength <- found ;;
  let segmentLength := get_points_distance lastPosition currentPosition in
  segmentSteps <- fdiv segmentLength gdl ;;
  extrusionLengthPerSegment <- fdiv extrusionLength segmentSteps ;;
  dirx <- fdiv (x currentPosition - x lastPosition) segmentLength ;;
  diry <- fdiv (y currentPosition - y lastPosition) segmentLength ;;
  let segmentDirection := mkPoint (dirx * gdl) (diry * gdl) in
  if Rle_dec 2 segmentSteps then
    r <- linear_steps cfg perim segmentDirection extrusionLengthPerSegment
           (Z.to_nat (py_int segmentSteps)) lastPosition ;;
    segmentLengthRatio <- fdiv (get_points_distance (snd r) currentPosition) segmentLength ;;
    Some (fst r ++ get_extrusion_command (x currentPosition) (y currentPosition)
                     (segmentLengthRatio * extrusionLength * max_flow cfg / 100), snd r)
  else
    out <- rebuild (fun _ => Some (extrusionLength * max_flow cfg / 100)) splitLine ;;
    Some (out ++ [PStr "
"], lastPosition).

(** [if "F" in currentLine and "G1" in currentLine:] the feed line written
    ahead of the move ([SyntaxError] when the [F] regex finds nothing). *)
Definition feed_line (currentLine : string) : option (list piece) :=
  if Str.contains "F" currentLine && Str.contains "G1" currentLine then
    match Str.re_search_num "F"%char currentLine with
    | Some g => Some [PStr ("G1 F" ++ g ++ "
")]
    | None => None
    end
  else Some [].

(** The body of [if currentSection == Section.INFILL:] up to the [";"]
    test: the text written, [writtenToFile], and [lastPosition]. *)
Definition infill_block (cfg : Config) (gdl : R) (perim : option (list Segment))
    (lastPosition : Point2D) (currentLine : string) : option (list piece * bool * Point2D) :=
  out1 <- feed_line currentLine ;;
  if Str.contains "E" currentLine && Str.contains "G1" currentLine
     && Str.contains " X" currentLine && Str.contains "Y" currentLine then
    currentPosition <- getXY currentLine ;;
    let splitLine := Str.split_space currentLine in
    match infill_type cfg with
    | LINEAR =>
        r <- linear_move cfg gdl perim lastPosition currentPosition splitLine ;;
        Some (out1 ++ fst r, true, snd r)
    | SMALL_SEGMENTS =>
        ps <- perim ;;
        shortestDistance <- min_distance_from_segment (mkSegment lastPosition currentPosition) ps ;;
        if Rlt_dec shortestDistance (gradient_thickness cfg) then
          out <- rebuild (fun element =>
                   v <- Str.py_float (Str.drop1 element) ;;
                   m <- mapRange (0, gradient_thickness cfg) (max_flow cfg / 100, min_flow cfg / 100)
                          shortestDistance ;;
                   Some (v * m)) splitLine ;;
          Some (out1 ++ out ++ [PStr "
"], true, lastPosition)
        else Some (out1, false, lastPosition)
    end
  else Some (out1, false, lastPosition).

(** One iteration of [for currentLine in gcodeFile]: the new state and the
    text written for the line. *)
Definition process_line (cfg : Config) (gdl : R) (st : State) (currentLine : string)
    : option (State * list piece) :=
  let perim0 := if is_begin_layer_line currentLine then Some [] else perimeterSegments st in
  let sec0 := if is_begin_inner_wall_line currentLine then INNER_WALL else currentSection st in
  perim1 <-
    (if Section_eqb sec0 INNER_WALL && is_extrusion_line currentLine then
       ps <- perim0 ;;
       p <- getXY currentLine ;;
       Some (Some (ps ++ [mkSegment p (lastPosition st)]))
     else Some perim0) ;;
  let sec1 := if is_end_inner_wall_line currentLine then NOTHING else sec0 in
  if is_begin_infill_segment_line currentLine then
    Some (mkState INFILL (lastPosition st) perim1, [PStr currentLine])
  else
    r <- (if Section_eqb sec1 INFILL
          then infill_block cfg gdl perim1 (lastPosition st) currentLine
          else Some ([], false, lastPosition st)) ;;
    let '(out, writtenToFile, lastPos1) := r in
    let sec2 := if Section_eqb sec1 INFILL && Str.contains ";" currentLine then NOTHING else sec1 in
    lastPos2 <-
      (if Str.contains " X" currentLine && Str.contains " Y" currentLine
          && (Str.contains "G1" currentLine || Str.contains "G0" currentLine)
       then getXY currentLine else Some lastPos1) ;;
    Some (mkState sec2 lastPos2 perim1,
          if writtenToFile then out else out ++ [PStr currentLine]).

Fixpoint process_lines (cfg : Config) (gdl : R) (st : State) (lines : list string) : option (list piece) :=
  match lines with
  | [] => Some []
  | currentLine :: rest =>
      r <- process_line cfg gdl st currentLine ;;
      outs <- process_lines cfg gdl (fst r) rest ;;
      Some (snd r ++ outs)
  end.

(** [process_gcode]: the text written to the output file, [None] when the
    run raises. *)
Definition process_gcode (cfg : Config) (lines : list string) : option (list piece) :=
  gdl <- fdiv (gradient_thickness cfg) (gradient_discretization cfg) ;;
  process_lines cfg gdl initial_state lines.

End Standalone.

(** ** The Cura plug-in, [src/GradientInfill.py], [GradientInfill.execute] *)

Module Plugin.

Inductive Section := NOTHING | INNER_WALL | OUTER_WALL | INFILL.

Definition Section_eqb (a b : Section) : bool :=
  match a, b with
  | NOTHING, NOTHING | INNER_WALL, INNER_WALL | OUTER_WALL, OUTER_WALL | INFILL, INFILL => true
  | _, _ => false
  end.

(** The settings read at the start of [execute]; [infill_type] is the
    result of [mfill_mode] (1: small segments, 2: linear), the over-speed
    factors are already divided by 100. *)
Record Config := mkConfig {
  infill_type : Z;
  max_flow : R;
  min_flow : R;
  link_flow : R;
  gradient_thickness : R;
  gradient_discretization : R;
  gradual_speed : bool;
  max_over_speed_factor : R;
  min_over_speed_factor : R;
  test_outer_wall : bool }.

(** The variables of [execute] carried from line to line; [None] for a
    variable not assigned yet. *)
Record State := mkState {
  currentSection : Section;
  lastPosition : Point2D;
  perimeterSegments : option (list Segment);
  current_feed : option R }.

Definition is_begin_layer_line (line : string) : bool := Str.startswith line ";LAYER:".
Definition is_begin_inner_wall_line (line : string) : bool := Str.startswith line ";TYPE:WALL-INNER".
Definition is_begin_outer_wall_line (line : string) : bool := Str.startswith line ";TYPE:WALL-OUTER".
Definition is_begin_infill_segment_line (line : string) : bool := Str.startswith line ";TYPE:FILL".

Definition is_extrusion_line (line : string) : bool :=
  Str.contains "G1" line && Str.contains " X" line && Str.contains "Y" line && Str.contains "E" line.

(** [get_extrusion_command] of the plug-in ends without a newline. *)
Definition get_extrusion_command (x_ y_ extrusion : R) : list piece :=
  [PStr "G1 X"; PRound 3 x_; PStr " Y"; PRound 3 y_; PStr " E"; PRound 5 extrusion].

(** [if gradual_speed:] clamp [segmentFeed] into the over-speed bounds and
    set [stringFeed = " F{}".format(int(segmentFeed))]. *)
Definition feed_string (cfg : Config) (cf segmentFeed : R) (stringFeed : list piece) : list piece :=
  if gradual_speed cfg then
    let f1 := if Rlt_dec (cf * max_over_speed_factor cfg) segmentFeed
              then cf * max_over_speed_factor cfg else segmentFeed in
    let f2 := if Rlt_dec f1 (cf * min_over_speed_factor cfg)
              then cf * min_over_speed_factor cfg else f1 in
    [PStr " F"; PInt f2]
  else stringFeed.

(** The loop over the sub-segments; [stringFeed] is carried across steps. *)
Fixpoint linear_steps (cfg : Config) (perim : option (list Segment)) (feed : option R)
    (segmentDirection : Point2D) (extrusionLengthPerSegment : R) (n : nat)
    (lastP : Point2D) (stringFeed : list piece) : option (list piece * Point2D * list piece) :=
  match n with
  | O => Some ([], lastP, stringFeed)
  | S n' =>
      let segmentEnd := mkPoint (x lastP + x segmentDirection) (y lastP + y segmentDirection) in
      ps <- perim ;;
      shortestDistance <- min_distance_from_segment (mkSegment lastP segmentEnd) ps ;;
      r1 <-
        (if Rlt_dec shortestDistance (gradient_thickness cfg) then
           m <- mapRange (0, gradient_thickness cfg) (max_flow cfg / 100, min_flow cfg / 100) shortestDistance ;;
           let segmentExtrusion := extrusionLengthPerSegment * m in
           cf <- feed ;;
           segmentFeed <- fdiv cf m ;;
           Some (segmentExtrusion, feed_string cfg cf segmentFeed stringFeed)
         else
           let segmentExtrusion := extrusionLengthPerSegment * min_flow cfg / 100 in
           cf <- feed ;;
           segmentFeed <-
             (if Rlt_dec 0 (min_flow cfg) then fdiv cf (min_flow cfg / 100)
              else Some (cf * max_over_speed_factor cfg)) ;;
           Some (segmentExtrusion, feed_string cfg cf segmentFeed stringFeed)) ;;
      let (segmentExtrusion, stringFeed1) := r1 in
      r <- linear_steps cfg perim feed segmentDirection extrusionLengthPerSegment n' segmentEnd stringFeed1 ;;
      let '(out, lastP', stringFeed') := r in
      Some (get_extrusion_command (x segmentEnd) (y segmentEnd) segmentExtrusion
              ++ stringFeed1 ++ [PStr "
"] ++ out, lastP', stringFeed')
  end.

(** The [infill_type == 2] branch: the value assigned to
    [lines[line_index]] and the new [lastPosition]. *)
Definition linear_move (cfg : Config) (gdl : R) (perim : option (list Segment)) (feed : option R)
    (new_Line : list piece) (lastPosition currentPosition : Point2D) (splitLine : list string)
    : option (list piece * Point2D) :=
  found <- find_extrusion None splitLine ;;
  extrusionLength <- found ;;
  let segmentLength := get_points_distance lastPosition currentPosition in
  segmentSteps <- fdiv segmentLength gdl ;;
  extrusionLengthPerSegment <- fdiv extrusionLength segmentSteps ;;
  dirx <- fdiv (x currentPosition - x lastPosition) segmentLength ;;
  diry <- fdiv (y currentPosition - y lastPosition) segmentLength ;;
  let segmentDirection := mkPoint (dirx * gdl) (diry * gdl) in
  if Rle_dec 2 segmentSteps then
    r <- linear_steps cfg perim feed segmentDirection extrusionLengthPerSegment
           (Z.to_nat (py_int segmentSteps)) lastPosition [] ;;
    let '(out, lastP, stringFeed) := r in
    segmentLengthRatio <- fdiv (get_points_distance lastP currentPosition) segmentLength ;;
    cf <- feed ;;
    segmentFeed0 <- fdiv cf (max_flow cfg / 100) ;;
    let segmentFeed := if Rlt_dec segmentFeed0 (cf * min_over_speed_factor cfg)
                       then cf * min_over_speed_factor cfg else segmentFeed0 in
    let stringFeed' := if gradual_speed cfg then [PStr " F"; PInt segmentFeed] else stringFeed in
    Some (new_Line ++ out
            ++ get_extrusion_command (x currentPosition) (y currentPosition)
                 (segmentLengthRatio * extrusionLength * max_flow cfg / 100)
            ++ stringFeed', lastP)
  else
    out <- rebuild (fun _ => Some (extrusionLength * link_flow cfg / 100)) splitLine ;;
    Some (out, lastPosition).

(** The text of a piece list with every number replaced by the digit 0:
    a rendered float holds neither a space nor an [F], so [" F" in
    outPutLine] is [" F"] in this skeleton. *)
Definition skeleton (l : list piece) : string :=
  fold_right (fun p s => match p with PStr t => (t ++ s)%string | _ => ("0" ++ s)%string end) EmptyString l.

(** The [infill_type == 1] loop over the elements of the line. *)
Fixpoint small_rebuild (cfg : Config) (feed : option R) (m : R) (outPutLine : list piece)
    (stringFeed : list piece) (splitLine : list string) : option (list piece) :=
  match splitLine with
  | [] => Some outPutLine
  | element :: rest =>
      if Str.contains "E" element then
        v <- Str.py_float (Str.drop1 element) ;;
        let newE := v * m in
        cf <- feed ;;
        segmentFeed <- fdiv cf m ;;
        let stringFeed1 := feed_string cfg cf segmentFeed stringFeed in
        let o1 := outPutLine ++ [PStr "E"; PRound 5 newE] in
        let o2 := if negb (Str.contains " F" (skeleton o1)) && gradual_speed cfg
                  then o1 ++ stringFeed1 else o1 in
        small_rebuild cfg feed m o2 stringFeed1 rest
      else small_rebuild cfg feed m (outPutLine ++ [PStr (element ++ " ")]) stringFeed rest
  end.

(** The body of [if currentSection == Section.INFILL:]: the new
    [current_feed], the value assigned to [lines[line_index]] ([None]: no
    assignment) and the new [lastPosition], before the [";"] test. *)
Definition infill_block (cfg : Config) (gdl : R) (st : State) (currentLine : string)
    : option (option R * option (list piece) * Point2D) :=
  r0 <-
    (if Str.contains "F" currentLine && Str.contains "G1" currentLine then
       match Str.re_search_num "F"%char currentLine with
       | Some g => cf <- Str.py_float g ;; Some (Some cf, [PStr "G1 F"; PFloat cf; PStr "
"])
       | None => Some (current_feed st, [])
       end
     else Some (current_feed st, [])) ;;
  let (feed, new_Line) := r0 in
  if Str.contains "E" currentLine && Str.contains "G1" currentLine
     && Str.contains "X" currentLine && Str.contains "Y" currentLine then
    currentPosition <- getXY currentLine ;;
    let splitLine := Str.split_space currentLine in
    r1 <-
      (if (infill_type cfg =? 2)%Z then
         r <- linear_move cfg gdl (perimeterSegments st) feed new_Line (lastPosition st)
                currentPosition splitLine ;;
         Some (Some (fst r), snd r)
       else Some (None, lastPosition st)) ;;
    let (assigned1, lastPos1) := r1 in
    if (infill_type cfg =? 1)%Z then
      ps <- perimeterSegments st ;;
      shortestDistance <- min_distance_from_segment (mkSegment lastPos1 currentPosition) ps ;;
      if Rlt_dec shortestDistance (gradient_thickness cfg) then
        m <- mapRange (0, gradient_thickness cfg) (max_flow cfg / 100, min_flow cfg / 100) shortestDistance ;;
        out <- small_rebuild cfg feed m new_Line [] splitLine ;;
        Some (feed, Some out, lastPos1)
      else Some (feed, assigned1, lastPos1)
    else Some (feed, assigned1, lastPos1)
  else Some (feed, None, lastPosition st).

(** One iteration of [for currentLine in lines]: the new state and the value
    assigned to [lines[lines.index(currentLine)]], [None] when the line is
    left as it is. *)
Definition process_line (cfg : Config) (gdl : R) (st : State) (currentLine : string)
    : option (State * option (list piece)) :=
  let perim0 := if is_begin_layer_line currentLine then Some [] else perimeterSegments st in
  let sec0 := if is_begin_inner_wall_line currentLine then INNER_WALL else currentSection st in
  let sec1 := if is_begin_outer_wall_line currentLine then OUTER_WALL else sec0 in
  perim1 <-
    (if Section_eqb sec1 INNER_WALL && negb (test_outer_wall cfg) && is_extrusion_line currentLine then
       ps <- perim0 ;; p <- getXY currentLine ;; Some (Some (ps ++ [mkSegment p (lastPosition st)]))
     else Some perim0) ;;
  perim2 <-
    (if Section_eqb sec1 OUTER_WALL && test_outer_wall cfg && is_extrusion_line currentLine then
       ps <- perim1 ;; p <- getXY currentLine ;; Some (Some (ps ++ [mkSegment p (lastPosition st)]))
     else Some perim1) ;;
  if is_begin_infill_segment_line currentLine then
    _ <- perim2 ;;
    Some (mkState INFILL (lastPosition st) perim2 (current_feed st), None)
  else
    let st1 := mkState sec1 (lastPosition st) perim2 (current_feed st) in
    r <- (if Section_eqb sec1 INFILL then infill_block cfg gdl st1 currentLine
          else Some (current_feed st, None, lastPosition st)) ;;
    let '(feed, assigned, lastPos1) := r in
    let inf_comment := Section_eqb sec1 INFILL && Str.contains ";" currentLine in
    let sec2 := if inf_comment then NOTHING else sec1 in
    let assigned' := if inf_comment then Some [PStr currentLine] else assigned in
    lastPos2 <-
      (if Str.contains "X" currentLine && Str.contains "Y" currentLine
          && (Str.contains "G1" currentLine || Str.contains "G0" currentLine)
       then getXY currentLine else Some lastPos1) ;;
    Some (mkState sec2 lastPos2 perim2 feed, assigned').

End Plugin.

(** ** The plug-in's driver: [mfill_mode] and [GradientInfill.execute] *)

Module Execute.

Open Scope string_scope.

(** [mfill_mode(Mode)]: the chain of [if Mode == ...: iMode = ...]. *)
Definition mfill_mode (Mode : string) : Z :=
  let iMode := 0%Z in
  let iMode := if String.eqb Mode "grid" then 2%Z else iMode in
  let iMode := if String.eqb Mode "lines" then 2%Z else iMode in
  let iMode := if String.eqb Mode "triangles" then 2%Z else iMode in
  let iMode := if String.eqb Mode "trihexagon" then 2%Z else iMode in
  let iMode := if String.eqb Mode "cubic" then 2%Z else iMode in
  let iMode := if String.eqb Mode "cubicsubdiv" then 0%Z else iMode in
  let iMode := if String.eqb Mode "tetrahedral" then 2%Z else iMode in
  let iMode := if String.eqb Mode "quarter_cubic" then 2%Z else iMode in
  let iMode := if String.eqb Mode "concentric" then 0%Z else iMode in
  let iMode := if String.eqb Mode "zigzag" then 0%Z else iMode in
  let iMode := if String.eqb Mode "cross" then 1%Z else iMode in
  let iMode := if String.eqb Mode "cross_3d" then 1%Z else iMode in
  let iMode := if String.eqb Mode "gyroid" then 1%Z else iMode in
  iMode.

(** The properties [execute] reads from the selected extruder stack. *)
Record Extruder := mkExtruder {
  infill_pattern : string;
  zig_zaggify_infill : bool;
  relative_extrusion : bool;
  infill_before_walls : bool }.

(** The script settings, as [getSettingValueByKey] returns them. *)
Record Settings := mkSettings {
  gradientdiscretization : R;
  maxflow : R;
  minflow : R;
  shortdistflow : R;
  gradientthickness : R;
  extruder_nb : Z;
  gradualspeed : bool;
  maxoverspeed : R;
  minoverspeed : R;
  testouterwall : bool }.

(** Python's [l[i]] on a list: negative indices count from the end,
    [IndexError] out of range. *)
Definition py_index {A : Type} (l : list A) (i : Z) : option A :=
  if (i <? 0)%Z then
    if (Z.of_nat (length l) + i <? 0)%Z then None
    else nth_error l (Z.to_nat (Z.of_nat (length l) + i))
  else nth_error l (Z.to_nat i).

(** [l.index(v)]: the first position holding [v], [ValueError] if none. *)
Fixpoint py_list_index (v : string) (l : list string) : option nat :=
  match l with
  | [] => None
  | h :: t => if String.eqb h v then Some O else (n <- py_list_index v t ;; Some (S n))
  end.

(** [l[i] = v]: [IndexError] out of range. *)
Fixpoint list_set {A : Type} (l : list A) (i : nat) (v : A) : option (list A) :=
  match l, i with
  | [], _ => None
  | _ :: t, O => Some (v :: t)
  | h :: t, S i' => r <- list_set t i' v ;; Some (h :: r)
  end.

(** [s.split(sep)] for a one-character separator; empty fields are kept. *)
Fixpoint split_on_acc (sep : ascii) (acc : list ascii) (s : string) : list string :=
  match s with
  | EmptyString => [string_of_list_ascii (rev acc)]
  | String c rest =>
      if Ascii.eqb c sep then string_of_list_ascii (rev acc) :: split_on_acc sep [] rest
      else split_on_acc sep (c :: acc) rest
  end.

Definition split_on (sep : ascii) (s : string) : list string := split_on_acc sep [] s.

(** [sep.join(l)] *)
Fixpoint join (sep : string) (l : list string) : string :=
  match l with
  | [] => EmptyString
  | [a] => a
  | a :: t => a ++ sep ++ join sep t
  end.

(** The part of [execute] before the loop over the layers: [None] when it
    raises, [Some None] when it returns [None] (the G-code is left to Cura
    unchanged), [Some (Some (cfg, gradientDiscretizationLength))] when the
    layers are processed. [extruder_count] is [machine_extruder_count] and
    [extrud] the [extruderList] of the global stack. *)
Definition setup (s : Settings) (extruder_count : Z) (extrud : list Extruder)
    : option (option (Plugin.Config * R)) :=
  let extruder_id := (extruder_nb s - 1)%Z in
  let extruder_count' := (extruder_count - 1)%Z in
  let extruder_id := if (extruder_count' <? extruder_id)%Z then extruder_count' else extruder_id in
  e <- py_index extrud extruder_id ;;
  if negb (relative_extrusion e) then Some None
  else if infill_before_walls e then Some None
  else
    gdl <- fdiv (gradientthickness s) (gradientdiscretization s) ;;
    let infill_type := mfill_mode (infill_pattern e) in
    if (infill_type =? 0)%Z then Some None
    else if zig_zaggify_infill e then Some None
    else Some (Some (Plugin.mkConfig infill_type (maxflow s) (minflow s) (shortdistflow s)
                       (gradientthickness s) (gradientdiscretization s) (gradualspeed s)
                       (maxoverspeed s / 100) (minoverspeed s / 100) (testouterwall s), gdl)).

(** The variables of [execute] before the first line: [perimeterSegments]
    and [current_feed] unassigned. *)
Definition initial_state : Plugin.State :=
  Plugin.mkState Plugin.NOTHING (mkPoint (-10000) (-10000)) None None.

Section Loops.

(** [render l] is the Python text of the pieces [l] (the float formatting of
    [str] and [format] is left abstract). *)
Variable render : list piece -> string.

(** One iteration of [for currentLine in lines]: the line is read at
    position [i] of the live list, [line_index = lines.index(currentLine)]
    is its first occurrence, and an assignment goes to that position. *)
Definition line_step (cfg : Plugin.Config) (gdl : R) (st : Plugin.State) (i : nat)
    (lines : list string) : option (Plugin.State * list string) :=
  match nth_error lines i with
  | None => Some (st, lines)
  | Some currentLine =>
      line_index <- py_list_index currentLine lines ;;
      r <- Plugin.process_line cfg gdl st currentLine ;;
      match snd r with
      | None => Some (fst r, lines)
      | Some out => lines' <- list_set lines line_index (render out) ;; Some (fst r, lines')
      end
  end.

(** The loop over the lines of a layer, from position [i] for [k] more
    lines. *)
Fixpoint run_lines (cfg : Plugin.Config) (gdl : R) (st : Plugin.State) (i k : nat)
    (lines : list string) : option (Plugin.State * list string) :=
  match k with
  | O => Some (st, lines)
  | S k' => r <- line_step cfg gdl st i lines ;; run_lines cfg gdl (fst r) (S i) k' (snd r)
  end.

(** The loop [for layer in data]: [layer_index = data.index(layer)],
    [lines = layer.split("\n")], and [data[layer_index] = "\n".join(lines)]. *)
Fixpoint run_layers (cfg : Plugin.Config) (gdl : R) (st : Plugin.State) (i k : nat)
    (data : list string) : option (Plugin.State * list string) :=
  match k with
  | O => Some (st, data)
  | S k' =>
      match nth_error data i with
      | None => Some (st, data)
      | Some layer =>
          layer_index <- py_list_index layer data ;;
          let lines := split_on "010"%char layer in
          r <- run_lines cfg gdl st 0 (length lines) lines ;;
          data' <- list_set data layer_index (join (String "010"%char EmptyString) (snd r)) ;;
          run_layers cfg gdl (fst r) (S i) k' data'
      end
  end.

(** [execute(data)]: [None] when it raises, [Some None] when it returns
    [None], [Some (Some data')] when it returns the processed layers. *)
Definition execute (s : Settings) (extruder_count : Z) (extrud : list Extruder) (data : list string)
    : option (option (list string)) :=
  r <- setup s extruder_count extrud ;;
  match r with
  | None => Some None
  | Some (cfg, gdl) =>
      res <- run_layers cfg gdl initial_state 0 (length data) data ;;
      Some (Some (snd res))
  end.

End Loops.

End Execute.

(** ** The command line, [src/addGradientInfillCLI.py] *)

Module CLI.

Open Scope string_scope.

Definition infill_type_name (t : Standalone.InfillType) : string :=
  match t with
  | Standalone.SMALL_SEGMENTS => "SMALL_SEGMENTS"
  | Standalone.LINEAR => "LINEAR"
  end.

(** [str(infill_type.value)] *)
Definition infill_type_value (t : Standalone.InfillType) : string :=
  match t with
  | Standalone.SMALL_SEGMENTS => "1"
  | Standalone.LINEAR => "2"
  end.

(** [arg_to_infill_type(arg)]: the members in definition order; [None] is
    the [argparse.ArgumentTypeError]. *)
Fixpoint find_infill_type (arg : string) (members : list Standalone.InfillType)
    : option Standalone.InfillType :=
  match members with
  | [] => None
  | t :: rest =>
      if String.eqb arg (infill_type_name t) || String.eqb arg (infill_type_value t) then Some t
      else find_infill_type arg rest
  end.

Definition arg_to_infill_type (arg : string) : option Standalone.InfillType :=
  find_infill_type arg [Standalone.SMALL_SEGMENTS; Standalone.LINEAR].

(** [p.rfind(c)]: the last position of [c], [-1] if none. *)
Fixpoint rfind_acc (c : ascii) (l : list ascii) (i best : Z) : Z :=
  match l with
  | [] => best
  | d :: t => rfind_acc c t (i + 1) (if Ascii.eqb c d then i else best)
  end.

Definition rfind (c : ascii) (l : list ascii) : Z := rfind_acc c l 0 (-1).

(** [os.path.splitext(p)] on POSIX ([genericpath._splitext] with [sep = "/"],
    no [altsep], [extsep = "."]): the extension starts at the last dot after
    the last slash, unless only dots precede it in the file name; the
    [while] loop over [p[sepIndex+1:dotIndex]] returns at its first
    non-dot character. *)
Definition splitext (p : string) : string * string :=
  let l := list_ascii_of_string p in
  let sepIndex := rfind "/"%char l in
  let dotIndex := rfind "."%char l in
  if (sepIndex <? dotIndex)%Z then
    if existsb (fun c => negb (Ascii.eqb c "."%char))
         (firstn (Z.to_nat (dotIndex - (sepIndex + 1))) (skipn (Z.to_nat (sepIndex + 1)) l))
    then (string_of_list_ascii (firstn (Z.to_nat dotIndex) l),
          string_of_list_ascii (skipn (Z.to_nat dotIndex) l))
    else (p, EmptyString)
  else (p, EmptyString).

(** The output path of the [__main__] block: [args.output.name] when given,
    else [head + "_infill_gradient" + ext] with [ext] defaulting to [.gcode]. *)
Definition output_path (input_path : string) (output : option string) : string :=
  match output with
  | Some name => name
  | None =>
      let (head, ext) := splitext input_path in
      let ext := if String.eqb ext EmptyString then ".gcode" else ext in
      head ++ "_infill_gradient" ++ ext
  end.

End CLI.

(** ** Notions used in the statements *)

(** The end point of one sub-segment: [lastPosition + segmentDirection]. *)
Definition advance (segmentDirection p : Point2D) : Point2D :=
  mkPoint (x p + x segmentDirection) (y p + y segmentDirection).

(** The position after [k] sub-segments from [p]. *)
Fixpoint step_point (segmentDirection : Point2D) (k : nat) (p : Point2D) : Point2D :=
  match k with
  | O => p
  | S k' => step_point segmentDirection k' (advance segmentDirection p)
  end.

(** The direction vector of the subdivision, of length [gdl]. *)
Definition sub_direction (gdl : R) (lastPosition currentPosition : Point2D) : Point2D :=
  let segmentLength := get_points_distance lastPosition currentPosition in
  mkPoint ((x currentPosition - x lastPosition) / segmentLength * gdl)
          ((y currentPosition - y lastPosition) / segmentLength * gdl).

(** The rounded numbers of a rebuilt line: the values written after ["E"]. *)
Definition rounded_values (l : list piece) : list R :=
  flat_map (fun p => match p with PRound _ v => [v] | _ => [] end) l.

(** The text pieces of a rebuilt line other than the ["E"] put before a new
    extrusion value: the tokens it kept. *)
Definition kept_tokens (l : list piece) : list string :=
  flat_map (fun p => match p with
                     | PStr t => if String.eqb t "E" then [] else [t]
                     | _ => []
                     end) l.

(** * Proofs *)

(** Evaluation of the model at concrete inputs: everything but the real
    number operations is computed; the comparisons on reals are then split
    and the impossible branches closed by [lra]. *)
Ltac reval :=
  cbv -[IZR Rdiv Rmult Rplus Rminus Ropp Rinv Rlt_dec Rle_dec Req_dec_T sqrt Int_part Rmin pow].

Ltac rsplit :=
  match goal with
  | |- context [Req_dec_T ?a ?b] => destruct (Req_dec_T a b); [try (exfalso; lra) | try (exfalso; lra)]
  | |- context [Rlt_dec ?a ?b] => destruct (Rlt_dec a b); [try (exfalso; lra) | try (exfalso; lra)]
  | |- context [Rle_dec ?a ?b] => destruct (Rle_dec a b); [try (exfalso; lra) | try (exfalso; lra)]
  end.

(** [sqrt e] replaced by [v] when [e = v * v] and [v >= 0]. *)
Lemma sqrt_value (e v : R) : 0 <= v -> e = v * v -> sqrt e = v.
Proof. intros Hv ->. apply sqrt_square; exact Hv. Qed.

Ltac sqrt_is v :=
  match goal with
  | |- context [sqrt ?e] => rewrite (sqrt_value e v) by lra
  end.

Lemma fdiv_nonzero (a b : R) : b <> 0 -> fdiv a b = Some (a / b).
Proof. intros H. unfold fdiv. destruct (Req_dec_T b 0); [contradiction | reflexivity]. Qed.

Lemma fdiv_zero (a : R) : fdiv a 0 = None.
Proof. unfold fdiv. destruct (Req_dec_T 0 0); [reflexivity | contradiction]. Qed.

Lemma mapRange_gradient (t b1 b2 s : R) :
  t <> 0 -> mapRange (0, t) (b1, b2) s = Some (b1 + (s - 0) * (b2 - b1) / (t - 0)).
Proof.
  intros Ht. unfold mapRange. rewrite fdiv_nonzero by lra. reflexivity.
Qed.

(** [flow_multiplier] in closed form. *)
Lemma flow_multiplier_eq (t maxf minf d : R) : 0 < t ->
  flow_multiplier t maxf minf d =
  Some (if Rlt_dec d t then maxf / 100 + (d - 0) * (minf / 100 - maxf / 100) / (t - 0)
        else minf / 100).
Proof.
  intros Ht. unfold flow_multiplier.
  destruct (Rlt_dec d t); [apply mapRange_gradient; lra | reflexivity].
Qed.

(** ** C2: the zero-length segment in [dist] *)

(** C2 (counterexample): [dist] on the zero-length segment at the origin
    raises for the point (3, 4) instead of returning its distance 5. *)
Lemma dist_zero_length_cex :
  dist (mkSegment (mkPoint 0 0) (mkPoint 0 0)) (mkPoint 3 4) = None.
Proof.
  unfold dist. simpl. replace ((0 - 0) * (0 - 0) + (0 - 0) * (0 - 0)) with 0 by ring.
  rewrite fdiv_zero. reflexivity.
Qed.

(** C2 (amended): [dist] has no guard for a zero-length segment: the
    projection divides by [norm = 0] and raises for every point; so every
    nearest-wall query over a perimeter list holding a zero-length segment
    raises as well. *)
Theorem dist_zero_length_raises :
  (forall p q : Point2D, dist (mkSegment p p) q = None) /\
  (forall (s : Segment) (before after : list Segment) (p : Point2D),
     min_distance_from_segment s (before ++ mkSegment p p :: after) = None).
Proof.
  assert (Hd : forall p q : Point2D, dist (mkSegment p p) q = None).
  { intros p q. unfold dist. simpl.
    replace ((x p - x p) * (x p - x p) + (y p - y p) * (y p - y p)) with 0 by ring.
    rewrite fdiv_zero. reflexivity. }
  split; [exact Hd|].
  intros s before after p. unfold min_distance_from_segment.
  assert (Hm : forall l, map_opt (fun s0 => dist s0 (midpoint s)) (l ++ mkSegment p p :: after) = None).
  { induction l as [|a l IH]; simpl.
    - rewrite Hd. reflexivity.
    - destruct (dist a (midpoint s)); simpl; [rewrite IH|]; reflexivity. }
  rewrite Hm. reflexivity.
Qed.

(** ** C3: the flow multiplier *)

(** C3: for a gradient thickness [t > 0] and flows [0 <= min_flow <=
    max_flow] (in percent), the multiplier the callers apply is
    [max_flow / 100] at distance 0 and [min_flow / 100] at distance [t],
    never increases over [[0, t]], and is [min_flow / 100] from [t] on. *)
Theorem flow_multiplier_profile (t maxf minf : R) :
  0 < t -> 0 <= minf <= maxf ->
  flow_multiplier t maxf minf 0 = Some (maxf / 100) /\
  flow_multiplier t maxf minf t = Some (minf / 100) /\
  (forall d1 d2 m1 m2, 0 <= d1 -> d1 <= d2 -> d2 <= t ->
     flow_multiplier t maxf minf d1 = Some m1 ->
     flow_multiplier t maxf minf d2 = Some m2 -> m2 <= m1) /\
  (forall d, t <= d -> flow_multiplier t maxf minf d = Some (minf / 100)).
Proof.
  intros Ht Hf.
  split; [|split; [|split]].
  - rewrite flow_multiplier_eq by lra.
    destruct (Rlt_dec 0 t); [|lra]. f_equal. field. lra.
  - rewrite flow_multiplier_eq by lra. destruct (Rlt_dec t t); [lra | reflexivity].
  - intros d1 d2 m1 m2 H1 H12 H2 E1 E2.
    rewrite flow_multiplier_eq in E1, E2 by lra.
    injection E1 as <-. injection E2 as <-.
    assert (Hk : forall d, (d - 0) * (minf / 100 - maxf / 100) / (t - 0)
                          = - (d * ((maxf - minf) / (100 * t)))).
    { intros d. field. lra. }
    assert (Hq : 0 <= (maxf - minf) / (100 * t)).
    { apply Rle_mult_inv_pos; nra. }
    destruct (Rlt_dec d1 t), (Rlt_dec d2 t); rewrite ?Hk.
    + assert (d1 * ((maxf - minf) / (100 * t)) <= d2 * ((maxf - minf) / (100 * t)))
        by (apply Rmult_le_compat_r; lra).
      lra.
    + assert (d1 * ((maxf - minf) / (100 * t)) <= t * ((maxf - minf) / (100 * t)))
        by (apply Rmult_le_compat_r; lra).
      assert (t * ((maxf - minf) / (100 * t)) = (maxf - minf) / 100) by (field; try lra).
      lra.
    + assert (d1 = t) by lra. subst. lra.
    + lra.
  - intros d Hd. rewrite flow_multiplier_eq by lra.
    destruct (Rlt_dec d t); [lra | reflexivity].
Qed.

(** Witness of C3 at thickness 6 and flows 350 % and 50 %. *)
Lemma flow_multiplier_profile_witness :
  (0 < 6 /\ 0 <= 50 <= 350) /\
  flow_multiplier 6 350 50 0 = Some (350 / 100) /\
  flow_multiplier 6 350 50 6 = Some (50 / 100) /\
  (forall d1 d2 m1 m2, 0 <= d1 -> d1 <= d2 -> d2 <= 6 ->
     flow_multiplier 6 350 50 d1 = Some m1 ->
     flow_multiplier 6 350 50 d2 = Some m2 -> m2 <= m1) /\
  (forall d, 6 <= d -> flow_multiplier 6 350 50 d = Some (50 / 100)).
Proof. split; [lra | apply flow_multiplier_profile; lra]. Defined.

(** ** Properties of one line of the stand-alone script *)

Ltac bind_some H :=
  match type of H with
  | bind ?m _ = Some _ =>
      let E := fresh "E" in destruct m eqn:E; [cbn [bind] in H | discriminate H]
  end.

Ltac bind_none :=
  match goal with
  | |- bind ?m _ = None =>
      let E := fresh "E" in destruct m eqn:E; cbn [bind]; [|reflexivity]
  end.

(** A line [pre ++ c ++ rest] where [pre] has no [c]: the regex for [c]
    starts matching right after that [c]. *)
Lemma after_char_app (c : ascii) (pre post : string) :
  Str.contains (String c EmptyString) pre = false ->
  Str.after_char c (list_ascii_of_string (pre ++ post)) =
  Str.after_char c (list_ascii_of_string post).
Proof.
  induction pre as [|a pre IH]; simpl; intros H; [reflexivity|].
  destruct (ascii_dec c a) as [Heq|Hne]; simpl in H.
  { destruct pre; discriminate H. }
  replace (Ascii.eqb c a) with false.
  - apply IH. exact H.
  - symmetry. apply Ascii.eqb_neq. exact Hne.
Qed.

Lemma re_search_num_negative (c : ascii) (pre post : string) :
  Str.contains (String c EmptyString) pre = false ->
  Str.re_search_num c (pre ++ String c (String "-" post)) = Some EmptyString.
Proof.
  intros H. unfold Str.re_search_num. rewrite after_char_app by exact H.
  simpl. rewrite Ascii.eqb_refl. reflexivity.
Qed.

(** On a move line the stand-alone script always reads [getXY] of the
    line, unless it is the infill marker. *)
Lemma standalone_move_needs_getXY (cfg : Standalone.Config) (gdl : R) (st : Standalone.State) (line : string) :
  Standalone.is_begin_infill_segment_line line = false ->
  Str.contains " X" line && Str.contains " Y" line
    && (Str.contains "G1" line || Str.contains "G0" line) = true ->
  getXY line = None ->
  Standalone.process_line cfg gdl st line = None.
Proof.
  intros Hb Hm Hg. unfold Standalone.process_line. cbv zeta.
  bind_none. rewrite Hb. bind_none.
  match goal with v : (list piece * bool * Point2D)%type |- _ => destruct v as [[out w] lp] end.
  rewrite Hm, Hg. reflexivity.
Qed.

(** ** C7: lines outside an infill section *)

(** C7: in the stand-alone script a line read while the section is not
    [INFILL], other than the infill marker, is written out unchanged. *)
Theorem outside_infill_line_unchanged (cfg : Standalone.Config) (gdl : R)
    (st st' : Standalone.State) (line : string) (out : list piece) :
  Standalone.currentSection st <> Standalone.INFILL ->
  Standalone.is_begin_infill_segment_line line = false ->
  Standalone.process_line cfg gdl st line = Some (st', out) ->
  out = [PStr line].
Proof.
  intros Hs Hb H. unfold Standalone.process_line in H. cbv zeta in H.
  bind_some H. rewrite Hb in H.
  destruct (Standalone.is_end_inner_wall_line line), (Standalone.is_begin_inner_wall_line line);
    destruct (Standalone.currentSection st); try congruence;
    cbn [Standalone.Section_eqb bind] in H;
    (destruct (Str.contains " X" line && Str.contains " Y" line
               && (Str.contains "G1" line || Str.contains "G0" line));
     [bind_some H|]); injection H as _ <-; reflexivity.
Qed.

(** Witness of C7: an outer-wall move in the first layer. *)
Lemma outside_infill_line_unchanged_witness :
  let cfg := Standalone.mkConfig Standalone.LINEAR 200 50 2 2 in
  let st := Standalone.mkState Standalone.INNER_WALL (mkPoint 0 0) (Some []) in
  let line := "G1 X1 Y0 E0.5"%string in
  let st' := Standalone.mkState Standalone.INNER_WALL (mkPoint 1 0)
               (Some [mkSegment (mkPoint 1 0) (mkPoint 0 0)]) in
  Standalone.currentSection st <> Standalone.INFILL /\
  Standalone.is_begin_infill_segment_line line = false /\
  Standalone.process_line cfg 1 st line = Some (st', [PStr line]) /\
  [PStr line] = [PStr line].
Proof.
  intros cfg st line st'.
  assert (H : Standalone.process_line cfg 1 st line = Some (st', [PStr line])).
  { unfold Standalone.process_line, getXY. reval.
    replace (IZR 1 / IZR 1) with 1 by (field; try lra).
    replace (IZR 0 / IZR 1) with 0 by (field; try lra).
    reflexivity. }
  split; [discriminate|]. split; [reflexivity|]. split; [exact H|].
  exact (outside_infill_line_unchanged cfg 1 st st' line [PStr line]
           ltac:(discriminate) eq_refl H).
Defined.

(** ** C9: negative coordinates *)

(** C9: when the first [X] (or the first [Y]) of a line is followed by a
    minus sign, the coordinate regex captures the empty string and [getXY]
    raises; in the stand-alone script every move line ([" X"], [" Y"] and
    [G1] or [G0]) of this shape therefore aborts the run. *)
Theorem getXY_negative_coordinate (cfg : Standalone.Config) (gdl : R) (st : Standalone.State)
    (c : ascii) (pre post : string) :
  (c = "X"%char \/ c = "Y"%char) ->
  Str.contains (String c EmptyString) pre = false ->
  getXY (pre ++ String c (String "-" post)) = None /\
  (Standalone.is_begin_infill_segment_line (pre ++ String c (String "-" post)) = false ->
   Str.contains " X" (pre ++ String c (String "-" post))
     && Str.contains " Y" (pre ++ String c (String "-" post))
     && (Str.contains "G1" (pre ++ String c (String "-" post))
         || Str.contains "G0" (pre ++ String c (String "-" post))) = true ->
   Standalone.process_line cfg gdl st (pre ++ String c (String "-" post)) = None).
Proof.
  intros Hc Hpre.
  assert (Hg : getXY (pre ++ String c (String "-" post)) = None).
  { unfold getXY. destruct Hc as [-> | ->].
    - rewrite re_search_num_negative by exact Hpre.
      destruct (Str.re_search_num "Y" _); reflexivity.
    - rewrite (re_search_num_negative "Y") by exact Hpre.
      destruct (Str.re_search_num "X" _) as [gx|]; [|reflexivity].
      cbn [bind]. destruct (Str.py_float gx); reflexivity. }
  split; [exact Hg|].
  intros Hb Hm. apply standalone_move_needs_getXY; assumption.
Qed.

(** Witness of C9: the move [G1 X-5 Y3 E1]. *)
Lemma getXY_negative_coordinate_witness :
  let cfg := Standalone.mkConfig Standalone.LINEAR 200 50 2 2 in
  let st := Standalone.initial_state in
  ("X"%char = "X"%char \/ "X"%char = "Y"%char) /\
  Str.contains (String "X" EmptyString) "G1 " = false /\
  getXY ("G1 " ++ String "X" (String "-" "5 Y3 E1")) = None /\
  (Standalone.is_begin_infill_segment_line ("G1 " ++ String "X" (String "-" "5 Y3 E1")) = false ->
   Str.contains " X" ("G1 " ++ String "X" (String "-" "5 Y3 E1"))
     && Str.contains " Y" ("G1 " ++ String "X" (String "-" "5 Y3 E1"))
     && (Str.contains "G1" ("G1 " ++ String "X" (String "-" "5 Y3 E1"))
         || Str.contains "G0" ("G1 " ++ String "X" (String "-" "5 Y3 E1"))) = true ->
   Standalone.process_line cfg 1 st ("G1 " ++ String "X" (String "-" "5 Y3 E1")) = None).
Proof.
  intros cfg st. split; [left; reflexivity|]. split; [reflexivity|].
  apply (getXY_negative_coordinate cfg 1 st "X" "G1 " "5 Y3 E1");
    [left; reflexivity | reflexivity].
Defined.

(** ** C10: a linear move of length zero *)

(** The stand-alone script on a [LINEAR] infill move [G1 ...] whose target
    is the last known position: [segmentSteps] is 0 and the extrusion per
    step divides by it (and by [gradientDiscretizationLength] when that is
    0). *)
Lemma standalone_zero_length_move_raises (cfg : Standalone.Config) (gdl : R)
    (st : Standalone.State) (rest : string) :
  Standalone.infill_type cfg = Standalone.LINEAR ->
  Standalone.currentSection st = Standalone.INFILL ->
  Str.contains "E" ("G1 " ++ rest) = true ->
  Str.contains " X" ("G1 " ++ rest) = true ->
  Str.contains "Y" ("G1 " ++ rest) = true ->
  getXY ("G1 " ++ rest) = Some (Standalone.lastPosition st) ->
  Standalone.process_line cfg gdl st ("G1 " ++ rest) = None.
Proof.
  intros Hl Hs HE HX HY Hg.
  unfold Standalone.process_line. cbv zeta.
  change (Standalone.is_begin_layer_line ("G1 " ++ rest)) with false.
  change (Standalone.is_begin_inner_wall_line ("G1 " ++ rest)) with false.
  change (Standalone.is_end_inner_wall_line ("G1 " ++ rest)) with false.
  change (Standalone.is_begin_infill_segment_line ("G1 " ++ rest)) with false.
  rewrite Hs. cbn [Standalone.Section_eqb andb bind].
  assert (Hib : Standalone.infill_block cfg gdl (Standalone.perimeterSegments st)
                  (Standalone.lastPosition st) ("G1 " ++ rest) = None).
  { unfold Standalone.infill_block. bind_none.
    rewrite HE, HX, HY. change (Str.contains "G1" ("G1 " ++ rest)) with true.
    cbn [andb]. rewrite Hg. cbn [bind]. rewrite Hl.
    assert (Hlm : forall splitLine, Standalone.linear_move cfg gdl (Standalone.perimeterSegments st)
                    (Standalone.lastPosition st) (Standalone.lastPosition st) splitLine = None).
    { intros splitLine. unfold Standalone.linear_move. bind_none. bind_none.
      assert (H0 : get_points_distance (Standalone.lastPosition st) (Standalone.lastPosition st) = 0).
      { unfold get_points_distance, pow_half.
        replace ((x (Standalone.lastPosition st) - x (Standalone.lastPosition st)) ^ 2
                 + (y (Standalone.lastPosition st) - y (Standalone.lastPosition st)) ^ 2) with 0 by ring.
        apply sqrt_0. }
      rewrite H0. unfold fdiv at 1.
      destruct (Req_dec_T gdl 0) as [Hz|Hz]; [reflexivity|]. cbn [bind].
      replace (0 / gdl) with 0 by (field; exact Hz).
      rewrite fdiv_zero. reflexivity. }
    rewrite Hlm. reflexivity. }
  rewrite Hib. reflexivity.
Qed.

(** The plug-in's [infill_type == 2] branch on a move of length zero. *)
Lemma plugin_linear_move_same_point (cfg : Plugin.Config) (gdl : R) (perim : option (list Segment))
    (feed : option R) (nl : list piece) (p : Point2D) (splitLine : list string) :
  Plugin.linear_move cfg gdl perim feed nl p p splitLine = None.
Proof.
  unfold Plugin.linear_move. cbv zeta.
  destruct (find_extrusion None splitLine) as [[E|]|]; cbn [bind]; try reflexivity.
  assert (H0 : get_points_distance p p = 0).
  { unfold get_points_distance, pow_half.
    replace ((x p - x p) ^ 2 + (y p - y p) ^ 2) with 0 by ring. apply sqrt_0. }
  rewrite H0. unfold fdiv at 1.
  destruct (Req_dec_T gdl 0) as [Hz|Hz]; [reflexivity|]. cbn [bind].
  replace (0 / gdl) with 0 by (field; exact Hz).
  rewrite fdiv_zero. reflexivity.
Qed.

(** The plug-in on a [LINEAR] infill move whose target is [lastPosition]. *)
Lemma plugin_zero_length_move_raises (cfg : Plugin.Config) (gdl : R)
    (st : Plugin.State) (rest : string) :
  Plugin.infill_type cfg = 2%Z ->
  Plugin.currentSection st = Plugin.INFILL ->
  Str.contains "E" ("G1 " ++ rest) = true ->
  Str.contains "X" ("G1 " ++ rest) = true ->
  Str.contains "Y" ("G1 " ++ rest) = true ->
  getXY ("G1 " ++ rest) = Some (Plugin.lastPosition st) ->
  Plugin.process_line cfg gdl st ("G1 " ++ rest) = None.
Proof.
  intros Ht Hs HE HX HY Hg.
  unfold Plugin.process_line. cbv zeta.
  change (Plugin.is_begin_layer_line ("G1 " ++ rest)) with false.
  change (Plugin.is_begin_inner_wall_line ("G1 " ++ rest)) with false.
  change (Plugin.is_begin_outer_wall_line ("G1 " ++ rest)) with false.
  change (Plugin.is_begin_infill_segment_line ("G1 " ++ rest)) with false.
  rewrite Hs. cbn [Plugin.Section_eqb andb negb bind].
  assert (Hib : forall st1, Plugin.lastPosition st1 = Plugin.lastPosition st ->
            Plugin.infill_block cfg gdl st1 ("G1 " ++ rest) = None).
  { intros st1 Hl. unfold Plugin.infill_block.
    match goal with |- bind ?m _ = None => destruct m as [[feed nl]|]; cbn [bind]; [|reflexivity] end.
    rewrite HE, HX, HY. change (Str.contains "G1" ("G1 " ++ rest)) with true. cbn [andb].
    rewrite Hg. cbn [bind]. rewrite Ht. cbn [Z.eqb Pos.eqb]. rewrite Hl.
    rewrite plugin_linear_move_same_point. reflexivity. }
  rewrite Hib by reflexivity. reflexivity.
Qed.

(** C10: in [LINEAR] mode an infill move [G1 ...] whose target is the last
    known position raises, in the stand-alone script and in the plug-in:
    [segmentSteps] is 0 and the extrusion per step divides by it (and by
    [gradientDiscretizationLength] when that is 0). *)
Theorem linear_zero_length_move_raises :
  (forall (cfg : Standalone.Config) (gdl : R) (st : Standalone.State) (rest : string),
   Standalone.infill_type cfg = Standalone.LINEAR ->
   Standalone.currentSection st = Standalone.INFILL ->
   Str.contains "E" ("G1 " ++ rest) = true ->
   Str.contains " X" ("G1 " ++ rest) = true ->
   Str.contains "Y" ("G1 " ++ rest) = true ->
   getXY ("G1 " ++ rest) = Some (Standalone.lastPosition st) ->
   Standalone.process_line cfg gdl st ("G1 " ++ rest) = None) /\
  (forall (cfg : Plugin.Config) (gdl : R) (st : Plugin.State) (rest : string),
   Plugin.infill_type cfg = 2%Z ->
   Plugin.currentSection st = Plugin.INFILL ->
   Str.contains "E" ("G1 " ++ rest) = true ->
   Str.contains "X" ("G1 " ++ rest) = true ->
   Str.contains "Y" ("G1 " ++ rest) = true ->
   getXY ("G1 " ++ rest) = Some (Plugin.lastPosition st) ->
   Plugin.process_line cfg gdl st ("G1 " ++ rest) = None).
Proof.
  split.
  - exact standalone_zero_length_move_raises.
  - exact plugin_zero_length_move_raises.
Qed.

(** Witness of C10: [G1 X5 Y5 E1] issued at (5, 5), in both programs. *)
Lemma linear_zero_length_move_raises_witness :
  let cfg := Standalone.mkConfig Standalone.LINEAR 200 50 2 2 in
  let st := Standalone.mkState Standalone.INFILL (mkPoint (IZR 5) (IZR 5)) (Some []) in
  let pcfg := Plugin.mkConfig 2 200 50 100 2 2 false 1 1 false in
  let pst := Plugin.mkState Plugin.INFILL (mkPoint (IZR 5) (IZR 5)) (Some []) (Some 1500) in
  (Standalone.infill_type cfg = Standalone.LINEAR /\
   Standalone.currentSection st = Standalone.INFILL /\
   Str.contains "E" ("G1 " ++ "X5 Y5 E1") = true /\
   Str.contains " X" ("G1 " ++ "X5 Y5 E1") = true /\
   Str.contains "Y" ("G1 " ++ "X5 Y5 E1") = true /\
   getXY ("G1 " ++ "X5 Y5 E1") = Some (Standalone.lastPosition st) /\
   Standalone.process_line cfg 1 st ("G1 " ++ "X5 Y5 E1") = None) /\
  (Plugin.infill_type pcfg = 2%Z /\
   Plugin.currentSection pst = Plugin.INFILL /\
   Str.contains "E" ("G1 " ++ "X5 Y5 E1") = true /\
   Str.contains "X" ("G1 " ++ "X5 Y5 E1") = true /\
   Str.contains "Y" ("G1 " ++ "X5 Y5 E1") = true /\
   getXY ("G1 " ++ "X5 Y5 E1") = Some (Plugin.lastPosition pst) /\
   Plugin.process_line pcfg 1 pst ("G1 " ++ "X5 Y5 E1") = None).
Proof.
  intros cfg st pcfg pst.
  assert (Hg : getXY ("G1 " ++ "X5 Y5 E1") = Some (mkPoint (IZR 5) (IZR 5))).
  { unfold getXY. reval. replace (IZR 5 / IZR 1) with (IZR 5) by (field; try lra). reflexivity. }
  split.
  - do 5 (split; [reflexivity|]). split; [exact Hg|].
    apply (proj1 linear_zero_length_move_raises); first [exact Hg | reflexivity].
  - do 5 (split; [reflexivity|]). split; [exact Hg|].
    apply (proj2 linear_zero_length_move_raises); first [exact Hg | reflexivity].
Defined.

(** ** C1: an infill move with an empty perimeter list *)

(** [range(int(s))] runs at least once when [s >= 2]. *)
Lemma py_int_steps (s : R) : 2 <= s -> exists n, Z.to_nat (py_int s) = S n.
Proof.
  intros Hs. unfold py_int. destruct (Rle_dec 0 s) as [_|]; [|lra].
  destruct (base_Int_part s) as [_ H2].
  assert (Hz : (0 < Int_part s)%Z) by (apply lt_IZR; simpl; lra).
  exists (Z.to_nat (Int_part s) - 1)%nat. lia.
Qed.

(** A step count [segmentLength / gdl >= 2] needs [gdl <> 0] and a segment
    of non-zero length. *)
Lemma steps_nonzero (len gdl : R) : 2 <= len / gdl -> gdl <> 0 /\ len <> 0 /\ len / gdl <> 0.
Proof.
  intros H. split; [|split].
  - intros ->. unfold Rdiv in H. rewrite Rinv_0, Rmult_0_r in H. lra.
  - intros ->. unfold Rdiv in H. rewrite Rmult_0_l in H. lra.
  - lra.
Qed.

(** The markers of the stand-alone script never match a [G1] line. *)
Lemma standalone_G1_not_marker (rest : string) :
  Standalone.is_begin_layer_line ("G1 " ++ rest) = false /\
  Standalone.is_begin_inner_wall_line ("G1 " ++ rest) = false /\
  Standalone.is_end_inner_wall_line ("G1 " ++ rest) = false /\
  Standalone.is_begin_infill_segment_line ("G1 " ++ rest) = false.
Proof. repeat split. Qed.

(** A [G1] line in an infill section: [process_line] raises when the infill
    block does. *)
Lemma standalone_infill_block_raises (cfg : Standalone.Config) (gdl : R)
    (st : Standalone.State) (rest : string) :
  Standalone.currentSection st = Standalone.INFILL ->
  Standalone.infill_block cfg gdl (Standalone.perimeterSegments st) (Standalone.lastPosition st)
    ("G1 " ++ rest) = None ->
  Standalone.process_line cfg gdl st ("G1 " ++ rest) = None.
Proof.
  intros Hs Hib. destruct (standalone_G1_not_marker rest) as (H1 & H2 & H3 & H4).
  unfold Standalone.process_line. cbv zeta. rewrite H1, H2, H3, H4, Hs.
  cbn [Standalone.Section_eqb andb bind]. rewrite Hib. reflexivity.
Qed.

(** C1 (counterexample): a gyroid move [G1 X10 Y0 E1] in an infill
    section while no wall segment has been collected makes the stand-alone
    script raise ([min] of an empty sequence). *)
Lemma empty_perimeter_move_cex :
  Standalone.process_line (Standalone.mkConfig Standalone.SMALL_SEGMENTS 200 50 6 4) (6 / 4)
    (Standalone.mkState Standalone.INFILL (mkPoint 0 0) (Some [])) "G1 X10 Y0 E1
" = None.
Proof. reval. reflexivity. Qed.

(** C1 (amended): with an empty perimeter list, an infill move raises in
    [SMALL_SEGMENTS] mode, and in [LINEAR] mode whenever it is subdivided
    ([segmentSteps >= 2]): the nearest-wall query takes [min] of an empty
    sequence, and no fallback passes the line through. *)
Theorem empty_perimeter_query_raises (cfg : Standalone.Config) (gdl : R)
    (st : Standalone.State) (rest : string) :
  Standalone.currentSection st = Standalone.INFILL ->
  Standalone.perimeterSegments st = Some [] ->
  Str.contains "E" ("G1 " ++ rest) = true ->
  Str.contains " X" ("G1 " ++ rest) = true ->
  Str.contains "Y" ("G1 " ++ rest) = true ->
  (Standalone.infill_type cfg = Standalone.SMALL_SEGMENTS ->
   Standalone.process_line cfg gdl st ("G1 " ++ rest) = None) /\
  (Standalone.infill_type cfg = Standalone.LINEAR ->
   forall cur, getXY ("G1 " ++ rest) = Some cur ->
   2 <= get_points_distance (Standalone.lastPosition st) cur / gdl ->
   Standalone.process_line cfg gdl st ("G1 " ++ rest) = None).
Proof.
  intros Hs Hp HE HX HY.
  assert (Hmove : Str.contains "E" ("G1 " ++ rest) && Str.contains "G1" ("G1 " ++ rest)
                  && Str.contains " X" ("G1 " ++ rest) && Str.contains "Y" ("G1 " ++ rest) = true).
  { rewrite HE, HX, HY. reflexivity. }
  split.
  - intros Ht. apply standalone_infill_block_raises; [exact Hs|].
    unfold Standalone.infill_block. bind_none. rewrite Hmove.
    bind_none. rewrite Ht, Hp. reflexivity.
  - intros Ht cur Hg Hsteps. apply standalone_infill_block_raises; [exact Hs|].
    destruct (steps_nonzero _ _ Hsteps) as (Hgdl & Hlen & Hst).
    destruct (py_int_steps _ Hsteps) as [n Hn].
    unfold Standalone.infill_block. bind_none. rewrite Hmove, Hg. cbn [bind]. rewrite Ht.
    assert (Hlm : forall splitLine, Standalone.linear_move cfg gdl (Standalone.perimeterSegments st)
                    (Standalone.lastPosition st) cur splitLine = None).
    { intros splitLine. unfold Standalone.linear_move. bind_none. bind_none.
      rewrite fdiv_nonzero by exact Hgdl. cbn [bind].
      rewrite fdiv_nonzero by exact Hst. cbn [bind].
      rewrite fdiv_nonzero by exact Hlen. cbn [bind].
      rewrite fdiv_nonzero by exact Hlen. cbn [bind].
      destruct (Rle_dec 2 _) as [_|]; [|lra].
      rewrite Hn, Hp. reflexivity. }
    rewrite Hlm. reflexivity.
Qed.

(** Witness of C1: the gyroid case of the counterexample input, and a
    linear move of length 10 with steps of length 1. *)
Lemma empty_perimeter_query_raises_witness :
  let st := Standalone.mkState Standalone.INFILL (mkPoint 0 0) (Some []) in
  Standalone.process_line (Standalone.mkConfig Standalone.SMALL_SEGMENTS 200 50 6 4) (6 / 4) st
    ("G1 " ++ "X10 Y0 E1") = None /\
  Standalone.process_line (Standalone.mkConfig Standalone.LINEAR 200 50 4 4) 1 st
    ("G1 " ++ "X10 Y0 E1") = None.
Proof.
  intros st.
  assert (Hg : getXY ("G1 " ++ "X10 Y0 E1") = Some (mkPoint 10 0)).
  { unfold getXY. reval. replace (IZR 10 / IZR 1) with 10 by field. replace (IZR 0 / IZR 1) with 0 by field. reflexivity. }
  split.
  - apply (empty_perimeter_query_raises (Standalone.mkConfig Standalone.SMALL_SEGMENTS 200 50 6 4)
             (6 / 4) st "X10 Y0 E1"); reflexivity.
  - apply (empty_perimeter_query_raises (Standalone.mkConfig Standalone.LINEAR 200 50 4 4)
             1 st "X10 Y0 E1") with (cur := mkPoint 10 0); try reflexivity.
    all: try exact Hg.
    unfold get_points_distance, pow_half. simpl.
    sqrt_is 10. lra.
Defined.

(** A division that did not raise. *)
Lemma fdiv_some (a b q : R) : fdiv a b = Some q -> b <> 0 /\ q = a / b.
Proof.
  unfold fdiv. destruct (Req_dec_T b 0); [discriminate|]. intros H. injection H as <-. split; [assumption|reflexivity].
Qed.

(** Take a non-raising division out of a chain of binds. *)
Ltac bind_fdiv H :=
  match type of H with
  | context [bind (fdiv ?a ?b) _] =>
      let Hq := fresh "Hq" in
      destruct (fdiv a b) as [?|] eqn:Hq; cbn [bind] in H; [|discriminate H];
      apply fdiv_some in Hq
  end.

(** The markers of the plug-in never match a [G1] line. *)
Lemma plugin_G1_not_marker (rest : string) :
  Plugin.is_begin_layer_line ("G1 " ++ rest) = false /\
  Plugin.is_begin_inner_wall_line ("G1 " ++ rest) = false /\
  Plugin.is_begin_outer_wall_line ("G1 " ++ rest) = false /\
  Plugin.is_begin_infill_segment_line ("G1 " ++ rest) = false.
Proof. repeat split. Qed.

(** ** The subdivision of a linear move *)

(** The stepped loop of the stand-alone script: [n] sub-moves to the
    successive points, each with the extrusion per step times the flow
    multiplier at the distance of its midpoint. *)
Lemma linear_steps_spec (cfg : Standalone.Config) (ps : list Segment) (dir : Point2D)
    (ePS : R) (n : nat) (p q : Point2D) (out : list piece) :
  Standalone.linear_steps cfg (Some ps) dir ePS n p = Some (out, q) ->
  q = step_point dir n p /\
  exists cmds : list (list piece),
    length cmds = n /\ out = concat cmds /\
    forall k, (k < n)%nat -> exists d m,
      min_distance_from_segment (mkSegment (step_point dir k p) (step_point dir (S k) p)) ps = Some d /\
      flow_multiplier (Standalone.gradient_thickness cfg) (Standalone.max_flow cfg)
        (Standalone.min_flow cfg) d = Some m /\
      nth k cmds [] = get_extrusion_command (x (step_point dir (S k) p)) (y (step_point dir (S k) p)) (ePS * m).
Proof.
  revert p q out. induction n as [|n IH]; intros p q out H; simpl in H.
  - injection H as <- <-. split; [reflexivity|]. exists []. split; [reflexivity|].
    split; [reflexivity|]. intros k Hk. lia.
  - change (mkPoint (x p + x dir) (y p + y dir)) with (advance dir p) in H.
    destruct (min_distance_from_segment (mkSegment p (advance dir p)) ps) as [d|] eqn:Hd;
      [cbn [bind] in H | discriminate H].
    match type of H with
    | bind ?m _ = Some _ => destruct m as [e|] eqn:He; [cbn [bind] in H | discriminate H]
    end.
    destruct (Standalone.linear_steps cfg (Some ps) dir ePS n (advance dir p)) as [[out' q']|] eqn:Hr;
      [cbn [bind fst snd] in H | discriminate H].
    injection H as <- <-.
    destruct (IH _ _ _ Hr) as [Hq [cmds (Hlen & Hout & Hk)]].
    split; [exact Hq|].
    assert (Hm : exists m, flow_multiplier (Standalone.gradient_thickness cfg) (Standalone.max_flow cfg)
                             (Standalone.min_flow cfg) d = Some m /\ e = ePS * m).
    { unfold flow_multiplier. destruct (Rlt_dec d (Standalone.gradient_thickness cfg)).
      - unfold mapRange.
        destruct (fdiv ((d - 0) * (Standalone.min_flow cfg / 100 - Standalone.max_flow cfg / 100))
                    (Standalone.gradient_thickness cfg - 0)) as [q0|];
          cbn [bind] in He |- *; [|discriminate He].
        injection He as <-. eexists. split; reflexivity.
      - injection He as <-. exists (Standalone.min_flow cfg / 100).
        split; [reflexivity | unfold Rdiv; ring]. }
    destruct Hm as [m [Hm ->]].
    exists (get_extrusion_command (x (advance dir p)) (y (advance dir p)) (ePS * m) :: cmds).
    split; [simpl; lia|]. split; [simpl; rewrite Hout; reflexivity|].
    intros [|k] Hkn.
    + exists d, m. simpl. split; [exact Hd|]. split; [exact Hm | reflexivity].
    + destruct (Hk k ltac:(lia)) as (d' & m' & Hd' & Hm' & Hc).
      exists d', m'. simpl. split; [exact Hd'|]. split; [exact Hm' | exact Hc].
Qed.

(** The text written for a subdivided [LINEAR] move ([segmentSteps >= 2])
    by the stand-alone script: the feed line, the stepped loop, and one
    final move to [currentPosition]. *)
Lemma standalone_linear_subdivided (cfg : Standalone.Config) (gdl : R) (st st' : Standalone.State)
    (rest : string) (cur : Point2D) (E : R) (out : list piece) :
  Standalone.infill_type cfg = Standalone.LINEAR ->
  Standalone.currentSection st = Standalone.INFILL ->
  Str.contains "E" ("G1 " ++ rest) = true ->
  Str.contains " X" ("G1 " ++ rest) = true ->
  Str.contains "Y" ("G1 " ++ rest) = true ->
  getXY ("G1 " ++ rest) = Some cur ->
  find_extrusion None (Str.split_space ("G1 " ++ rest)) = Some (Some E) ->
  2 <= get_points_distance (Standalone.lastPosition st) cur / gdl ->
  Standalone.process_line cfg gdl st ("G1 " ++ rest) = Some (st', out) ->
  exists pre ps loop q,
    Standalone.feed_line ("G1 " ++ rest) = Some pre /\
    Standalone.perimeterSegments st = Some ps /\
    Standalone.linear_steps cfg (Some ps) (sub_direction gdl (Standalone.lastPosition st) cur)
      (E / (get_points_distance (Standalone.lastPosition st) cur / gdl))
      (Z.to_nat (py_int (get_points_distance (Standalone.lastPosition st) cur / gdl)))
      (Standalone.lastPosition st) = Some (loop, q) /\
    out = pre ++ loop ++ get_extrusion_command (x cur) (y cur)
            (get_points_distance q cur / get_points_distance (Standalone.lastPosition st) cur
             * E * Standalone.max_flow cfg / 100).
Proof.
  intros Ht Hs HE HX HY Hg Hext Hsteps H.
  destruct (steps_nonzero _ _ Hsteps) as (Hgdl & Hlen & Hst).
  destruct (py_int_steps _ Hsteps) as [n Hn].
  destruct (standalone_G1_not_marker rest) as (H1 & H2 & H3 & H4).
  assert (Hmove : Str.contains "E" ("G1 " ++ rest) && Str.contains "G1" ("G1 " ++ rest)
                  && Str.contains " X" ("G1 " ++ rest) && Str.contains "Y" ("G1 " ++ rest) = true).
  { rewrite HE, HX, HY. reflexivity. }
  unfold Standalone.process_line in H. cbv zeta in H. rewrite H1, H2, H3, H4, Hs in H.
  cbn [Standalone.Section_eqb andb bind] in H.
  destruct (Standalone.infill_block cfg gdl (Standalone.perimeterSegments st)
              (Standalone.lastPosition st) ("G1 " ++ rest)) as [[[o w] lp]|] eqn:Hib;
    cbn [bind] in H; [|discriminate H].
  bind_some H. injection H as _ Hout.
  unfold Standalone.infill_block in Hib.
  destruct (Standalone.feed_line ("G1 " ++ rest)) as [pre|] eqn:Hf; cbn [bind] in Hib; [|discriminate Hib].
  rewrite Hmove, Hg in Hib. cbn [bind] in Hib. rewrite Ht in Hib.
  destruct (Standalone.linear_move cfg gdl (Standalone.perimeterSegments st) (Standalone.lastPosition st)
              cur (Str.split_space ("G1 " ++ rest))) as [[lo lq]|] eqn:Hlm;
    cbn [bind fst snd] in Hib; [|discriminate Hib].
  injection Hib as <- <- <-.
  unfold Standalone.linear_move in Hlm. cbv zeta in Hlm. rewrite Hext in Hlm. cbn [bind] in Hlm.
  rewrite (fdiv_nonzero _ gdl) in Hlm by exact Hgdl. cbn [bind] in Hlm.
  rewrite (fdiv_nonzero E) in Hlm by exact Hst. cbn [bind] in Hlm.
  rewrite (fdiv_nonzero (x cur - x (Standalone.lastPosition st))) in Hlm by exact Hlen. cbn [bind] in Hlm.
  rewrite (fdiv_nonzero (y cur - y (Standalone.lastPosition st))) in Hlm by exact Hlen. cbn [bind] in Hlm.
  destruct (Rle_dec 2 _) as [_|]; [|lra].
  destruct (Standalone.perimeterSegments st) as [ps|] eqn:Hp.
  2: { rewrite Hn in Hlm. discriminate Hlm. }
  destruct (Standalone.linear_steps cfg (Some ps) _ _ _ (Standalone.lastPosition st)) as [[loop q]|] eqn:Hls;
    cbn [bind fst snd] in Hlm; [|discriminate Hlm].
  rewrite (fdiv_nonzero _ (get_points_distance (Standalone.lastPosition st) cur)) in Hlm by exact Hlen.
  cbn [bind fst snd] in Hlm. injection Hlm as <- <-.
  exists pre, ps, loop, q. split; [reflexivity|]. split; [reflexivity|]. split; [exact Hls|].
  rewrite <- Hout. cbn [fst]. rewrite app_assoc. reflexivity.
Qed.
(** The stepped loop of the plug-in: [n] sub-moves to the successive
    points, each with the extrusion per step times the flow multiplier at the
    distance of its midpoint, followed by the current [stringFeed] and a
    newline. *)
Lemma plugin_linear_steps_spec (cfg : Plugin.Config) (ps : list Segment) (feed : option R) (dir : Point2D)
    (ePS : R) (n : nat) (p q : Point2D) (sf0 sf : list piece) (out : list piece) :
  Plugin.linear_steps cfg (Some ps) feed dir ePS n p sf0 = Some (out, q, sf) ->
  q = step_point dir n p /\
  exists cmds : list (list piece),
    length cmds = n /\ out = concat cmds /\
    forall k, (k < n)%nat -> exists d m sfk,
      min_distance_from_segment (mkSegment (step_point dir k p) (step_point dir (S k) p)) ps = Some d /\
      flow_multiplier (Plugin.gradient_thickness cfg) (Plugin.max_flow cfg)
        (Plugin.min_flow cfg) d = Some m /\
      nth k cmds [] = Plugin.get_extrusion_command (x (step_point dir (S k) p)) (y (step_point dir (S k) p)) (ePS * m)
                      ++ sfk ++ [PStr "
"].
Proof.
  revert p q sf0 sf out. induction n as [|n IH]; intros p q sf0 sf out H; cbn [Plugin.linear_steps bind] in H.
  - injection H as <- <- <-. split; [reflexivity|]. exists []. split; [reflexivity|].
    split; [reflexivity|]. intros k Hk. lia.
  - change (mkPoint (x p + x dir) (y p + y dir)) with (advance dir p) in H.
    destruct (min_distance_from_segment (mkSegment p (advance dir p)) ps) as [d|] eqn:Hd;
      [cbn [bind] in H | discriminate H].
    match type of H with
    | bind ?m _ = Some _ => destruct m as [[e sf1]|] eqn:He; [cbn [bind] in H | discriminate H]
    end.
    destruct (Plugin.linear_steps cfg (Some ps) feed dir ePS n (advance dir p) sf1) as [[[out' q'] sf']|] eqn:Hr;
      [cbn [bind] in H | discriminate H].
    injection H as <- <- <-.
    destruct (IH _ _ _ _ _ Hr) as [Hq [cmds (Hlen & Hout & Hk)]].
    split; [exact Hq|].
    assert (Hm : exists m, flow_multiplier (Plugin.gradient_thickness cfg) (Plugin.max_flow cfg)
                             (Plugin.min_flow cfg) d = Some m /\ e = ePS * m).
    { unfold flow_multiplier. destruct (Rlt_dec d (Plugin.gradient_thickness cfg)).
      - destruct (mapRange (0, Plugin.gradient_thickness cfg)
                    (Plugin.max_flow cfg / 100, Plugin.min_flow cfg / 100) d) as [m|];
          cbn [bind] in He |- *; [|discriminate He].
        destruct feed as [cf|]; cbn [bind] in He; [|discriminate He].
        destruct (fdiv cf m); cbn [bind] in He; [|discriminate He].
        injection He as <- _. exists m. split; reflexivity.
      - destruct feed as [cf|]; cbn [bind] in He; [|discriminate He].
        match type of He with bind ?m _ = Some _ => destruct m; cbn [bind] in He; [|discriminate He] end.
        injection He as <- _. exists (Plugin.min_flow cfg / 100).
        split; [reflexivity | unfold Rdiv; ring]. }
    destruct Hm as [m [Hm ->]].
    exists ((Plugin.get_extrusion_command (x (advance dir p)) (y (advance dir p)) (ePS * m) ++ sf1 ++ [PStr "
"]) :: cmds).
    split; [simpl; lia|]. split; [cbn [concat]; rewrite Hout, <- !app_assoc; reflexivity|].
    intros [|k] Hkn.
    + exists d, m, sf1. simpl. split; [exact Hd|]. split; [exact Hm | reflexivity].
    + destruct (Hk k ltac:(lia)) as (d' & m' & sfk & Hd' & Hm' & Hc).
      exists d', m', sfk. simpl. split; [exact Hd'|]. split; [exact Hm' | exact Hc].
Qed.

(** The value assigned to [lines[line_index]] for a subdivided [LINEAR]
    move ([segmentSteps >= 2]) by the plug-in: [new_Line], the stepped loop,
    and one final move to [currentPosition] followed by [stringFeed]. *)
Lemma plugin_linear_subdivided (cfg : Plugin.Config) (gdl : R) (st st' : Plugin.State)
    (rest : string) (cur : Point2D) (E : R) (a : option (list piece)) :
  Plugin.infill_type cfg = 2%Z ->
  Plugin.currentSection st = Plugin.INFILL ->
  Str.contains ";" ("G1 " ++ rest) = false ->
  Str.contains "E" ("G1 " ++ rest) = true ->
  Str.contains "X" ("G1 " ++ rest) = true ->
  Str.contains "Y" ("G1 " ++ rest) = true ->
  getXY ("G1 " ++ rest) = Some cur ->
  find_extrusion None (Str.split_space ("G1 " ++ rest)) = Some (Some E) ->
  2 <= get_points_distance (Plugin.lastPosition st) cur / gdl ->
  Plugin.process_line cfg gdl st ("G1 " ++ rest) = Some (st', a) ->
  exists nl ps feed loop q sf sf',
    Plugin.perimeterSegments st = Some ps /\
    Plugin.linear_steps cfg (Some ps) feed (sub_direction gdl (Plugin.lastPosition st) cur)
      (E / (get_points_distance (Plugin.lastPosition st) cur / gdl))
      (Z.to_nat (py_int (get_points_distance (Plugin.lastPosition st) cur / gdl)))
      (Plugin.lastPosition st) [] = Some (loop, q, sf) /\
    a = Some (nl ++ loop ++ Plugin.get_extrusion_command (x cur) (y cur)
                (get_points_distance q cur / get_points_distance (Plugin.lastPosition st) cur
                 * E * Plugin.max_flow cfg / 100) ++ sf').
Proof.
  intros Ht Hs Hsc HE HX HY Hg Hext Hsteps H.
  destruct (steps_nonzero _ _ Hsteps) as (Hgdl & Hlen & Hst).
  destruct (py_int_steps _ Hsteps) as [n Hn].
  destruct (plugin_G1_not_marker rest) as (H1 & H2 & H3 & H4).
  assert (Hmove : Str.contains "E" ("G1 " ++ rest) && Str.contains "G1" ("G1 " ++ rest)
                  && Str.contains "X" ("G1 " ++ rest) && Str.contains "Y" ("G1 " ++ rest) = true).
  { rewrite HE, HX, HY. reflexivity. }
  unfold Plugin.process_line in H. cbv zeta in H. rewrite H1, H2, H3, H4, Hs in H.
  cbn [Plugin.Section_eqb andb negb bind] in H.
  destruct (Plugin.infill_block cfg gdl _ ("G1 " ++ rest)) as [[[f asg] lp]|] eqn:Hib;
    cbn [bind] in H; [|discriminate H].
  rewrite Hsc in H. cbn [andb] in H.
  bind_some H. injection H as _ Hout.
  unfold Plugin.infill_block in Hib. cbn [Plugin.perimeterSegments Plugin.lastPosition Plugin.current_feed] in Hib.
  match type of Hib with bind ?m _ = Some _ => destruct m as [[feed nl]|] eqn:Hr0 end;
    cbn [bind] in Hib; [|discriminate Hib].
  rewrite Hmove, Hg in Hib. cbn [bind] in Hib. rewrite Ht in Hib. cbn [Z.eqb Pos.eqb] in Hib.
  destruct (Plugin.linear_move _ _ _ _ _ _ _ _) as [[lo lq]|] eqn:Hlm;
    cbn [bind fst snd] in Hib; [|discriminate Hib].
  injection Hib as _ <- _.
  unfold Plugin.linear_move in Hlm. cbv zeta in Hlm. rewrite Hext in Hlm. cbn [bind] in Hlm.
  rewrite (fdiv_nonzero _ gdl) in Hlm by exact Hgdl. cbn [bind] in Hlm.
  rewrite (fdiv_nonzero E) in Hlm by exact Hst. cbn [bind] in Hlm.
  rewrite (fdiv_nonzero (x cur - x (Plugin.lastPosition st))) in Hlm by exact Hlen. cbn [bind] in Hlm.
  rewrite (fdiv_nonzero (y cur - y (Plugin.lastPosition st))) in Hlm by exact Hlen. cbn [bind] in Hlm.
  destruct (Rle_dec 2 _) as [_|]; [|lra].
  destruct (Plugin.perimeterSegments st) as [ps|] eqn:Hp.
  2: { rewrite Hn in Hlm. discriminate Hlm. }
  destruct (Plugin.linear_steps cfg (Some ps) feed _ _ _ (Plugin.lastPosition st) []) as [[[loop q] sf]|] eqn:Hls;
    cbn [bind] in Hlm; [|discriminate Hlm].
  rewrite (fdiv_nonzero _ (get_points_distance (Plugin.lastPosition st) cur)) in Hlm by exact Hlen.
  cbn [bind] in Hlm.
  destruct feed as [cf|]; cbn [bind] in Hlm; [|discriminate Hlm].
  bind_fdiv Hlm. injection Hlm as <- _.
  exists nl, ps, (Some cf), loop, q, sf. eexists.
  split; [reflexivity|]. split; [exact Hls|].
  rewrite <- Hout. reflexivity.
Qed.

(** [Int_part] (the floor) at a real between two consecutive integers. *)
Lemma Int_part_value (r : R) (z : Z) : IZR z <= r < IZR z + 1 -> Int_part r = z.
Proof.
  intros [H1 H2]. unfold Int_part.
  rewrite <- (tech_up r (z + 1)); [lia| |]; rewrite plus_IZR; simpl; lra.
Qed.
(** Split a comparison on reals of which [lra] refutes one side. *)
Ltac rdecide :=
  match goal with
  | |- context [Req_dec_T ?a ?b] =>
      first [ destruct (Req_dec_T a b) as [_|?]; [|exfalso; lra]
            | destruct (Req_dec_T a b) as [?|_]; [exfalso; lra|] ]
  | |- context [Rlt_dec ?a ?b] =>
      first [ destruct (Rlt_dec a b) as [_|?]; [|exfalso; lra]
            | destruct (Rlt_dec a b) as [?|_]; [exfalso; lra|] ]
  | |- context [Rle_dec ?a ?b] =>
      first [ destruct (Rle_dec a b) as [_|?]; [|exfalso; lra]
            | destruct (Rle_dec a b) as [?|_]; [exfalso; lra|] ]
  end.
(** Equal outputs up to the arithmetic inside the rounded values. *)
Ltac pieces_eq :=
  repeat match goal with
  | |- Some _ = Some _ => f_equal
  | |- (_, _) = (_, _) => f_equal
  | |- _ :: _ = _ :: _ => f_equal
  | |- PRound _ _ = PRound _ _ => f_equal
  end; try lra.
(** A linear move of length 5 with sub-segments of length 2, far from the
    wall: [segmentSteps = 2.5], two stepped sub-moves and the final one. *)
Lemma linear_example_run :
  Standalone.process_line (Standalone.mkConfig Standalone.LINEAR 100 100 2 1) 2
    (Standalone.mkState Standalone.INFILL (mkPoint 0 0) (Some [mkSegment (mkPoint 0 10) (mkPoint 10 10)]))
    ("G1 " ++ "X5 Y0 E1")
  = Some (Standalone.mkState Standalone.INFILL (mkPoint 5 0) (Some [mkSegment (mkPoint 0 10) (mkPoint 10 10)]),
          get_extrusion_command 2 0 (2 / 5) ++ get_extrusion_command 4 0 (2 / 5)
          ++ get_extrusion_command 5 0 (1 / 5)).
Proof.
  unfold Standalone.process_line. reval. sqrt_is 5.
  repeat rdecide.
  rewrite (Int_part_value (5 / 2) 2) by lra. reval.
  repeat (first [rdecide | sqrt_is 10 | sqrt_is 1]).
  unfold get_extrusion_command. cbn [app]. pieces_eq.
Qed.

(** Facts on the line [G1 X5 Y0 E1] used at the concrete inputs. *)
Lemma example_line_facts :
  getXY ("G1 " ++ "X5 Y0 E1") = Some (mkPoint 5 0) /\
  find_extrusion None (Str.split_space ("G1 " ++ "X5 Y0 E1")) = Some (Some 1) /\
  2 <= get_points_distance (mkPoint 0 0) (mkPoint 5 0) / 2.
Proof.
  split; [|split].
  - unfold getXY. reval. reflexivity.
  - reval. reflexivity.
  - unfold get_points_distance, pow_half. simpl. sqrt_is 5. lra.
Qed.

(** The plug-in on the same move, with a flat flow profile, far from the
    wall and without gradual speed: two stepped sub-moves and the final
    one. *)
Lemma plugin_linear_example_run :
  Plugin.process_line (Plugin.mkConfig 2 100 100 100 2 1 false 1 1 false) 2
    (Plugin.mkState Plugin.INFILL (mkPoint 0 0) (Some [mkSegment (mkPoint 0 10) (mkPoint 10 10)]) (Some 1500))
    ("G1 " ++ "X5 Y0 E1")
  = Some (Plugin.mkState Plugin.INFILL (mkPoint 5 0) (Some [mkSegment (mkPoint 0 10) (mkPoint 10 10)]) (Some 1500),
          Some (Plugin.get_extrusion_command 2 0 (2 / 5) ++ [PStr "
"] ++ Plugin.get_extrusion_command 4 0 (2 / 5) ++ [PStr "
"] ++ Plugin.get_extrusion_command 5 0 (1 / 5))).
Proof.
  unfold Plugin.process_line. reval. sqrt_is 5.
  repeat rdecide.
  rewrite (Int_part_value (5 / 2) 2) by lra. reval.
  repeat (first [rdecide | sqrt_is 10 | sqrt_is 1]).
  unfold Plugin.get_extrusion_command. cbn [app]. pieces_eq.
Qed.

(** ** C4: the extrusion of the stepped sub-moves *)

(** C4 (counterexample): a linear move of length 5 with sub-segments of
    length 2 has [segmentSteps = 2.5] and two stepped sub-moves; with a flat
    flow profile (multiplier 1) each carries [1 / 2.5 = 0.4], not
    [E / floor(segmentSteps) * 1 = 0.5], in the stand-alone script and in
    the plug-in alike. *)
Lemma linear_submove_floor_cex :
  Standalone.process_line (Standalone.mkConfig Standalone.LINEAR 100 100 2 1) 2
    (Standalone.mkState Standalone.INFILL (mkPoint 0 0) (Some [mkSegment (mkPoint 0 10) (mkPoint 10 10)]))
    "G1 X5 Y0 E1"
  = Some (Standalone.mkState Standalone.INFILL (mkPoint 5 0) (Some [mkSegment (mkPoint 0 10) (mkPoint 10 10)]),
          get_extrusion_command 2 0 (2 / 5) ++ get_extrusion_command 4 0 (2 / 5)
          ++ get_extrusion_command 5 0 (1 / 5)) /\
  Plugin.process_line (Plugin.mkConfig 2 100 100 100 2 1 false 1 1 false) 2
    (Plugin.mkState Plugin.INFILL (mkPoint 0 0) (Some [mkSegment (mkPoint 0 10) (mkPoint 10 10)]) (Some 1500))
    "G1 X5 Y0 E1"
  = Some ((Plugin.mkState Plugin.INFILL (mkPoint 5 0) (Some [mkSegment (mkPoint 0 10) (mkPoint 10 10)]) (Some 1500)),
          Some (Plugin.get_extrusion_command 2 0 (2 / 5) ++ [PStr "
"] ++ Plugin.get_extrusion_command 4 0 (2 / 5) ++ [PStr "
"]
            ++ Plugin.get_extrusion_command 5 0 (1 / 5))) /\
  Z.to_nat (py_int (get_points_distance (mkPoint 0 0) (mkPoint 5 0) / 2)) = 2%nat /\
  (forall d, flow_multiplier 2 100 100 d = Some 1) /\
  2 / 5 <> 1 / 2 * 1.
Proof.
  split; [exact linear_example_run|]. split; [exact plugin_linear_example_run|]. split; [|split].
  - unfold get_points_distance, pow_half. simpl. sqrt_is 5.
    unfold py_int. destruct (Rle_dec 0 (5 / 2)) as [_|]; [|lra].
    rewrite (Int_part_value (5 / 2) 2) by lra. reflexivity.
  - intros d. unfold flow_multiplier. destruct (Rlt_dec d 2).
    + rewrite mapRange_gradient by lra. f_equal. field.
    + f_equal. field.
  - lra.
Qed.

(** The extrusion of the stepped sub-moves of the stand-alone script. *)
Lemma standalone_linear_submove_extrusion (cfg : Standalone.Config) (gdl : R) (st st' : Standalone.State)
    (rest : string) (cur : Point2D) (E : R) (out : list piece) :
  Standalone.infill_type cfg = Standalone.LINEAR ->
  Standalone.currentSection st = Standalone.INFILL ->
  Str.contains "E" ("G1 " ++ rest) = true ->
  Str.contains " X" ("G1 " ++ rest) = true ->
  Str.contains "Y" ("G1 " ++ rest) = true ->
  getXY ("G1 " ++ rest) = Some cur ->
  find_extrusion None (Str.split_space ("G1 " ++ rest)) = Some (Some E) ->
  2 <= get_points_distance (Standalone.lastPosition st) cur / gdl ->
  Standalone.process_line cfg gdl st ("G1 " ++ rest) = Some (st', out) ->
  exists pre ps cmds post,
    Standalone.feed_line ("G1 " ++ rest) = Some pre /\
    Standalone.perimeterSegments st = Some ps /\
    out = pre ++ concat cmds ++ post /\
    (exists e, post = get_extrusion_command (x cur) (y cur) e) /\
    length cmds = Z.to_nat (py_int ((get_points_distance (Standalone.lastPosition st) cur) / gdl)) /\
    forall k, (k < length cmds)%nat -> exists d m,
      min_distance_from_segment
        (mkSegment (step_point (sub_direction gdl (Standalone.lastPosition st) cur) k (Standalone.lastPosition st))
                   (step_point (sub_direction gdl (Standalone.lastPosition st) cur) (S k) (Standalone.lastPosition st))) ps = Some d /\
      flow_multiplier (Standalone.gradient_thickness cfg) (Standalone.max_flow cfg)
        (Standalone.min_flow cfg) d = Some m /\
      nth k cmds [] =
        get_extrusion_command (x (step_point (sub_direction gdl (Standalone.lastPosition st) cur) (S k) (Standalone.lastPosition st)))
          (y (step_point (sub_direction gdl (Standalone.lastPosition st) cur) (S k) (Standalone.lastPosition st)))
          (E / ((get_points_distance (Standalone.lastPosition st) cur) / gdl) * m).
Proof.
  intros Ht Hs HE HX HY Hg Hext Hsteps H.
  destruct (standalone_linear_subdivided cfg gdl st st' rest cur E out Ht Hs HE HX HY Hg Hext Hsteps H)
    as (pre & ps & loop & q & Hf & Hp & Hls & Hout).
  destruct (linear_steps_spec _ _ _ _ _ _ _ _ Hls) as (_ & cmds & Hlen & Hloop & Hk).
  exists pre, ps, cmds. eexists. split; [exact Hf|]. split; [exact Hp|].
  split; [rewrite Hout, Hloop; reflexivity|]. split; [eexists; reflexivity|].
  split; [exact Hlen|]. rewrite Hlen. exact Hk.
Qed.

(** The extrusion of the stepped sub-moves of the plug-in. *)
Lemma plugin_linear_submove_extrusion (cfg : Plugin.Config) (gdl : R) (st st' : Plugin.State)
    (rest : string) (cur : Point2D) (E : R) (a : option (list piece)) :
  Plugin.infill_type cfg = 2%Z ->
  Plugin.currentSection st = Plugin.INFILL ->
  Str.contains ";" ("G1 " ++ rest) = false ->
  Str.contains "E" ("G1 " ++ rest) = true ->
  Str.contains "X" ("G1 " ++ rest) = true ->
  Str.contains "Y" ("G1 " ++ rest) = true ->
  getXY ("G1 " ++ rest) = Some cur ->
  find_extrusion None (Str.split_space ("G1 " ++ rest)) = Some (Some E) ->
  2 <= get_points_distance (Plugin.lastPosition st) cur / gdl ->
  Plugin.process_line cfg gdl st ("G1 " ++ rest) = Some (st', a) ->
  exists nl ps cmds post,
    Plugin.perimeterSegments st = Some ps /\
    a = Some (nl ++ concat cmds ++ post) /\
    (exists e sf, post = Plugin.get_extrusion_command (x cur) (y cur) e ++ sf) /\
    length cmds = Z.to_nat (py_int ((get_points_distance (Plugin.lastPosition st) cur) / gdl)) /\
    forall k, (k < length cmds)%nat -> exists d m sfk,
      min_distance_from_segment
        (mkSegment (step_point (sub_direction gdl (Plugin.lastPosition st) cur) k (Plugin.lastPosition st))
                   (step_point (sub_direction gdl (Plugin.lastPosition st) cur) (S k) (Plugin.lastPosition st))) ps = Some d /\
      flow_multiplier (Plugin.gradient_thickness cfg) (Plugin.max_flow cfg)
        (Plugin.min_flow cfg) d = Some m /\
      nth k cmds [] =
        Plugin.get_extrusion_command (x (step_point (sub_direction gdl (Plugin.lastPosition st) cur) (S k) (Plugin.lastPosition st)))
          (y (step_point (sub_direction gdl (Plugin.lastPosition st) cur) (S k) (Plugin.lastPosition st)))
          (E / ((get_points_distance (Plugin.lastPosition st) cur) / gdl) * m) ++ sfk ++ [PStr "
"].
Proof.
  intros Ht Hs Hsc HE HX HY Hg Hext Hsteps H.
  destruct (plugin_linear_subdivided cfg gdl st st' rest cur E a Ht Hs Hsc HE HX HY Hg Hext Hsteps H)
    as (nl & ps & feed & loop & q & sf & sf' & Hp & Hls & Ha).
  destruct (plugin_linear_steps_spec _ _ _ _ _ _ _ _ _ _ _ Hls) as (_ & cmds & Hlen & Hloop & Hk).
  exists nl, ps, cmds. eexists. split; [exact Hp|].
  split; [rewrite Ha, Hloop; reflexivity|]. split; [do 2 eexists; reflexivity|].
  split; [exact Hlen|]. rewrite Hlen. exact Hk.
Qed.

(** C4 (amended): in both programs, a subdivided linear move
    ([segmentSteps = segmentLength / stepLength >= 2]) writes
    [int(segmentSteps)] stepped sub-moves, the [k]-th to [lastPosition +
    (k+1) * segmentDirection], with extrusion [(E / segmentSteps) *
    flowMultiplier] at the distance of that sub-segment's midpoint, where
    [segmentSteps] is the unfloored quotient; one more move to
    [currentPosition] follows. The stand-alone script writes the feed line
    first; the plug-in assigns [new_Line] followed by these moves, each
    stepped one carrying its [stringFeed] and a newline. *)
Theorem linear_submove_extrusion :
  (forall (cfg : Standalone.Config) (gdl : R) (st st' : Standalone.State) (rest : string) (cur : Point2D) (E : R) (out : list piece),
  Standalone.infill_type cfg = Standalone.LINEAR ->
  Standalone.currentSection st = Standalone.INFILL ->
  Str.contains "E" ("G1 " ++ rest) = true ->
  Str.contains " X" ("G1 " ++ rest) = true ->
  Str.contains "Y" ("G1 " ++ rest) = true ->
  getXY ("G1 " ++ rest) = Some cur ->
  find_extrusion None (Str.split_space ("G1 " ++ rest)) = Some (Some E) ->
  2 <= get_points_distance (Standalone.lastPosition st) cur / gdl ->
  Standalone.process_line cfg gdl st ("G1 " ++ rest) = Some (st', out) ->
  exists pre ps cmds post,
    Standalone.feed_line ("G1 " ++ rest) = Some pre /\
    Standalone.perimeterSegments st = Some ps /\
    out = pre ++ concat cmds ++ post /\
    (exists e, post = get_extrusion_command (x cur) (y cur) e) /\
    length cmds = Z.to_nat (py_int ((get_points_distance (Standalone.lastPosition st) cur) / gdl)) /\
    forall k, (k < length cmds)%nat -> exists d m,
      min_distance_from_segment
        (mkSegment (step_point (sub_direction gdl (Standalone.lastPosition st) cur) k (Standalone.lastPosition st))
                   (step_point (sub_direction gdl (Standalone.lastPosition st) cur) (S k) (Standalone.lastPosition st))) ps = Some d /\
      flow_multiplier (Standalone.gradient_thickness cfg) (Standalone.max_flow cfg)
        (Standalone.min_flow cfg) d = Some m /\
      nth k cmds [] =
        get_extrusion_command (x (step_point (sub_direction gdl (Standalone.lastPosition st) cur) (S k) (Standalone.lastPosition st)))
          (y (step_point (sub_direction gdl (Standalone.lastPosition st) cur) (S k) (Standalone.lastPosition st)))
          (E / ((get_points_distance (Standalone.lastPosition st) cur) / gdl) * m)) /\
  (forall (cfg : Plugin.Config) (gdl : R) (st st' : Plugin.State) (rest : string) (cur : Point2D) (E : R) (a : option (list piece)),
  Plugin.infill_type cfg = 2%Z ->
  Plugin.currentSection st = Plugin.INFILL ->
  Str.contains ";" ("G1 " ++ rest) = false ->
  Str.contains "E" ("G1 " ++ rest) = true ->
  Str.contains "X" ("G1 " ++ rest) = true ->
  Str.contains "Y" ("G1 " ++ rest) = true ->
  getXY ("G1 " ++ rest) = Some cur ->
  find_extrusion None (Str.split_space ("G1 " ++ rest)) = Some (Some E) ->
  2 <= get_points_distance (Plugin.lastPosition st) cur / gdl ->
  Plugin.process_line cfg gdl st ("G1 " ++ rest) = Some (st', a) ->
  exists nl ps cmds post,
    Plugin.perimeterSegments st = Some ps /\
    a = Some (nl ++ concat cmds ++ post) /\
    (exists e sf, post = Plugin.get_extrusion_command (x cur) (y cur) e ++ sf) /\
    length cmds = Z.to_nat (py_int ((get_points_distance (Plugin.lastPosition st) cur) / gdl)) /\
    forall k, (k < length cmds)%nat -> exists d m sfk,
      min_distance_from_segment
        (mkSegment (step_point (sub_direction gdl (Plugin.lastPosition st) cur) k (Plugin.lastPosition st))
                   (step_point (sub_direction gdl (Plugin.lastPosition st) cur) (S k) (Plugin.lastPosition st))) ps = Some d /\
      flow_multiplier (Plugin.gradient_thickness cfg) (Plugin.max_flow cfg)
        (Plugin.min_flow cfg) d = Some m /\
      nth k cmds [] =
        Plugin.get_extrusion_command (x (step_point (sub_direction gdl (Plugin.lastPosition st) cur) (S k) (Plugin.lastPosition st)))
          (y (step_point (sub_direction gdl (Plugin.lastPosition st) cur) (S k) (Plugin.lastPosition st)))
          (E / ((get_points_distance (Plugin.lastPosition st) cur) / gdl) * m) ++ sfk ++ [PStr "
"]).
Proof.
  split.
  - exact standalone_linear_submove_extrusion.
  - exact plugin_linear_submove_extrusion.
Qed.

(** Witness of C4: the move of the counterexample, in both programs. *)
Lemma linear_submove_extrusion_witness :
  (Standalone.process_line (Standalone.mkConfig Standalone.LINEAR 100 100 2 1) 2
    (Standalone.mkState Standalone.INFILL (mkPoint 0 0) (Some [mkSegment (mkPoint 0 10) (mkPoint 10 10)]))
    ("G1 " ++ "X5 Y0 E1")
  = Some (Standalone.mkState Standalone.INFILL (mkPoint 5 0) (Some [mkSegment (mkPoint 0 10) (mkPoint 10 10)]),
          get_extrusion_command 2 0 (2 / 5) ++ get_extrusion_command 4 0 (2 / 5)
          ++ get_extrusion_command 5 0 (1 / 5)) /\
  exists pre ps cmds post,
    Standalone.feed_line ("G1 " ++ "X5 Y0 E1") = Some pre /\
    Some [mkSegment (mkPoint 0 10) (mkPoint 10 10)] = Some ps /\
    get_extrusion_command 2 0 (2 / 5) ++ get_extrusion_command 4 0 (2 / 5)
      ++ get_extrusion_command 5 0 (1 / 5) = pre ++ concat cmds ++ post /\
    (exists e, post = get_extrusion_command 5 0 e) /\
    length cmds = Z.to_nat (py_int (get_points_distance (mkPoint 0 0) (mkPoint 5 0) / 2)) /\
    forall k, (k < length cmds)%nat -> exists d m,
      min_distance_from_segment
        (mkSegment (step_point (sub_direction 2 (mkPoint 0 0) (mkPoint 5 0)) k (mkPoint 0 0))
                   (step_point (sub_direction 2 (mkPoint 0 0) (mkPoint 5 0)) (S k) (mkPoint 0 0)))
        ps = Some d /\
      flow_multiplier 2 100 100 d = Some m /\
      nth k cmds [] =
        get_extrusion_command (x (step_point (sub_direction 2 (mkPoint 0 0) (mkPoint 5 0)) (S k) (mkPoint 0 0)))
          (y (step_point (sub_direction 2 (mkPoint 0 0) (mkPoint 5 0)) (S k) (mkPoint 0 0)))
          (1 / (get_points_distance (mkPoint 0 0) (mkPoint 5 0) / 2) * m)) /\
  (Plugin.process_line (Plugin.mkConfig 2 100 100 100 2 1 false 1 1 false) 2
    (Plugin.mkState Plugin.INFILL (mkPoint 0 0) (Some [mkSegment (mkPoint 0 10) (mkPoint 10 10)]) (Some 1500))
    ("G1 " ++ "X5 Y0 E1")
  = Some ((Plugin.mkState Plugin.INFILL (mkPoint 5 0) (Some [mkSegment (mkPoint 0 10) (mkPoint 10 10)]) (Some 1500)),
          Some (Plugin.get_extrusion_command 2 0 (2 / 5) ++ [PStr "
"] ++ Plugin.get_extrusion_command 4 0 (2 / 5) ++ [PStr "
"]
            ++ Plugin.get_extrusion_command 5 0 (1 / 5))) /\
  exists nl ps cmds post,
    Some [mkSegment (mkPoint 0 10) (mkPoint 10 10)] = Some ps /\
    Some (Plugin.get_extrusion_command 2 0 (2 / 5) ++ [PStr "
"] ++ Plugin.get_extrusion_command 4 0 (2 / 5) ++ [PStr "
"]
            ++ Plugin.get_extrusion_command 5 0 (1 / 5)) = Some (nl ++ concat cmds ++ post) /\
    (exists e sf, post = Plugin.get_extrusion_command 5 0 e ++ sf) /\
    length cmds = Z.to_nat (py_int (get_points_distance (mkPoint 0 0) (mkPoint 5 0) / 2)) /\
    forall k, (k < length cmds)%nat -> exists d m sfk,
      min_distance_from_segment
        (mkSegment (step_point (sub_direction 2 (mkPoint 0 0) (mkPoint 5 0)) k (mkPoint 0 0))
                   (step_point (sub_direction 2 (mkPoint 0 0) (mkPoint 5 0)) (S k) (mkPoint 0 0)))
        ps = Some d /\
      flow_multiplier 2 100 100 d = Some m /\
      nth k cmds [] =
        Plugin.get_extrusion_command (x (step_point (sub_direction 2 (mkPoint 0 0) (mkPoint 5 0)) (S k) (mkPoint 0 0)))
          (y (step_point (sub_direction 2 (mkPoint 0 0) (mkPoint 5 0)) (S k) (mkPoint 0 0)))
          (1 / (get_points_distance (mkPoint 0 0) (mkPoint 5 0) / 2) * m) ++ sfk ++ [PStr "
"]).
Proof.
  destruct example_line_facts as (Hg & Hext & Hsteps).
  split.
  - split; [exact linear_example_run|].
    exact ((proj1 linear_submove_extrusion) (Standalone.mkConfig Standalone.LINEAR 100 100 2 1) 2
           (Standalone.mkState Standalone.INFILL (mkPoint 0 0) (Some [mkSegment (mkPoint 0 10) (mkPoint 10 10)]))
           (Standalone.mkState Standalone.INFILL (mkPoint 5 0) (Some [mkSegment (mkPoint 0 10) (mkPoint 10 10)]))
           "X5 Y0 E1"%string (mkPoint 5 0) 1
           (get_extrusion_command 2 0 (2 / 5) ++ get_extrusion_command 4 0 (2 / 5)
            ++ get_extrusion_command 5 0 (1 / 5))
           eq_refl eq_refl eq_refl eq_refl eq_refl Hg Hext Hsteps linear_example_run).
  - split; [exact plugin_linear_example_run|].
    exact ((proj2 linear_submove_extrusion) (Plugin.mkConfig 2 100 100 100 2 1 false 1 1 false) 2
           (Plugin.mkState Plugin.INFILL (mkPoint 0 0) (Some [mkSegment (mkPoint 0 10) (mkPoint 10 10)]) (Some 1500))
           (Plugin.mkState Plugin.INFILL (mkPoint 5 0) (Some [mkSegment (mkPoint 0 10) (mkPoint 10 10)]) (Some 1500))
           "X5 Y0 E1"%string (mkPoint 5 0) 1 (Some (Plugin.get_extrusion_command 2 0 (2 / 5) ++ [PStr "
"] ++ Plugin.get_extrusion_command 4 0 (2 / 5) ++ [PStr "
"]
            ++ Plugin.get_extrusion_command 5 0 (1 / 5)))
           eq_refl eq_refl eq_refl eq_refl eq_refl eq_refl Hg Hext Hsteps plugin_linear_example_run).
Defined.

(** ** C5: the closing sub-move *)





(** ** C6: a linear move too short to subdivide *)

Lemma append_space_not_E (t : string) : String.eqb (t ++ " ") "E" = false.
Proof.
  destruct t as [|a [|b t']]; [reflexivity| |];
    cbn; destruct (Ascii.eqb a "E"%char); reflexivity.
Qed.

(** A line rebuilt with one new extrusion [c] for every token holding an
    [E]: these tokens give the rounded values, all equal to [c], and the other
    tokens are kept in order, each followed by one space. *)
Lemma rebuild_const_spec (c : R) (l : list string) (body : list piece) :
  rebuild (fun _ => Some c) l = Some body ->
  rounded_values body = map (fun _ => c) (filter (Str.contains "E") l) /\
  kept_tokens body = map (fun t => (t ++ " ")%string) (filter (fun t => negb (Str.contains "E" t)) l).
Proof.
  revert body. induction l as [|t l IH]; intros body H.
  - cbn in H. injection H as <-. split; reflexivity.
  - cbn [rebuild] in H. cbn [filter negb].
    destruct (Str.contains "E" t); cbn [bind] in H.
    + destruct (rebuild _ l) as [r|] eqn:Hr; cbn [bind] in H; [|discriminate H].
      injection H as <-. destruct (IH r eq_refl) as [H1 H2].
      unfold rounded_values, kept_tokens in *. cbn. rewrite H1, H2. split; reflexivity.
    + destruct (rebuild _ l) as [r|] eqn:Hr; cbn [bind] in H; [|discriminate H].
      injection H as <-. destruct (IH r eq_refl) as [H1 H2].
      unfold rounded_values, kept_tokens in *. cbn. rewrite append_space_not_E, H1, H2.
      split; reflexivity.
Qed.

(** The stand-alone script on a linear move with [segmentSteps < 2]: the
    feed line, the rebuilt line with [E * max_flow / 100], a newline. *)
Lemma standalone_short_linear (cfg : Standalone.Config) (gdl : R) (st st' : Standalone.State)
    (rest : string) (cur : Point2D) (E : R) (out : list piece) :
  Standalone.infill_type cfg = Standalone.LINEAR ->
  Standalone.currentSection st = Standalone.INFILL ->
  Str.contains "E" ("G1 " ++ rest) = true ->
  Str.contains " X" ("G1 " ++ rest) = true ->
  Str.contains "Y" ("G1 " ++ rest) = true ->
  getXY ("G1 " ++ rest) = Some cur ->
  find_extrusion None (Str.split_space ("G1 " ++ rest)) = Some (Some E) ->
  get_points_distance (Standalone.lastPosition st) cur / gdl < 2 ->
  Standalone.process_line cfg gdl st ("G1 " ++ rest) = Some (st', out) ->
  exists pre body,
    Standalone.feed_line ("G1 " ++ rest) = Some pre /\
    rebuild (fun _ => Some (E * Standalone.max_flow cfg / 100)) (Str.split_space ("G1 " ++ rest))
      = Some body /\
    out = pre ++ body ++ [PStr "
"].
Proof.
  intros Ht Hs HE HX HY Hg Hext Hshort H.
  destruct (standalone_G1_not_marker rest) as (H1 & H2 & H3 & H4).
  assert (Hmove : Str.contains "E" ("G1 " ++ rest) && Str.contains "G1" ("G1 " ++ rest)
                  && Str.contains " X" ("G1 " ++ rest) && Str.contains "Y" ("G1 " ++ rest) = true).
  { rewrite HE, HX, HY. reflexivity. }
  unfold Standalone.process_line in H. cbv zeta in H. rewrite H1, H2, H3, H4, Hs in H.
  cbn [Standalone.Section_eqb andb bind] in H.
  destruct (Standalone.infill_block cfg gdl (Standalone.perimeterSegments st)
              (Standalone.lastPosition st) ("G1 " ++ rest)) as [[[o w] lp]|] eqn:Hib;
    cbn [bind] in H; [|discriminate H].
  bind_some H. injection H as _ Hout.
  unfold Standalone.infill_block in Hib.
  destruct (Standalone.feed_line ("G1 " ++ rest)) as [pre|] eqn:Hf; cbn [bind] in Hib; [|discriminate Hib].
  rewrite Hmove, Hg in Hib. cbn [bind] in Hib. rewrite Ht in Hib.
  destruct (Standalone.linear_move cfg gdl (Standalone.perimeterSegments st) (Standalone.lastPosition st)
              cur (Str.split_space ("G1 " ++ rest))) as [[lo lq]|] eqn:Hlm;
    cbn [bind fst snd] in Hib; [|discriminate Hib].
  injection Hib as <- <- <-.
  unfold Standalone.linear_move in Hlm. cbv zeta in Hlm. rewrite Hext in Hlm. cbn [bind] in Hlm.
  bind_fdiv Hlm. bind_fdiv Hlm. bind_fdiv Hlm. bind_fdiv Hlm.
  match type of Hlm with context [Rle_dec 2 ?s] => destruct (Rle_dec 2 s) as [Hle|_] end.
  { exfalso. destruct Hq as [_ ->]. lra. }
  destruct (rebuild _ _) as [body|] eqn:Hb; cbn [bind] in Hlm; [|discriminate Hlm].
  injection Hlm as <- _.
  exists pre, body. split; [reflexivity|]. split; [reflexivity|]. rewrite <- Hout. reflexivity.
Qed.

(** The plug-in on a linear move with [segmentSteps < 2]: [lines[line_index]]
    becomes the rebuilt line with [E * link_flow / 100]. *)
Lemma plugin_short_linear (cfg : Plugin.Config) (gdl : R) (st st' : Plugin.State)
    (rest : string) (cur : Point2D) (E : R) (a : option (list piece)) :
  Plugin.infill_type cfg = 2%Z ->
  Plugin.currentSection st = Plugin.INFILL ->
  Str.contains ";" ("G1 " ++ rest) = false ->
  Str.contains "E" ("G1 " ++ rest) = true ->
  Str.contains "X" ("G1 " ++ rest) = true ->
  Str.contains "Y" ("G1 " ++ rest) = true ->
  getXY ("G1 " ++ rest) = Some cur ->
  find_extrusion None (Str.split_space ("G1 " ++ rest)) = Some (Some E) ->
  get_points_distance (Plugin.lastPosition st) cur / gdl < 2 ->
  Plugin.process_line cfg gdl st ("G1 " ++ rest) = Some (st', a) ->
  exists body,
    rebuild (fun _ => Some (E * Plugin.link_flow cfg / 100)) (Str.split_space ("G1 " ++ rest))
      = Some body /\
    a = Some body.
Proof.
  intros Ht Hs Hsc HE HX HY Hg Hext Hshort H.
  destruct (plugin_G1_not_marker rest) as (H1 & H2 & H3 & H4).
  assert (Hmove : Str.contains "E" ("G1 " ++ rest) && Str.contains "G1" ("G1 " ++ rest)
                  && Str.contains "X" ("G1 " ++ rest) && Str.contains "Y" ("G1 " ++ rest) = true).
  { rewrite HE, HX, HY. reflexivity. }
  unfold Plugin.process_line in H. cbv zeta in H. rewrite H1, H2, H3, H4, Hs in H.
  cbn [Plugin.Section_eqb andb negb bind] in H.
  destruct (Plugin.infill_block cfg gdl _ ("G1 " ++ rest)) as [[[f asg] lp]|] eqn:Hib;
    cbn [bind] in H; [|discriminate H].
  rewrite Hsc in H. cbn [andb] in H.
  bind_some H. injection H as _ Hout.
  unfold Plugin.infill_block in Hib. cbn [Plugin.perimeterSegments Plugin.lastPosition Plugin.current_feed] in Hib.
  match type of Hib with bind ?m _ = Some _ => destruct m as [[feed nl]|] eqn:Hr0 end;
    cbn [bind] in Hib; [|discriminate Hib].
  rewrite Hmove, Hg in Hib. cbn [bind] in Hib. rewrite Ht in Hib. cbn [Z.eqb Pos.eqb] in Hib.
  destruct (Plugin.linear_move _ _ _ _ _ _ _ _) as [[lo lq]|] eqn:Hlm;
    cbn [bind fst snd] in Hib; [|discriminate Hib].
  injection Hib as _ <- _.
  unfold Plugin.linear_move in Hlm. cbv zeta in Hlm. rewrite Hext in Hlm. cbn [bind] in Hlm.
  bind_fdiv Hlm. bind_fdiv Hlm. bind_fdiv Hlm. bind_fdiv Hlm.
  match type of Hlm with context [Rle_dec 2 ?s] => destruct (Rle_dec 2 s) as [Hle|_] end.
  { exfalso. destruct Hq as [_ ->]. lra. }
  destruct (rebuild _ _) as [body|] eqn:Hb; cbn [bind] in Hlm; [|discriminate Hlm].
  injection Hlm as <- _.
  exists body. split; [reflexivity|]. symmetry. exact Hout.
Qed.

(** The stand-alone script on [G1 X1 Y0 E1] from [(0, 0)] with
    sub-segments of length 1. *)
Lemma short_standalone_run :
  Standalone.process_line (Standalone.mkConfig Standalone.LINEAR 200 50 4 4) 1
    (Standalone.mkState Standalone.INFILL (mkPoint 0 0) (Some [])) ("G1 " ++ "X1 Y0 E1")
  = Some (Standalone.mkState Standalone.INFILL (mkPoint 1 0) (Some []),
          [PStr "G1 "; PStr "X1 "; PStr "Y0 "; PStr "E"; PRound 5 (1 * 200 / 100); PStr "
"]).
Proof. unfold Standalone.process_line. reval. sqrt_is 1. repeat rdecide. reval. reflexivity. Qed.

(** The plug-in on [G1 X1 Y0 E1] from [(0, 0)] with sub-segments of length 1
    and [link_flow = 25]. *)
Lemma short_plugin_run :
  Plugin.process_line (Plugin.mkConfig 2 200 50 25 4 4 false 1 1 false) 1
    (Plugin.mkState Plugin.INFILL (mkPoint 0 0) (Some []) None) ("G1 " ++ "X1 Y0 E1")
  = Some (Plugin.mkState Plugin.INFILL (mkPoint 1 0) (Some []) None,
          Some [PStr "G1 "; PStr "X1 "; PStr "Y0 "; PStr "E"; PRound 5 (1 * 25 / 100)]).
Proof. unfold Plugin.process_line. reval. sqrt_is 1. repeat rdecide. reval. reflexivity. Qed.

(** C6 (counterexample): on the move [G1 X1 Y0 E1] of length 1 with
    sub-segments of length 1 ([segmentSteps = 1]), the stand-alone script,
    with [max_flow = 200] and [min_flow = 50], writes [E2]: it scales by
    [max_flow / 100], having no short-distance flow of its own. The plug-in,
    with the same max and min flow and [link_flow = 25], writes [E0.25]. *)
Lemma short_linear_cex :
  Standalone.process_line (Standalone.mkConfig Standalone.LINEAR 200 50 4 4) 1
    (Standalone.mkState Standalone.INFILL (mkPoint 0 0) (Some [])) "G1 X1 Y0 E1"
  = Some (Standalone.mkState Standalone.INFILL (mkPoint 1 0) (Some []),
          [PStr "G1 "; PStr "X1 "; PStr "Y0 "; PStr "E"; PRound 5 (1 * 200 / 100); PStr "
"]) /\
  Plugin.process_line (Plugin.mkConfig 2 200 50 25 4 4 false 1 1 false) 1
    (Plugin.mkState Plugin.INFILL (mkPoint 0 0) (Some []) None) "G1 X1 Y0 E1"
  = Some (Plugin.mkState Plugin.INFILL (mkPoint 1 0) (Some []) None,
          Some [PStr "G1 "; PStr "X1 "; PStr "Y0 "; PStr "E"; PRound 5 (1 * 25 / 100)]).
Proof. split; [exact short_standalone_run | exact short_plugin_run]. Qed.

(** C6 (amended): a linear infill extrusion move with [segmentSteps < 2] is
    not subdivided: it is written as one rebuilt line whose rounded values,
    one per token holding an [E], are all the new extrusion, and whose other
    tokens are the line's other tokens in order, each followed by one space.
    The new extrusion is [E * max_flow / 100] in the stand-alone script (which
    writes the feed line before and a newline after) and
    [E * link_flow / 100] in the plug-in, whose [lines[line_index]] becomes
    the rebuilt line. *)
Theorem short_linear_move_single_line :
  (forall (cfg : Standalone.Config) (gdl : R) (st st' : Standalone.State)
     (rest : string) (cur : Point2D) (E : R) (out : list piece),
   Standalone.infill_type cfg = Standalone.LINEAR ->
   Standalone.currentSection st = Standalone.INFILL ->
   Str.contains "E" ("G1 " ++ rest) = true ->
   Str.contains " X" ("G1 " ++ rest) = true ->
   Str.contains "Y" ("G1 " ++ rest) = true ->
   getXY ("G1 " ++ rest) = Some cur ->
   find_extrusion None (Str.split_space ("G1 " ++ rest)) = Some (Some E) ->
   get_points_distance (Standalone.lastPosition st) cur / gdl < 2 ->
   Standalone.process_line cfg gdl st ("G1 " ++ rest) = Some (st', out) ->
   exists pre body,
     Standalone.feed_line ("G1 " ++ rest) = Some pre /\
     out = pre ++ body ++ [PStr "
"] /\
     rounded_values body
       = map (fun _ => E * Standalone.max_flow cfg / 100)
             (filter (Str.contains "E") (Str.split_space ("G1 " ++ rest))) /\
     kept_tokens body
       = map (fun t => (t ++ " ")%string)
             (filter (fun t => negb (Str.contains "E" t)) (Str.split_space ("G1 " ++ rest)))) /\
  (forall (cfg : Plugin.Config) (gdl : R) (st st' : Plugin.State)
     (rest : string) (cur : Point2D) (E : R) (a : option (list piece)),
   Plugin.infill_type cfg = 2%Z ->
   Plugin.currentSection st = Plugin.INFILL ->
   Str.contains ";" ("G1 " ++ rest) = false ->
   Str.contains "E" ("G1 " ++ rest) = true ->
   Str.contains "X" ("G1 " ++ rest) = true ->
   Str.contains "Y" ("G1 " ++ rest) = true ->
   getXY ("G1 " ++ rest) = Some cur ->
   find_extrusion None (Str.split_space ("G1 " ++ rest)) = Some (Some E) ->
   get_points_distance (Plugin.lastPosition st) cur / gdl < 2 ->
   Plugin.process_line cfg gdl st ("G1 " ++ rest) = Some (st', a) ->
   exists body,
     a = Some body /\
     rounded_values body
       = map (fun _ => E * Plugin.link_flow cfg / 100)
             (filter (Str.contains "E") (Str.split_space ("G1 " ++ rest))) /\
     kept_tokens body
       = map (fun t => (t ++ " ")%string)
             (filter (fun t => negb (Str.contains "E" t)) (Str.split_space ("G1 " ++ rest)))).
Proof.
  split.
  - intros cfg gdl st st' rest cur E out Ht Hs HE HX HY Hg Hext Hshort H.
    destruct (standalone_short_linear cfg gdl st st' rest cur E out Ht Hs HE HX HY Hg Hext Hshort H)
      as (pre & body & Hf & Hb & Hout).
    destruct (rebuild_const_spec _ _ _ Hb) as [Hr Hk].
    exists pre, body. repeat split; assumption.
  - intros cfg gdl st st' rest cur E a Ht Hs Hsc HE HX HY Hg Hext Hshort H.
    destruct (plugin_short_linear cfg gdl st st' rest cur E a Ht Hs Hsc HE HX HY Hg Hext Hshort H)
      as (body & Hb & Ha).
    destruct (rebuild_const_spec _ _ _ Hb) as [Hr Hk].
    exists body. repeat split; assumption.
Qed.

(** Witness of C6: the two moves of the counterexample. *)
Lemma short_linear_move_single_line_witness :
  (exists pre body,
     Standalone.feed_line ("G1 " ++ "X1 Y0 E1") = Some pre /\
     [PStr "G1 "; PStr "X1 "; PStr "Y0 "; PStr "E"; PRound 5 (1 * 200 / 100); PStr "
"] = pre ++ body ++ [PStr "
"] /\
     rounded_values body
       = map (fun _ => 1 * 200 / 100) (filter (Str.contains "E") (Str.split_space ("G1 " ++ "X1 Y0 E1"))) /\
     kept_tokens body
       = map (fun t => (t ++ " ")%string)
             (filter (fun t => negb (Str.contains "E" t)) (Str.split_space ("G1 " ++ "X1 Y0 E1")))) /\
  (exists body,
     Some [PStr "G1 "; PStr "X1 "; PStr "Y0 "; PStr "E"; PRound 5 (1 * 25 / 100)] = Some body /\
     rounded_values body
       = map (fun _ => 1 * 25 / 100) (filter (Str.contains "E") (Str.split_space ("G1 " ++ "X1 Y0 E1"))) /\
     kept_tokens body
       = map (fun t => (t ++ " ")%string)
             (filter (fun t => negb (Str.contains "E" t)) (Str.split_space ("G1 " ++ "X1 Y0 E1")))).
Proof.
  assert (Hd : get_points_distance (mkPoint 0 0) (mkPoint 1 0) / 1 < 2).
  { unfold get_points_distance, pow_half. simpl. sqrt_is 1. lra. }
  split.
  - apply ((proj1 short_linear_move_single_line) (Standalone.mkConfig Standalone.LINEAR 200 50 4 4) 1
             (Standalone.mkState Standalone.INFILL (mkPoint 0 0) (Some []))
             (Standalone.mkState Standalone.INFILL (mkPoint 1 0) (Some []))
             "X1 Y0 E1"%string (mkPoint 1 0) 1);
      first [ reflexivity | exact Hd | exact short_standalone_run | (unfold getXY; reval; reflexivity)
            | (reval; reflexivity) ].
  - apply ((proj2 short_linear_move_single_line) (Plugin.mkConfig 2 200 50 25 4 4 false 1 1 false) 1
             (Plugin.mkState Plugin.INFILL (mkPoint 0 0) (Some []) None)
             (Plugin.mkState Plugin.INFILL (mkPoint 1 0) (Some []) None)
             "X1 Y0 E1"%string (mkPoint 1 0) 1);
      first [ reflexivity | exact Hd | exact short_plugin_run | (unfold getXY; reval; reflexivity)
            | (reval; reflexivity) ].
Defined.

(** ** C8: a gyroid move outside the gradient *)

(** The gyroid move [G1 X10 Y0 E1] from [(0, 0)] has its midpoint [(5, 0)]
    at distance 10 from the wall segment [(5, 10)-(6, 10)]. *)
Lemma far_move_distance :
  min_distance_from_segment (mkSegment (mkPoint 0 0) (mkPoint 10 0))
    [mkSegment (mkPoint 5 10) (mkPoint 6 10)] = Some 10.
Proof.
  reval. repeat rdecide. sqrt_is 10. reflexivity.
Qed.

(** The stand-alone script on that move, with a gradient of thickness 6. *)
Lemma far_move_run :
  Standalone.process_line (Standalone.mkConfig Standalone.SMALL_SEGMENTS 200 50 6 4) (6 / 4)
    (Standalone.mkState Standalone.INFILL (mkPoint 0 0) (Some [mkSegment (mkPoint 5 10) (mkPoint 6 10)]))
    ("G1 " ++ "X10 Y0 E1")
  = Some (Standalone.mkState Standalone.INFILL (mkPoint 10 0) (Some [mkSegment (mkPoint 5 10) (mkPoint 6 10)]),
          [PStr "G1 X10 Y0 E1"]).
Proof.
  unfold Standalone.process_line. reval.
  repeat (first [rdecide | sqrt_is 10]).
  pieces_eq.
Qed.

(** C8 (counterexample): the midpoint of [G1 X10 Y0 E1] is at distance 10
    from the only wall segment, beyond the thickness 6, and the line is
    written unchanged: its extrusion stays [1], not [1 * 50 / 100]. *)
Lemma far_small_segment_cex :
  min_distance_from_segment (mkSegment (mkPoint 0 0) (mkPoint 10 0))
    [mkSegment (mkPoint 5 10) (mkPoint 6 10)] = Some 10 /\
  6 <= 10 /\
  Standalone.process_line (Standalone.mkConfig Standalone.SMALL_SEGMENTS 200 50 6 4) (6 / 4)
    (Standalone.mkState Standalone.INFILL (mkPoint 0 0) (Some [mkSegment (mkPoint 5 10) (mkPoint 6 10)]))
    "G1 X10 Y0 E1"
  = Some (Standalone.mkState Standalone.INFILL (mkPoint 10 0) (Some [mkSegment (mkPoint 5 10) (mkPoint 6 10)]),
          [PStr "G1 X10 Y0 E1"]).
Proof.
  split; [exact far_move_distance|]. split; [lra|]. exact far_move_run.
Qed.

(** The stand-alone script on a gyroid move outside the gradient: the feed
    line, then the line as it was read. *)
Lemma standalone_far_small_segment (cfg : Standalone.Config) (gdl : R)
    (st st' : Standalone.State) (rest : string) (cur : Point2D) (ps : list Segment)
    (d : R) (out : list piece) :
  Standalone.infill_type cfg = Standalone.SMALL_SEGMENTS ->
  Standalone.currentSection st = Standalone.INFILL ->
  Str.contains "E" ("G1 " ++ rest) = true ->
  Str.contains " X" ("G1 " ++ rest) = true ->
  Str.contains "Y" ("G1 " ++ rest) = true ->
  getXY ("G1 " ++ rest) = Some cur ->
  Standalone.perimeterSegments st = Some ps ->
  min_distance_from_segment (mkSegment (Standalone.lastPosition st) cur) ps = Some d ->
  Standalone.gradient_thickness cfg <= d ->
  Standalone.process_line cfg gdl st ("G1 " ++ rest) = Some (st', out) ->
  exists pre, Standalone.feed_line ("G1 " ++ rest) = Some pre /\ out = pre ++ [PStr ("G1 " ++ rest)].
Proof.
  intros Ht Hs HE HX HY Hg Hp Hd Hfar H.
  destruct (standalone_G1_not_marker rest) as (H1 & H2 & H3 & H4).
  assert (Hmove : Str.contains "E" ("G1 " ++ rest) && Str.contains "G1" ("G1 " ++ rest)
                  && Str.contains " X" ("G1 " ++ rest) && Str.contains "Y" ("G1 " ++ rest) = true).
  { rewrite HE, HX, HY. reflexivity. }
  unfold Standalone.process_line in H. cbv zeta in H. rewrite H1, H2, H3, H4, Hs in H.
  cbn [Standalone.Section_eqb andb bind] in H.
  destruct (Standalone.infill_block cfg gdl (Standalone.perimeterSegments st)
              (Standalone.lastPosition st) ("G1 " ++ rest)) as [[[o w] lp]|] eqn:Hib;
    cbn [bind] in H; [|discriminate H].
  bind_some H. injection H as _ Hout.
  unfold Standalone.infill_block in Hib.
  destruct (Standalone.feed_line ("G1 " ++ rest)) as [pre|] eqn:Hf; cbn [bind] in Hib; [|discriminate Hib].
  rewrite Hmove, Hg in Hib. cbn [bind] in Hib. rewrite Ht, Hp in Hib. cbn [bind] in Hib.
  rewrite Hd in Hib. cbn [bind] in Hib.
  destruct (Rlt_dec d (Standalone.gradient_thickness cfg)) as [Hlt|_]; [lra|].
  injection Hib as <- <- _.
  exists pre. split; [reflexivity|]. symmetry. exact Hout.
Qed.

(** The plug-in on a gyroid move outside the gradient: [lines[line_index]]
    is not assigned. *)
Lemma plugin_far_small_segment (cfg : Plugin.Config) (gdl : R)
    (st st' : Plugin.State) (rest : string) (cur : Point2D) (ps : list Segment)
    (d : R) (a : option (list piece)) :
  Plugin.infill_type cfg = 1%Z ->
  Plugin.currentSection st = Plugin.INFILL ->
  Str.contains ";" ("G1 " ++ rest) = false ->
  Str.contains "E" ("G1 " ++ rest) = true ->
  Str.contains "X" ("G1 " ++ rest) = true ->
  Str.contains "Y" ("G1 " ++ rest) = true ->
  getXY ("G1 " ++ rest) = Some cur ->
  Plugin.perimeterSegments st = Some ps ->
  min_distance_from_segment (mkSegment (Plugin.lastPosition st) cur) ps = Some d ->
  Plugin.gradient_thickness cfg <= d ->
  Plugin.process_line cfg gdl st ("G1 " ++ rest) = Some (st', a) ->
  a = None.
Proof.
  intros Ht Hs Hsc HE HX HY Hg Hp Hd Hfar H.
  destruct (plugin_G1_not_marker rest) as (H1 & H2 & H3 & H4).
  assert (Hmove : Str.contains "E" ("G1 " ++ rest) && Str.contains "G1" ("G1 " ++ rest)
                  && Str.contains "X" ("G1 " ++ rest) && Str.contains "Y" ("G1 " ++ rest) = true).
  { rewrite HE, HX, HY. reflexivity. }
  unfold Plugin.process_line in H. cbv zeta in H. rewrite H1, H2, H3, H4, Hs in H.
  cbn [Plugin.Section_eqb andb negb bind] in H.
  destruct (Plugin.infill_block cfg gdl _ ("G1 " ++ rest)) as [[[f asg] lp]|] eqn:Hib;
    cbn [bind] in H; [|discriminate H].
  rewrite Hsc in H. cbn [andb] in H.
  bind_some H. injection H as _ Hout.
  unfold Plugin.infill_block in Hib. cbn [Plugin.perimeterSegments Plugin.lastPosition Plugin.current_feed] in Hib.
  match type of Hib with bind ?m _ = Some _ => destruct m as [[feed nl]|] eqn:Hr0 end;
    cbn [bind] in Hib; [|discriminate Hib].
  rewrite Hmove, Hg in Hib. cbn [bind] in Hib. rewrite Ht in Hib. cbn [Z.eqb Pos.eqb bind] in Hib.
  rewrite Hp in Hib. cbn [bind] in Hib. rewrite Hd in Hib. cbn [bind] in Hib.
  destruct (Rlt_dec d (Plugin.gradient_thickness cfg)) as [Hlt|_]; [lra|].
  injection Hib as _ <- _.
  symmetry. exact Hout.
Qed.

(** The plug-in on the move of [far_move_run]. *)
Lemma far_move_plugin_run :
  Plugin.process_line (Plugin.mkConfig 1 200 50 25 6 4 false 1 1 false) (6 / 4)
    (Plugin.mkState Plugin.INFILL (mkPoint 0 0) (Some [mkSegment (mkPoint 5 10) (mkPoint 6 10)]) None)
    ("G1 " ++ "X10 Y0 E1")
  = Some (Plugin.mkState Plugin.INFILL (mkPoint 10 0) (Some [mkSegment (mkPoint 5 10) (mkPoint 6 10)]) None,
          None).
Proof.
  unfold Plugin.process_line. reval.
  repeat (first [rdecide | sqrt_is 10]).
  pieces_eq.
Qed.

(** C8 (amended): in [SMALL_SEGMENTS] mode an infill move whose midpoint is
    at distance [>= gradient_thickness] from the nearest wall segment is not
    rewritten and keeps its original extrusion: the stand-alone script writes
    the line as it was read (after the [G1 F] line of a line carrying a feed
    rate), the plug-in leaves [lines[line_index]] as it is. *)
Theorem far_small_segment_unchanged :
  (forall (cfg : Standalone.Config) (gdl : R) (st st' : Standalone.State) (rest : string)
     (cur : Point2D) (ps : list Segment) (d : R) (out : list piece),
   Standalone.infill_type cfg = Standalone.SMALL_SEGMENTS ->
   Standalone.currentSection st = Standalone.INFILL ->
   Str.contains "E" ("G1 " ++ rest) = true ->
   Str.contains " X" ("G1 " ++ rest) = true ->
   Str.contains "Y" ("G1 " ++ rest) = true ->
   getXY ("G1 " ++ rest) = Some cur ->
   Standalone.perimeterSegments st = Some ps ->
   min_distance_from_segment (mkSegment (Standalone.lastPosition st) cur) ps = Some d ->
   Standalone.gradient_thickness cfg <= d ->
   Standalone.process_line cfg gdl st ("G1 " ++ rest) = Some (st', out) ->
   exists pre, Standalone.feed_line ("G1 " ++ rest) = Some pre /\ out = pre ++ [PStr ("G1 " ++ rest)]) /\
  (forall (cfg : Plugin.Config) (gdl : R) (st st' : Plugin.State) (rest : string)
     (cur : Point2D) (ps : list Segment) (d : R) (a : option (list piece)),
   Plugin.infill_type cfg = 1%Z ->
   Plugin.currentSection st = Plugin.INFILL ->
   Str.contains ";" ("G1 " ++ rest) = false ->
   Str.contains "E" ("G1 " ++ rest) = true ->
   Str.contains "X" ("G1 " ++ rest) = true ->
   Str.contains "Y" ("G1 " ++ rest) = true ->
   getXY ("G1 " ++ rest) = Some cur ->
   Plugin.perimeterSegments st = Some ps ->
   min_distance_from_segment (mkSegment (Plugin.lastPosition st) cur) ps = Some d ->
   Plugin.gradient_thickness cfg <= d ->
   Plugin.process_line cfg gdl st ("G1 " ++ rest) = Some (st', a) ->
   a = None).
Proof.
  split.
  - exact standalone_far_small_segment.
  - exact plugin_far_small_segment.
Qed.

(** Witness of C8: the move of the counterexample, in both programs. *)
Lemma far_small_segment_unchanged_witness :
  (exists pre, Standalone.feed_line ("G1 " ++ "X10 Y0 E1") = Some pre /\
     [PStr "G1 X10 Y0 E1"] = pre ++ [PStr ("G1 " ++ "X10 Y0 E1")]) /\
  @None (list piece) = None.
Proof.
  assert (Hg : getXY ("G1 " ++ "X10 Y0 E1") = Some (mkPoint 10 0)).
  { unfold getXY. reval. replace (IZR 10 / IZR 1) with 10 by field.
    replace (IZR 0 / IZR 1) with 0 by field. reflexivity. }
  split.
  - apply ((proj1 far_small_segment_unchanged) (Standalone.mkConfig Standalone.SMALL_SEGMENTS 200 50 6 4) (6 / 4)
             (Standalone.mkState Standalone.INFILL (mkPoint 0 0) (Some [mkSegment (mkPoint 5 10) (mkPoint 6 10)]))
             (Standalone.mkState Standalone.INFILL (mkPoint 10 0) (Some [mkSegment (mkPoint 5 10) (mkPoint 6 10)]))
             "X10 Y0 E1"%string (mkPoint 10 0) [mkSegment (mkPoint 5 10) (mkPoint 6 10)] 10);
      first [ reflexivity | exact Hg | exact far_move_distance | exact far_move_run | simpl; lra ].
  - apply ((proj2 far_small_segment_unchanged) (Plugin.mkConfig 1 200 50 25 6 4 false 1 1 false) (6 / 4)
             (Plugin.mkState Plugin.INFILL (mkPoint 0 0) (Some [mkSegment (mkPoint 5 10) (mkPoint 6 10)]) None)
             (Plugin.mkState Plugin.INFILL (mkPoint 10 0) (Some [mkSegment (mkPoint 5 10) (mkPoint 6 10)]) None)
             "X10 Y0 E1"%string (mkPoint 10 0) [mkSegment (mkPoint 5 10) (mkPoint 6 10)] 10);
      first [ reflexivity | exact Hg | exact far_move_distance | exact far_move_plugin_run | simpl; lra ].
Defined.

(** * Further properties *)

Section Extras.

Local Open Scope string_scope.

(** ** Geometry *)

(** The clamped projection parameter of [dist]. *)
Lemma clamp_projection_bound (vx vy wx wy u0 : R) :
  vx * vx + vy * vy <> 0 ->
  u0 * (vx * vx + vy * vy) = wx * vx + wy * vy ->
  let u := if Rlt_dec 1 u0 then 1 else if Rlt_dec u0 0 then 0 else u0 in
  (u * vx - wx) * (u * vx - wx) + (u * vy - wy) * (u * vy - wy) <= wx * wx + wy * wy /\
  (u * vx - wx) * (u * vx - wx) + (u * vy - wy) * (u * vy - wy) <= (vx - wx) * (vx - wx) + (vy - wy) * (vy - wy).
Proof.
  intros Hn Hu u.
  assert (HN : 0 < vx * vx + vy * vy).
  { assert (0 <= vx * vx) by nra. assert (0 <= vy * vy) by nra. lra. }
  set (N := vx * vx + vy * vy) in *.
  assert (Hexp : forall t, (t * vx - wx) * (t * vx - wx) + (t * vy - wy) * (t * vy - wy)
                           = t * t * N - 2 * t * (u0 * N) + (wx * wx + wy * wy)).
  { intros t. rewrite Hu. unfold N. ring. }
  assert (Hone : (vx - wx) * (vx - wx) + (vy - wy) * (vy - wy) = N - 2 * (u0 * N) + (wx * wx + wy * wy)).
  { rewrite Hu. unfold N. ring. }
  rewrite Hone. unfold u. rewrite Hexp.
  destruct (Rlt_dec 1 u0) as [H1|H1]; [split; nra|].
  destruct (Rlt_dec u0 0) as [H0|H0]; [split; nra|].
  assert (P1 : 0 <= u0 * u0 * N) by (apply Rmult_le_pos; nra).
  assert (P2 : 0 <= N * ((1 - u0) * (1 - u0))) by (apply Rmult_le_pos; nra).
  split; nra.
Qed.

(** [dist] never exceeds the distance from the point to either end of the
    segment: the clamped projection is at least as close as both ends. *)
Lemma dist_le_endpoints (seg : Segment) (p : Point2D) (d : R) :
  dist seg p = Some d ->
  d <= get_points_distance (point1 seg) p /\ d <= get_points_distance (point2 seg) p.
Proof.
  destruct seg as [[a b] [c e]]. destruct p as [px py]. unfold dist, get_points_distance, pow_half; cbn.
  destruct (fdiv _ _) as [u0|] eqn:Hf; cbn [bind]; [|discriminate].
  intros H. injection H as <-.
  unfold fdiv in Hf. destruct (Req_dec_T ((c - a) * (c - a) + (e - b) * (e - b)) 0) as [|Hn]; [discriminate|].
  injection Hf as Hu.
  assert (Hu' : u0 * ((c - a) * (c - a) + (e - b) * (e - b)) = (px - a) * (c - a) + (py - b) * (e - b)).
  { rewrite <- Hu. field. exact Hn. }
  destruct (clamp_projection_bound (c - a) (e - b) (px - a) (py - b) u0 Hn Hu') as [B1 B2].
  set (u := if Rlt_dec 1 u0 then 1 else if Rlt_dec u0 0 then 0 else u0) in *.
  split; apply sqrt_le_1_alt.
  - replace (a + u * (c - a) - px) with (u * (c - a) - (px - a)) by ring.
    replace (b + u * (e - b) - py) with (u * (e - b) - (py - b)) by ring.
    eapply Rle_trans; [exact B1|]. right. ring.
  - replace (a + u * (c - a) - px) with (u * (c - a) - (px - a)) by ring.
    replace (b + u * (e - b) - py) with (u * (e - b) - (py - b)) by ring.
    eapply Rle_trans; [exact B2|]. right. ring.
Qed.

(** [dist] is 0 for every point of a segment of non-zero length. *)
Lemma dist_on_segment (seg : Segment) (t : R) :
  0 <= t <= 1 -> point1 seg <> point2 seg ->
  dist seg (mkPoint (x (point1 seg) + t * (x (point2 seg) - x (point1 seg)))
                    (y (point1 seg) + t * (y (point2 seg) - y (point1 seg)))) = Some 0.
Proof.
  destruct seg as [[a b] [c e]]. cbn. intros Ht Hne.
  assert (Hn : (c - a) * (c - a) + (e - b) * (e - b) <> 0).
  { intros H0. apply Hne. destruct (Rplus_sqr_eq_0 (c - a) (e - b) H0). f_equal; lra. }
  unfold dist. cbn. rewrite fdiv_nonzero by exact Hn. cbn [bind].
  replace ((a + t * (c - a) - a) * (c - a) + (b + t * (e - b) - b) * (e - b))
    with (t * ((c - a) * (c - a) + (e - b) * (e - b))) by ring.
  replace (t * ((c - a) * (c - a) + (e - b) * (e - b)) / ((c - a) * (c - a) + (e - b) * (e - b))) with t
    by (field; exact Hn).
  destruct (Rlt_dec 1 t) as [|_]; [lra|]. destruct (Rlt_dec t 0) as [|_]; [lra|].
  unfold pow_half. f_equal.
  replace ((a + t * (c - a) - (a + t * (c - a))) * (a + t * (c - a) - (a + t * (c - a)))
           + (b + t * (e - b) - (b + t * (e - b))) * (b + t * (e - b) - (b + t * (e - b)))) with 0 by ring.
  exact sqrt_0.
Qed.

(** A successful [map_opt] relates each input to its output. *)
Lemma map_opt_spec {A B : Type} (f : A -> option B) (l : list A) (bs : list B) :
  map_opt f l = Some bs -> Forall2 (fun a b => f a = Some b) l bs.
Proof.
  revert bs. induction l as [|a l IH]; intros bs H; cbn in H.
  - injection H as <-. constructor.
  - destruct (f a) as [b|] eqn:Hb; cbn [bind] in H; [|discriminate].
    destruct (map_opt f l) as [bs'|]; cbn [bind] in H; [|discriminate].
    injection H as <-. constructor; [exact Hb | apply IH; reflexivity].
Qed.

(** Membership on either side of a [Forall2]. *)
Lemma Forall2_in_both {A B : Type} (P : A -> B -> Prop) (l : list A) (bs : list B) :
  Forall2 P l bs ->
  (forall a, In a l -> exists b, In b bs /\ P a b) /\ (forall b, In b bs -> exists a, In a l /\ P a b).
Proof.
  induction 1 as [|a b l bs Hab _ [IH1 IH2]]; split; intros z Hz; try contradiction.
  - destruct Hz as [<-|Hz]; [exists b; split; [left; reflexivity | exact Hab]|].
    destruct (IH1 z Hz) as (b' & Hb' & Hp). exists b'. split; [right; exact Hb' | exact Hp].
  - destruct Hz as [<-|Hz]; [exists a; split; [left; reflexivity | exact Hab]|].
    destruct (IH2 z Hz) as (a' & Ha' & Hp). exists a'. split; [right; exact Ha' | exact Hp].
Qed.

(** [fold_left Rmin rest v] is a lower bound of [v :: rest] and one of its elements. *)
Lemma fold_Rmin_spec (rest : list R) (v : R) :
  (forall w, In w (v :: rest) -> fold_left Rmin rest v <= w) /\ In (fold_left Rmin rest v) (v :: rest).
Proof.
  revert v. induction rest as [|a rest IH]; intros v; cbn [fold_left].
  - split; [intros w [<-|[]]; lra | left; reflexivity].
  - destruct (IH (Rmin v a)) as [Hle Hin]. split.
    + intros w [<-|[<-|Hw]].
      * apply Rle_trans with (Rmin v a); [apply Hle; left; reflexivity | apply Rmin_l].
      * apply Rle_trans with (Rmin v a); [apply Hle; left; reflexivity | apply Rmin_r].
      * apply Hle. right. exact Hw.
    + destruct Hin as [Heq|Hin].
      * rewrite <- Heq. unfold Rmin. destruct (Rle_dec v a); [left; reflexivity | right; left; reflexivity].
      * right; right; exact Hin.
Qed.

(** [min_distance_from_segment] returns the distance from the midpoint of
    the move to one of the wall segments, and no wall segment is closer. *)
Theorem min_distance_is_minimum (seg : Segment) (ps : list Segment) (d : R) :
  min_distance_from_segment seg ps = Some d ->
  (exists s, In s ps /\ dist s (midpoint seg) = Some d) /\
  (forall s, In s ps -> exists ds, dist s (midpoint seg) = Some ds /\ d <= ds).
Proof.
  unfold min_distance_from_segment. cbv zeta.
  destruct (map_opt (fun s => dist s (midpoint seg)) ps) as [ds|] eqn:Hm; cbn [bind]; [|discriminate].
  apply map_opt_spec in Hm. unfold py_min.
  destruct ds as [|v rest]; [discriminate|]. intros H. injection H as <-.
  destruct (fold_Rmin_spec rest v) as [Hle Hin]. split.
  - destruct (proj2 (Forall2_in_both _ _ _ Hm) _ Hin) as (s & Hs & Hd). exists s. split; assumption.
  - intros s Hs. destruct (proj1 (Forall2_in_both _ _ _ Hm) s Hs) as (b & Hb & Hd). exists b. split; [exact Hd | apply Hle; exact Hb].
Qed.

(** [dist_le_endpoints] on the point (1, 1) over the segment (0, 0)-(2, 0). *)
Lemma dist_le_endpoints_witness :
  dist (mkSegment (mkPoint 0 0) (mkPoint 2 0)) (mkPoint 1 1) = Some 1 /\
  (1 <= get_points_distance (mkPoint 0 0) (mkPoint 1 1) /\ 1 <= get_points_distance (mkPoint 2 0) (mkPoint 1 1)).
Proof.
  assert (H : dist (mkSegment (mkPoint 0 0) (mkPoint 2 0)) (mkPoint 1 1) = Some 1).
  { unfold dist, fdiv, pow_half. reval. repeat rdecide. f_equal. apply sqrt_value; lra. }
  split; [exact H|]. exact (dist_le_endpoints _ _ _ H).
Defined.

(** [dist_on_segment] at the middle of the segment (0, 0)-(2, 0). *)
Lemma dist_on_segment_witness :
  (0 <= 1 / 2 <= 1 /\ mkPoint 0 0 <> mkPoint 2 0) /\
  dist (mkSegment (mkPoint 0 0) (mkPoint 2 0))
       (mkPoint (x (mkPoint 0 0) + 1 / 2 * (x (mkPoint 2 0) - x (mkPoint 0 0)))
                (y (mkPoint 0 0) + 1 / 2 * (y (mkPoint 2 0) - y (mkPoint 0 0)))) = Some 0.
Proof.
  assert (Ht : 0 <= 1 / 2 <= 1) by lra.
  assert (Hne : mkPoint 0 0 <> mkPoint 2 0) by (intros H; injection H; lra).
  split; [split; assumption|].
  exact (dist_on_segment (mkSegment (mkPoint 0 0) (mkPoint 2 0)) (1 / 2) Ht Hne).
Defined.

(** [min_distance_is_minimum] with two walls at distance 1 and 2. *)
Lemma min_distance_is_minimum_witness :
  min_distance_from_segment (mkSegment (mkPoint 0 1) (mkPoint 2 1))
    [mkSegment (mkPoint 0 0) (mkPoint 2 0); mkSegment (mkPoint 0 3) (mkPoint 2 3)] = Some 1 /\
  ((exists s, In s [mkSegment (mkPoint 0 0) (mkPoint 2 0); mkSegment (mkPoint 0 3) (mkPoint 2 3)] /\
              dist s (midpoint (mkSegment (mkPoint 0 1) (mkPoint 2 1))) = Some 1) /\
   (forall s, In s [mkSegment (mkPoint 0 0) (mkPoint 2 0); mkSegment (mkPoint 0 3) (mkPoint 2 3)] ->
      exists ds, dist s (midpoint (mkSegment (mkPoint 0 1) (mkPoint 2 1))) = Some ds /\ 1 <= ds)).
Proof.
  assert (H : min_distance_from_segment (mkSegment (mkPoint 0 1) (mkPoint 2 1))
    [mkSegment (mkPoint 0 0) (mkPoint 2 0); mkSegment (mkPoint 0 3) (mkPoint 2 3)] = Some 1).
  { unfold min_distance_from_segment, dist, midpoint, fdiv, pow_half, py_min. reval. repeat rdecide.
    rewrite (sqrt_value _ 1) by lra. rewrite (sqrt_value _ 2) by lra.
    f_equal. unfold Rmin. rdecide. reflexivity. }
  split; [exact H|]. exact (min_distance_is_minimum _ _ _ H).
Defined.

(** ** The plug-in's driver and the command line *)

(** [mfill_mode]: 2 (linear) for grid, lines, triangles, trihexagon, cubic,
    tetrahedral and quarter_cubic; 1 (small segments) for cross, cross_3d
    and gyroid; 0 (not supported) for every other pattern. *)
Theorem mfill_mode_table (m : string) :
  (Execute.mfill_mode m = 2%Z <->
     In m ["grid"; "lines"; "triangles"; "trihexagon"; "cubic"; "tetrahedral"; "quarter_cubic"]) /\
  (Execute.mfill_mode m = 1%Z <-> In m ["cross"; "cross_3d"; "gyroid"]) /\
  (Execute.mfill_mode m = 0%Z <->
     ~ In m ["grid"; "lines"; "triangles"; "trihexagon"; "cubic"; "tetrahedral"; "quarter_cubic";
             "cross"; "cross_3d"; "gyroid"]).
Proof.
  unfold Execute.mfill_mode. cbv zeta.
  repeat match goal with
         | |- context [String.eqb m ?s] => destruct (String.eqb_spec m s) as [->|?]
         end;
  cbn -[In]; repeat split; intros H; simpl in H |- *;
    first [ reflexivity | tauto | discriminate | (intuition congruence) ].
Qed.

(** Strings as lists of characters. *)
Lemma string_of_list_ascii_app (a b : list ascii) :
  string_of_list_ascii (a ++ b) = string_of_list_ascii a ++ string_of_list_ascii b.
Proof. induction a as [|c a IH]; cbn; [reflexivity | rewrite IH; reflexivity]. Qed.

Lemma str_app_nil_r (s : string) : s ++ EmptyString = s.
Proof. induction s as [|c s IH]; cbn; [reflexivity | rewrite IH; reflexivity]. Qed.

Lemma str_app_assoc (a b c : string) : (a ++ b) ++ c = a ++ (b ++ c).
Proof. induction a as [|ch a IH]; cbn; [reflexivity | rewrite IH; reflexivity]. Qed.

(** [split] always returns at least one field. *)
Lemma split_on_acc_cons (sep : ascii) (acc : list ascii) (s : string) :
  exists h t, Execute.split_on_acc sep acc s = h :: t.
Proof.
  revert acc. induction s as [|c s IH]; intros acc; cbn.
  - eexists _, _. reflexivity.
  - destruct (Ascii.eqb c sep); [eexists _, _; reflexivity | apply IH].
Qed.

(** [join] undoes [split], from a pending field [acc]. *)
Lemma join_split_on_acc (sep : ascii) (acc : list ascii) (s : string) :
  Execute.join (String sep EmptyString) (Execute.split_on_acc sep acc s)
  = string_of_list_ascii (rev acc) ++ s.
Proof.
  revert acc. induction s as [|c s IH]; intros acc; cbn.
  - rewrite str_app_nil_r. reflexivity.
  - destruct (Ascii.eqb_spec c sep) as [->|Hne].
    + destruct (split_on_acc_cons sep [] s) as (h & t & Ht).
      specialize (IH []). rewrite Ht in IH |- *.
      transitivity (string_of_list_ascii (rev acc) ++ String sep (Execute.join (String sep EmptyString) (h :: t)));
        [reflexivity|].
      rewrite IH. reflexivity.
    + rewrite IH. cbn. rewrite string_of_list_ascii_app, str_app_assoc. reflexivity.
Qed.

(** [sep.join(s.split(sep))] gives back [s] for a one-character separator:
    [execute] rebuilds each layer it does not change. *)
Theorem join_split_on (sep : ascii) (s : string) :
  Execute.join (String sep EmptyString) (Execute.split_on sep s) = s.
Proof. apply join_split_on_acc. Qed.

(** [arg_to_infill_type] accepts exactly the member names and their values
    ["1"] and ["2"]; any other argument is refused. *)
Theorem arg_to_infill_type_spec (arg : string) (t : Standalone.InfillType) :
  CLI.arg_to_infill_type arg = Some t <->
  arg = CLI.infill_type_name t \/ arg = CLI.infill_type_value t.
Proof.
  unfold CLI.arg_to_infill_type. cbn.
  destruct (String.eqb_spec arg "SMALL_SEGMENTS") as [->|H1]; [destruct t; cbn; intuition congruence|].
  destruct (String.eqb_spec arg "1") as [->|H2]; [destruct t; cbn; intuition congruence|].
  destruct (String.eqb_spec arg "LINEAR") as [->|H3]; [destruct t; cbn; intuition congruence|].
  destruct (String.eqb_spec arg "2") as [->|H4]; [destruct t; cbn; intuition congruence|].
  destruct t; cbn; intuition congruence.
Qed.

(** [rfind_acc]: the result is [best] or a position of [c], and no later
    position holds [c]. *)
Lemma rfind_acc_spec (c : ascii) (l : list ascii) (i best : Z) :
  (0 <= i)%Z ->
  let r := CLI.rfind_acc c l i best in
  (r = best \/ (i <= r < i + Z.of_nat (length l))%Z /\ nth_error l (Z.to_nat (r - i)) = Some c) /\
  (forall j, (r < j)%Z -> (i <= j)%Z -> nth_error l (Z.to_nat (j - i)) <> Some c).
Proof.
  revert i best. induction l as [|d l IH]; intros i best Hi; cbn.
  - split; [left; reflexivity|]. intros j _ _. destruct (Z.to_nat (j - i)); discriminate.
  - destruct (IH (i + 1)%Z (if (c =? d)%char then i else best)) as [H1 H2]; [lia|].
    set (r := CLI.rfind_acc c l (i + 1) (if (c =? d)%char then i else best)) in *.
    split.
    + destruct H1 as [Hb|[Hr Hn]].
      * destruct (Ascii.eqb_spec c d) as [<-|Hcd]; [right|left; exact Hb].
        rewrite Hb. split; [lia|]. replace (i - i)%Z with 0%Z by lia. reflexivity.
      * right. split; [lia|]. replace (Z.to_nat (r - i)) with (S (Z.to_nat (r - (i + 1)))) by lia.
        exact Hn.
    + intros j Hj Hij.
      destruct (Z.eq_dec j i) as [->|Hji].
      * replace (i - i)%Z with 0%Z by lia. cbn.
        destruct (Ascii.eqb_spec c d) as [<-|Hcd].
        -- exfalso. destruct H1 as [Hb|[Hr _]]; lia.
        -- intros H. injection H as H. congruence.
      * replace (Z.to_nat (j - i)) with (S (Z.to_nat (j - (i + 1)))) by lia.
        apply H2; lia.
Qed.

Lemma skipn_nth_error {A : Type} (l : list A) (k : nat) (a : A) :
  nth_error l k = Some a -> skipn k l = a :: skipn (S k) l.
Proof.
  revert k. induction l as [|b l IH]; intros k H; [destruct k; discriminate|].
  destruct k as [|k]; cbn in H |- *; [injection H as ->; reflexivity | apply IH; exact H].
Qed.

Lemma str_length_app (a b : string) : String.length (a ++ b) = (String.length a + String.length b)%nat.
Proof. induction a as [|c a IH]; cbn; [reflexivity | rewrite IH; reflexivity]. Qed.

(** [head + ext] is the original path. *)
Lemma splitext_concat (p : string) : fst (CLI.splitext p) ++ snd (CLI.splitext p) = p.
Proof.
  unfold CLI.splitext.
  destruct (_ <? _)%Z; [|apply str_app_nil_r].
  destruct (existsb _ _); [|apply str_app_nil_r].
  cbn [fst snd]. rewrite <- string_of_list_ascii_app, firstn_skipn. apply string_of_list_ascii_of_string.
Qed.

(** [splitext] splits the path in two parts whose concatenation is the
    path; the extension is empty or a dot followed by no [/]. *)
Theorem splitext_spec (p : string) :
  fst (CLI.splitext p) ++ snd (CLI.splitext p) = p /\
  (snd (CLI.splitext p) = EmptyString \/
   exists r, snd (CLI.splitext p) = String "." r /\ ~ In "/"%char (list_ascii_of_string r)).
Proof.
  unfold CLI.splitext.
  set (l := list_ascii_of_string p).
  destruct (rfind_acc_spec "/"%char l 0 (-1) ltac:(lia)) as [Hs1 Hs2].
  destruct (rfind_acc_spec "."%char l 0 (-1) ltac:(lia)) as [Hd1 Hd2].
  unfold CLI.rfind.
  set (sep := CLI.rfind_acc "/"%char l 0 (-1)) in *.
  set (dot := CLI.rfind_acc "."%char l 0 (-1)) in *.
  destruct (Z.ltb_spec sep dot) as [Hlt|Hge]; [|cbn; split; [apply str_app_nil_r | left; reflexivity]].
  destruct (existsb _ _); [|cbn; split; [apply str_app_nil_r | left; reflexivity]].
  cbn [fst snd]. split.
  - rewrite <- string_of_list_ascii_app, firstn_skipn. apply string_of_list_ascii_of_string.
  - right. destruct Hd1 as [Hd|[Hr Hn]]; [exfalso; destruct Hs1 as [Hs|[Hs _]]; lia|].
    replace (dot - 0)%Z with dot in Hn by lia.
    rewrite (skipn_nth_error _ _ _ Hn). cbn [string_of_list_ascii].
    eexists. split; [reflexivity|].
    rewrite list_ascii_of_string_of_list_ascii. intros Hin.
    apply In_nth_error in Hin as [m Hm]. rewrite nth_error_skipn in Hm.
    apply (Hs2 (Z.of_nat (S (Z.to_nat dot) + m))); [lia | lia |].
    replace (Z.to_nat (Z.of_nat (S (Z.to_nat dot) + m) - 0)) with (S (Z.to_nat dot) + m)%nat by lia.
    exact Hm.
Qed.

(** Without [-o], the output path is never the input path (it is longer),
    so the input file is never overwritten. *)
Theorem output_path_default_differs (p : string) : CLI.output_path p None <> p.
Proof.
  unfold CLI.output_path. pose proof (splitext_concat p) as Hcat.
  destruct (CLI.splitext p) as [head ext]. cbn in Hcat.
  intros H. apply (f_equal String.length) in H.
  rewrite <- Hcat, !str_length_app in H.
  destruct (String.eqb_spec ext EmptyString) as [->|Hne]; rewrite ?str_length_app in H; cbn in H; lia.
Qed.

(** [mfill_mode] only returns 0, 1 or 2. *)
Lemma mfill_mode_range (m : string) :
  Execute.mfill_mode m = 0%Z \/ Execute.mfill_mode m = 1%Z \/ Execute.mfill_mode m = 2%Z.
Proof.
  unfold Execute.mfill_mode. cbv zeta.
  repeat match goal with
         | |- context [String.eqb m ?s] => destruct (String.eqb_spec m s) as [->|?]
         end; cbn; tauto.
Qed.

(** What [execute] does before its loop, for the extruder
    [extrud[min(extruder_nb - 1, machine_extruder_count - 1)]]: it raises
    when that index is out of range or when [gradientdiscretization] is 0
    (and no earlier check returned); it returns [None] (G-code unchanged)
    when relative extrusion is off, infill-before-walls is on, the pattern is
    not supported or connect-infill is on; otherwise it runs with an infill
    type of 1 or 2 and [gradientDiscretizationLength = thickness /
    discretization]. *)
Theorem setup_outcome (s : Execute.Settings) (c : Z) (ex : list Execute.Extruder) :
  let selected := Execute.py_index ex (Z.min (Execute.extruder_nb s - 1) (c - 1)) in
  match Execute.setup s c ex with
  | None =>
      selected = None \/
      exists e, selected = Some e /\ Execute.relative_extrusion e = true /\
                Execute.infill_before_walls e = false /\ Execute.gradientdiscretization s = 0
  | Some None =>
      exists e, selected = Some e /\
        (Execute.relative_extrusion e = false \/ Execute.infill_before_walls e = true \/
         (Execute.gradientdiscretization s <> 0 /\
          (Execute.mfill_mode (Execute.infill_pattern e) = 0%Z \/ Execute.zig_zaggify_infill e = true)))
  | Some (Some (cfg, gdl)) =>
      exists e, selected = Some e /\ Execute.relative_extrusion e = true /\
        Execute.infill_before_walls e = false /\ Execute.zig_zaggify_infill e = false /\
        Plugin.infill_type cfg = Execute.mfill_mode (Execute.infill_pattern e) /\
        (Plugin.infill_type cfg = 1%Z \/ Plugin.infill_type cfg = 2%Z) /\
        Execute.gradientdiscretization s <> 0 /\
        gdl = Execute.gradientthickness s / Execute.gradientdiscretization s
  end.
Proof.
  intros selected. unfold Execute.setup. cbv zeta.
  assert (Hid : (if (c - 1 <? Execute.extruder_nb s - 1)%Z then (c - 1)%Z else (Execute.extruder_nb s - 1)%Z)
                = Z.min (Execute.extruder_nb s - 1) (c - 1))
    by (destruct (Z.ltb_spec (c - 1) (Execute.extruder_nb s - 1)); lia).
  rewrite Hid. fold selected.
  destruct selected as [e|]; cbn [bind]; [|left; reflexivity].
  destruct (Execute.relative_extrusion e) eqn:Hr; cbn [negb];
    [|exists e; split; [reflexivity | left; assumption]].
  destruct (Execute.infill_before_walls e) eqn:Hb; [exists e; split; [reflexivity | right; left; assumption]|].
  unfold fdiv. destruct (Req_dec_T (Execute.gradientdiscretization s) 0) as [Hd|Hd]; cbn [bind].
  { right. exists e. repeat split; assumption. }
  destruct (Z.eqb_spec (Execute.mfill_mode (Execute.infill_pattern e)) 0) as [Hm|Hm].
  { exists e. split; [reflexivity | right; right; split; [exact Hd | left; exact Hm]]. }
  destruct (Execute.zig_zaggify_infill e) eqn:Hz.
  { exists e. split; [reflexivity | right; right; split; [exact Hd | right; assumption]]. }
  exists e. cbn. repeat split; try assumption; try reflexivity.
  destruct (mfill_mode_range (Execute.infill_pattern e)) as [H|[H|H]]; [contradiction | left | right]; exact H.
Qed.

(** An [extruder_nb] of 0 gives the index -1, which Python reads as the
    last extruder of the list: the setup is the one of a machine holding
    that extruder alone. *)
Theorem setup_extruder_zero (s : Execute.Settings) (c : Z) (ex : list Execute.Extruder) (e : Execute.Extruder) :
  Execute.extruder_nb s = 0%Z -> (1 <= c)%Z ->
  Execute.setup s c (ex ++ [e]) = Execute.setup s 1 [e].
Proof.
  intros Hnb Hc. unfold Execute.setup. cbv zeta. rewrite Hnb.
  replace (c - 1 <? 0 - 1)%Z with false by (symmetry; apply Z.ltb_ge; lia).
  replace (1 - 1 <? 0 - 1)%Z with false by reflexivity.
  assert (He : Execute.py_index (ex ++ [e]) (0 - 1) = Some e).
  { unfold Execute.py_index. rewrite length_app. cbn [length].
    replace (0 - 1 <? 0)%Z with true by reflexivity.
    replace (Z.of_nat (length ex + 1) + (0 - 1) <? 0)%Z with false by (symmetry; apply Z.ltb_ge; lia).
    replace (Z.to_nat (Z.of_nat (length ex + 1) + (0 - 1))) with (length ex) by lia.
    rewrite nth_error_app2, Nat.sub_diag by lia. reflexivity. }
  rewrite He. reflexivity.
Qed.


(** [l.index(v)] is the first position of [v]. *)
Lemma py_list_index_spec (v : string) (l : list string) (j : nat) :
  Execute.py_list_index v l = Some j ->
  nth_error l j = Some v /\ forall k, (k < j)%nat -> nth_error l k <> Some v.
Proof.
  revert j. induction l as [|h t IH]; intros j H; cbn in H; [discriminate|].
  destruct (String.eqb_spec h v) as [->|Hne].
  - injection H as <-. split; [reflexivity | intros k Hk; lia].
  - destruct (Execute.py_list_index v t) as [n|] eqn:Hn; cbn [bind] in H; [|discriminate].
    injection H as <-. destruct (IH n eq_refl) as [H1 H2]. split; [exact H1|].
    intros [|k] Hk; cbn; [intros H; injection H as H; congruence | apply H2; lia].
Qed.

(** [l[j] = v] changes position [j] only. *)
Lemma list_set_spec {A : Type} (l l' : list A) (j : nat) (v : A) :
  Execute.list_set l j v = Some l' ->
  length l' = length l /\ nth_error l' j = Some v /\ forall k, k <> j -> nth_error l' k = nth_error l k.
Proof.
  revert j l'. induction l as [|h t IH]; intros j l' H; cbn in H; [discriminate|].
  destruct j as [|j].
  - injection H as <-. split; [reflexivity|]. split; [reflexivity|]. intros [|k] Hk; [lia | reflexivity].
  - destruct (Execute.list_set t j v) as [t'|] eqn:Ht; cbn [bind] in H; [|discriminate].
    injection H as <-. destruct (IH j t' Ht) as (H1 & H2 & H3). cbn. rewrite H1.
    split; [reflexivity|]. split; [exact H2|]. intros [|k] Hk; [reflexivity | apply H3; lia].
Qed.

(** Writing back the value already there leaves the list as it is. *)
Lemma list_set_same {A : Type} (l : list A) (j : nat) (v : A) :
  nth_error l j = Some v -> Execute.list_set l j v = Some l.
Proof.
  revert j. induction l as [|h t IH]; intros j H; [destruct j; discriminate|].
  destruct j as [|j]; cbn in H |- *; [injection H as ->; reflexivity | rewrite (IH j H); reflexivity].
Qed.

(** Outside an infill section, a line other than [;TYPE:FILL] is not
    assigned and does not open an infill section. *)
Lemma plugin_process_line_outside_infill (cfg : Plugin.Config) (gdl : R) (st st' : Plugin.State)
    (line : string) (a : option (list piece)) :
  Plugin.currentSection st <> Plugin.INFILL ->
  Plugin.is_begin_infill_segment_line line = false ->
  Plugin.process_line cfg gdl st line = Some (st', a) ->
  a = None /\ Plugin.currentSection st' <> Plugin.INFILL.
Proof.
  intros Hs Hb H. unfold Plugin.process_line in H. rewrite Hb in H.
  bind_some H. bind_some H. cbv zeta in H.
  destruct (Plugin.currentSection st) eqn:Hc; [| | |contradiction];
  destruct (Plugin.is_begin_outer_wall_line line), (Plugin.is_begin_inner_wall_line line);
  cbn [Plugin.Section_eqb andb] in H; bind_some H;
  match goal with E : Some _ = Some _ |- _ => injection E as <- end;
  cbn [andb] in H; bind_some H; injection H as <- <-;
  (split; [reflexivity | cbn; discriminate]).
Qed.

(** A layer without [;TYPE:FILL] lines is left as it is. *)
Lemma run_lines_outside_infill (render : list piece -> string) (cfg : Plugin.Config) (gdl : R)
    (st : Plugin.State) (i k : nat) (lines : list string) (r : Plugin.State * list string) :
  Plugin.currentSection st <> Plugin.INFILL ->
  (forall line, In line lines -> Plugin.is_begin_infill_segment_line line = false) ->
  Execute.run_lines render cfg gdl st i k lines = Some r ->
  snd r = lines /\ Plugin.currentSection (fst r) <> Plugin.INFILL.
Proof.
  intros Hs Hl. revert st i Hs. induction k as [|k IH]; intros st i Hs H; cbn in H.
  - injection H as <-. split; [reflexivity | exact Hs].
  - bind_some H. unfold Execute.line_step in *.
    destruct (nth_error lines i) as [line|] eqn:Hn.
    + bind_some E. bind_some E.
      match type of E1 with Plugin.process_line _ _ _ _ = Some ?q => destruct q as [st1 a] end.
      destruct (plugin_process_line_outside_infill cfg gdl st st1 line a Hs
                  (Hl line (nth_error_In _ _ Hn)) E1) as [-> Hs1].
      cbn in E. injection E as <-. cbn in H. exact (IH st1 (S i) Hs1 H).
    + injection E as <-. cbn in H. exact (IH st (S i) Hs H).
Qed.

(** Layers without [;TYPE:FILL] lines are written back unchanged. *)
Lemma run_layers_outside_infill (render : list piece -> string) (cfg : Plugin.Config) (gdl : R)
    (st : Plugin.State) (i k : nat) (data : list string) (r : Plugin.State * list string) :
  Plugin.currentSection st <> Plugin.INFILL ->
  (forall layer, In layer data -> forall line, In line (Execute.split_on "010"%char layer) ->
     Plugin.is_begin_infill_segment_line line = false) ->
  Execute.run_layers render cfg gdl st i k data = Some r ->
  snd r = data.
Proof.
  intros Hs Hd. revert st i Hs. induction k as [|k IH]; intros st i Hs H; cbn in H.
  - injection H as <-. reflexivity.
  - destruct (nth_error data i) as [layer|] eqn:Hn; [|injection H as <-; reflexivity].
    bind_some H. bind_some H.
    destruct (run_lines_outside_infill render cfg gdl st 0 _ _ p Hs (Hd layer (nth_error_In _ _ Hn)) E0)
      as [Hsnd Hs1].
    rewrite Hsnd in H. unfold Execute.split_on in H. rewrite join_split_on_acc in H. cbn [rev string_of_list_ascii append] in H.
    destruct (py_list_index_spec _ _ _ E) as [Hj _].
    rewrite (list_set_same _ _ _ Hj) in H. cbn [bind] in H.
    exact (IH (fst p) (S i) Hs1 H).
Qed.

(** When no line of any layer starts with [;TYPE:FILL], a run of [execute]
    that does not raise returns the layers unchanged. *)
Theorem execute_without_infill_unchanged (render : list piece -> string) (s : Execute.Settings) (c : Z)
    (ex : list Execute.Extruder) (data data' : list string) :
  (forall layer, In layer data -> forall line, In line (Execute.split_on "010"%char layer) ->
     Plugin.is_begin_infill_segment_line line = false) ->
  Execute.execute render s c ex data = Some (Some data') ->
  data' = data.
Proof.
  intros Hd H. unfold Execute.execute in H. bind_some H.
  destruct o as [[cfg gdl]|]; [|discriminate]. bind_some H. injection H as <-.
  apply (run_layers_outside_infill render cfg gdl Execute.initial_state 0 (length data) data p);
    [cbn; discriminate | exact Hd | exact E0].
Qed.

(** The loop over the lines keeps the number of lines. *)
Lemma run_lines_length (render : list piece -> string) (cfg : Plugin.Config) (gdl : R)
    (st : Plugin.State) (i k : nat) (lines : list string) (r : Plugin.State * list string) :
  Execute.run_lines render cfg gdl st i k lines = Some r -> length (snd r) = length lines.
Proof.
  revert st i lines. induction k as [|k IH]; intros st i lines H; cbn in H.
  - injection H as <-. reflexivity.
  - bind_some H. rewrite (IH _ _ _ H). unfold Execute.line_step in E.
    destruct (nth_error lines i); [|injection E as <-; reflexivity].
    bind_some E. bind_some E.
    lazymatch type of E with context [snd ?q] => destruct (snd q) end; [|injection E as <-; reflexivity].
    bind_some E. injection E as <-. exact (proj1 (list_set_spec _ _ _ _ E2)).
Qed.

(** The loop over the layers keeps the number of layers. *)
Lemma run_layers_length (render : list piece -> string) (cfg : Plugin.Config) (gdl : R)
    (st : Plugin.State) (i k : nat) (data : list string) (r : Plugin.State * list string) :
  Execute.run_layers render cfg gdl st i k data = Some r -> length (snd r) = length data.
Proof.
  revert st i data. induction k as [|k IH]; intros st i data H; cbn in H.
  - injection H as <-. reflexivity.
  - destruct (nth_error data i); [|injection H as <-; reflexivity].
    bind_some H. bind_some H. bind_some H.
    rewrite (IH _ _ _ H). exact (proj1 (list_set_spec _ _ _ _ E1)).
Qed.

(** [execute] returns as many layers as it was given. *)
Theorem execute_keeps_layer_count (render : list piece -> string) (s : Execute.Settings) (c : Z)
    (ex : list Execute.Extruder) (data data' : list string) :
  Execute.execute render s c ex data = Some (Some data') -> length data' = length data.
Proof.
  intros H. unfold Execute.execute in H. bind_some H.
  destruct o as [[cfg gdl]|]; [|discriminate]. bind_some H. injection H as <-.
  exact (run_layers_length _ _ _ _ _ _ _ _ E0).
Qed.

(** The assignment [lines[lines.index(currentLine)] = ...] keeps the number
    of lines and can only change the first line equal to the current one,
    at or before the current position: a line that repeats an earlier line of
    its layer is never rewritten in place. *)
Theorem line_step_writes_first_occurrence (render : list piece -> string) (cfg : Plugin.Config) (gdl : R)
    (st st' : Plugin.State) (i : nat) (lines lines' : list string) (line : string) :
  Execute.line_step render cfg gdl st i lines = Some (st', lines') ->
  nth_error lines i = Some line ->
  length lines' = length lines /\
  forall k, nth_error lines' k <> nth_error lines k ->
    (k <= i)%nat /\ nth_error lines k = Some line /\ (forall k', (k' < k)%nat -> nth_error lines k' <> Some line).
Proof.
  intros H Hi. unfold Execute.line_step in H. rewrite Hi in H.
  bind_some H. bind_some H.
  destruct (py_list_index_spec _ _ _ E) as [Hj Hfirst].
  lazymatch type of H with context [snd ?q] => destruct (snd q) end; [|injection H as _ <-; split; [reflexivity | intros k Hk; congruence]].
  bind_some H. injection H as _ <-.
  destruct (list_set_spec _ _ _ _ E1) as (Hlen & _ & Hother).
  split; [exact Hlen|]. intros k Hk.
  destruct (Nat.eq_dec k n) as [->|Hkn]; [|exfalso; apply Hk, Hother, Hkn].
  split; [|split; [exact Hj | exact Hfirst]].
  destruct (Nat.le_gt_cases n i) as [Hle|Hgt]; [exact Hle|].
  exfalso. exact (Hfirst i Hgt Hi).
Qed.

(** [setup_extruder_zero] with two extruders. *)
Lemma setup_extruder_zero_witness :
  Execute.extruder_nb (Execute.mkSettings 2 350 50 100 6 0 false 200 50 false) = 0%Z /\ (1 <= 2)%Z /\
  Execute.setup (Execute.mkSettings 2 350 50 100 6 0 false 200 50 false) 2
    ([Execute.mkExtruder "lines" false false false] ++ [Execute.mkExtruder "gyroid" false true false])
  = Execute.setup (Execute.mkSettings 2 350 50 100 6 0 false 200 50 false) 1
      [Execute.mkExtruder "gyroid" false true false].
Proof.
  split; [reflexivity|]. split; [lia|].
  apply setup_extruder_zero; [reflexivity | lia].
Defined.

(** [execute_without_infill_unchanged] on a layer with a travel move and
    an extrusion move. *)
Lemma execute_without_infill_unchanged_witness :
  (forall layer, In layer [";LAYER:0
G0 X10 Y5
G1 X20 Y5 E1"] -> forall line, In line (Execute.split_on "010"%char layer) ->
     Plugin.is_begin_infill_segment_line line = false) /\
  Execute.execute (fun _ => EmptyString) (Execute.mkSettings 2 350 50 100 6 1 false 200 50 false) 1
    [Execute.mkExtruder "gyroid" false true false] [";LAYER:0
G0 X10 Y5
G1 X20 Y5 E1"] = Some (Some [";LAYER:0
G0 X10 Y5
G1 X20 Y5 E1"]) /\
  [";LAYER:0
G0 X10 Y5
G1 X20 Y5 E1"] = [";LAYER:0
G0 X10 Y5
G1 X20 Y5 E1"].
Proof.
  assert (Hd : forall layer, In layer [";LAYER:0
G0 X10 Y5
G1 X20 Y5 E1"] -> forall line, In line (Execute.split_on "010"%char layer) ->
     Plugin.is_begin_infill_segment_line line = false).
  { intros layer [<-|[]] line Hl. vm_compute in Hl.
    repeat (destruct Hl as [<-|Hl]; [reflexivity|]). destruct Hl. }
  assert (Hrun : Execute.execute (fun _ => EmptyString) (Execute.mkSettings 2 350 50 100 6 1 false 200 50 false) 1
    [Execute.mkExtruder "gyroid" false true false] [";LAYER:0
G0 X10 Y5
G1 X20 Y5 E1"] = Some (Some [";LAYER:0
G0 X10 Y5
G1 X20 Y5 E1"])).
  { unfold Execute.execute. reval. repeat rsplit. reflexivity. }
  split; [exact Hd|]. split; [exact Hrun|].
  exact (execute_without_infill_unchanged _ _ _ _ _ _ Hd Hrun).
Defined.

(** [execute_keeps_layer_count] on two layers, one of whose lines (a
    comment in an infill section) is reassigned. *)
Lemma execute_keeps_layer_count_witness :
  Execute.execute (fun _ => "#") (Execute.mkSettings 2 350 50 100 6 1 false 200 50 false) 1
    [Execute.mkExtruder "gyroid" false true false] [";LAYER:0
;TYPE:FILL
;MESH:x"; ";LAYER:1"] = Some (Some [";LAYER:0
;TYPE:FILL
#"; ";LAYER:1"]) /\
  length [";LAYER:0
;TYPE:FILL
#"; ";LAYER:1"] = length [";LAYER:0
;TYPE:FILL
;MESH:x"; ";LAYER:1"].
Proof.
  assert (Hrun : Execute.execute (fun _ => "#") (Execute.mkSettings 2 350 50 100 6 1 false 200 50 false) 1
    [Execute.mkExtruder "gyroid" false true false] [";LAYER:0
;TYPE:FILL
;MESH:x"; ";LAYER:1"] = Some (Some [";LAYER:0
;TYPE:FILL
#"; ";LAYER:1"])).
  { unfold Execute.execute. reval. repeat rsplit. reflexivity. }
  split; [exact Hrun|]. exact (execute_keeps_layer_count _ _ _ _ _ _ Hrun).
Defined.

(** [line_step_writes_first_occurrence]: the second of two equal comment
    lines in an infill section is reassigned at the position of the first. *)
Lemma line_step_writes_first_occurrence_witness :
  Execute.line_step (fun _ => "R") (Plugin.mkConfig 1 100 50 100 6 2 false 2 (1/2) false) 3
    (Plugin.mkState Plugin.INFILL (mkPoint 0 0) (Some []) None) 1 [";c"; ";c"]
  = Some (Plugin.mkState Plugin.NOTHING (mkPoint 0 0) (Some []) None, ["R"; ";c"]) /\
  nth_error [";c"; ";c"] 1 = Some ";c" /\
  (length ["R"; ";c"] = length [";c"; ";c"] /\
   forall k, nth_error ["R"; ";c"] k <> nth_error [";c"; ";c"] k ->
     (k <= 1)%nat /\ nth_error [";c"; ";c"] k = Some ";c" /\
     (forall k', (k' < k)%nat -> nth_error [";c"; ";c"] k' <> Some ";c")).
Proof.
  assert (Hstep : Execute.line_step (fun _ => "R") (Plugin.mkConfig 1 100 50 100 6 2 false 2 (1/2) false) 3
    (Plugin.mkState Plugin.INFILL (mkPoint 0 0) (Some []) None) 1 [";c"; ";c"]
    = Some (Plugin.mkState Plugin.NOTHING (mkPoint 0 0) (Some []) None, ["R"; ";c"])) by reflexivity.
  split; [exact Hstep|]. split; [reflexivity|].
  exact (line_step_writes_first_occurrence _ _ _ _ _ _ _ _ _ Hstep eq_refl).
Defined.

(** ** Line by line: sections, perimeter and position *)

(** The stand-alone [process_line] stores the perimeter value computed by
    its wall test. *)
Lemma standalone_process_line_shape (cfg : Standalone.Config) (gdl : R) (st st' : Standalone.State)
    (line : string) (out : list piece) :
  Standalone.process_line cfg gdl st line = Some (st', out) ->
  let perim0 := if Standalone.is_begin_layer_line line then Some [] else Standalone.perimeterSegments st in
  let sec0 := if Standalone.is_begin_inner_wall_line line then Standalone.INNER_WALL else Standalone.currentSection st in
  (if Standalone.Section_eqb sec0 Standalone.INNER_WALL && Standalone.is_extrusion_line line then
     ps <- perim0 ;; p <- getXY line ;; Some (Some (ps ++ [mkSegment p (Standalone.lastPosition st)])%list)
   else Some perim0) = Some (Standalone.perimeterSegments st').
Proof.
  intros H. cbv zeta. unfold Standalone.process_line in H. cbv zeta in H.
  bind_some H.
  destruct (Standalone.is_begin_infill_segment_line line); [injection H as <- _; reflexivity|].
  bind_some H. destruct p as [[o1 w] l]. bind_some H. injection H as <- _. reflexivity.
Qed.

(** Stand-alone script: the perimeter set after a line is the one before
    (reset to [[]] by a [;LAYER:] line), or that set with the segment from
    [getXY(line)] to [lastPosition] appended, which happens only for an
    extrusion line in an inner-wall section. *)
Theorem standalone_perimeter_update (cfg : Standalone.Config) (gdl : R) (st st' : Standalone.State)
    (line : string) (out : list piece) :
  Standalone.process_line cfg gdl st line = Some (st', out) ->
  let base := if Standalone.is_begin_layer_line line then Some [] else Standalone.perimeterSegments st in
  Standalone.perimeterSegments st' = base \/
  (Standalone.is_extrusion_line line = true /\
   (Standalone.is_begin_inner_wall_line line = true \/ Standalone.currentSection st = Standalone.INNER_WALL) /\
   exists ps p, base = Some ps /\ getXY line = Some p /\
     Standalone.perimeterSegments st' = Some (ps ++ [mkSegment p (Standalone.lastPosition st)])%list).
Proof.
  intros H base. apply standalone_process_line_shape in H. cbv zeta in H.
  destruct (Standalone.is_extrusion_line line) eqn:Hx;
    [|rewrite andb_false_r in H; injection H as H'; left; rewrite <- H'; reflexivity].
  rewrite andb_true_r in H.
  assert (Hsec : Standalone.is_begin_inner_wall_line line = true \/ Standalone.currentSection st = Standalone.INNER_WALL
                 \/ Standalone.Section_eqb (if Standalone.is_begin_inner_wall_line line then Standalone.INNER_WALL
                                            else Standalone.currentSection st) Standalone.INNER_WALL = false).
  { destruct (Standalone.is_begin_inner_wall_line line); [left; reflexivity|].
    destruct (Standalone.currentSection st); auto. }
  destruct Hsec as [Hi|[Hs|Hf]].
  - right. split; [reflexivity|]. split; [left; exact Hi|].
    rewrite Hi in H. cbn [Standalone.Section_eqb] in H. bind_some H. bind_some H. injection H as H'.
    exists l, p. split; [first [exact E | reflexivity]|]. split; [first [exact E0 | reflexivity] | rewrite <- H'; reflexivity].
  - right. split; [reflexivity|]. split; [right; exact Hs|].
    destruct (Standalone.is_begin_inner_wall_line line); rewrite ?Hs in H; cbn [Standalone.Section_eqb] in H;
    bind_some H; bind_some H; injection H as H';
    (exists l, p; split; [first [exact E | reflexivity]|]; split; [first [exact E0 | reflexivity] | rewrite <- H'; reflexivity]).
  - rewrite Hf in H. injection H as H'. left. rewrite <- H'. reflexivity.
Qed.

(** Stand-alone script: an inner-wall extrusion line read before any
    [;LAYER:] line raises ([perimeterSegments] is not assigned yet). *)
Theorem standalone_wall_before_layer_raises (cfg : Standalone.Config) (gdl : R) (st : Standalone.State)
    (line : string) :
  Standalone.perimeterSegments st = None ->
  Standalone.is_begin_layer_line line = false ->
  Standalone.is_extrusion_line line = true ->
  (Standalone.is_begin_inner_wall_line line = true \/ Standalone.currentSection st = Standalone.INNER_WALL) ->
  Standalone.process_line cfg gdl st line = None.
Proof.
  intros Hp Hl Hx Hs. unfold Standalone.process_line. rewrite Hl, Hp, Hx, andb_true_r.
  destruct Hs as [Hi|Hs]; [rewrite Hi | destruct (Standalone.is_begin_inner_wall_line line); rewrite ?Hs]; reflexivity.
Qed.

(** The plug-in's [process_line] stores the perimeter value computed by
    its two wall tests. *)
Lemma plugin_process_line_shape (cfg : Plugin.Config) (gdl : R) (st st' : Plugin.State)
    (line : string) (a : option (list piece)) :
  Plugin.process_line cfg gdl st line = Some (st', a) ->
  let perim0 := if Plugin.is_begin_layer_line line then Some [] else Plugin.perimeterSegments st in
  let sec0 := if Plugin.is_begin_inner_wall_line line then Plugin.INNER_WALL else Plugin.currentSection st in
  let sec1 := if Plugin.is_begin_outer_wall_line line then Plugin.OUTER_WALL else sec0 in
  exists perim1,
  (if Plugin.Section_eqb sec1 Plugin.INNER_WALL && negb (Plugin.test_outer_wall cfg) && Plugin.is_extrusion_line line then
     ps <- perim0 ;; p <- getXY line ;; Some (Some (ps ++ [mkSegment p (Plugin.lastPosition st)])%list)
   else Some perim0) = Some perim1 /\
  (if Plugin.Section_eqb sec1 Plugin.OUTER_WALL && Plugin.test_outer_wall cfg && Plugin.is_extrusion_line line then
     ps <- perim1 ;; p <- getXY line ;; Some (Some (ps ++ [mkSegment p (Plugin.lastPosition st)])%list)
   else Some perim1) = Some (Plugin.perimeterSegments st').
Proof.
  intros H. cbv zeta. unfold Plugin.process_line in H. cbv zeta in H.
  bind_some H. exists o. split; [reflexivity|]. bind_some H.
  destruct (Plugin.is_begin_infill_segment_line line).
  - bind_some H. injection H as <- _. reflexivity.
  - bind_some H. destruct p as [[f w] l]. bind_some H. injection H as <- _. reflexivity.
Qed.

(** Plug-in: the perimeter set after a line is the one before (reset to
    [[]] by a [;LAYER:] line), or that set with the segment from
    [getXY(line)] to [lastPosition] appended, which happens only for an
    extrusion line in an outer-wall section when [test_outer_wall] is set,
    and in an inner-wall section when it is not. *)
Theorem plugin_perimeter_update (cfg : Plugin.Config) (gdl : R) (st st' : Plugin.State)
    (line : string) (a : option (list piece)) :
  Plugin.process_line cfg gdl st line = Some (st', a) ->
  let base := if Plugin.is_begin_layer_line line then Some [] else Plugin.perimeterSegments st in
  let sec1 := if Plugin.is_begin_outer_wall_line line then Plugin.OUTER_WALL
              else if Plugin.is_begin_inner_wall_line line then Plugin.INNER_WALL
              else Plugin.currentSection st in
  Plugin.perimeterSegments st' = base \/
  (Plugin.is_extrusion_line line = true /\
   sec1 = (if Plugin.test_outer_wall cfg then Plugin.OUTER_WALL else Plugin.INNER_WALL) /\
   exists ps p, base = Some ps /\ getXY line = Some p /\
     Plugin.perimeterSegments st' = Some (ps ++ [mkSegment p (Plugin.lastPosition st)])%list).
Proof.
  intros H base sec1. apply plugin_process_line_shape in H. cbv zeta in H.
  destruct H as (perim1 & E1 & E2).
  destruct (Plugin.is_extrusion_line line) eqn:Hx;
    [|rewrite !andb_false_r in E1, E2; injection E1 as <-; injection E2 as E2; left; rewrite <- E2; reflexivity].
  rewrite !andb_true_r in E1, E2.
  unfold sec1.
  destruct (Plugin.test_outer_wall cfg), (Plugin.is_begin_outer_wall_line line),
           (Plugin.is_begin_inner_wall_line line), (Plugin.currentSection st);
  cbn [Plugin.Section_eqb andb negb] in E1, E2;
  first
    [ injection E1 as <-; injection E2 as E2; left; rewrite <- E2; reflexivity
    | bind_some E1; bind_some E1; injection E1 as <-; injection E2 as E2;
      right; split; [reflexivity|]; split; [reflexivity|];
      eexists _, _; split; [first [eassumption | reflexivity]|];
      split; [first [eassumption | reflexivity] | rewrite <- E2; reflexivity]
    | injection E1 as <-; bind_some E2; bind_some E2; injection E2 as E2;
      right; split; [reflexivity|]; split; [reflexivity|];
      eexists _, _; split; [first [eassumption | reflexivity]|];
      split; [first [eassumption | reflexivity] | rewrite <- E2; reflexivity] ].
Qed.

(** Plug-in: a wall extrusion line of the tested kind read before any
    [;LAYER:] line raises. *)
Theorem plugin_wall_before_layer_raises (cfg : Plugin.Config) (gdl : R) (st : Plugin.State) (line : string) :
  Plugin.perimeterSegments st = None ->
  Plugin.is_begin_layer_line line = false ->
  Plugin.is_extrusion_line line = true ->
  (if Plugin.is_begin_outer_wall_line line then Plugin.OUTER_WALL
   else if Plugin.is_begin_inner_wall_line line then Plugin.INNER_WALL
   else Plugin.currentSection st) = (if Plugin.test_outer_wall cfg then Plugin.OUTER_WALL else Plugin.INNER_WALL) ->
  Plugin.process_line cfg gdl st line = None.
Proof.
  intros Hp Hl Hx Hs. unfold Plugin.process_line. cbv zeta. rewrite Hl, Hp, Hx, Hs, !andb_true_r.
  destruct (Plugin.test_outer_wall cfg); reflexivity.
Qed.

(** A string with prefix [p] is [p ++ r]. *)
Lemma prefix_app (p s : string) : String.prefix p s = true -> exists r, s = p ++ r.
Proof.
  revert s. induction p as [|a p IH]; intros s H; [exists s; reflexivity|].
  destruct s as [|b s]; [discriminate H|]. cbn in H.
  destruct (ascii_dec a b) as [<-|]; [|discriminate H].
  destruct (IH s H) as [r ->]. exists r. reflexivity.
Qed.

(** A [;TYPE:FILL] line is not a [;LAYER:] line. *)
Lemma fill_marker_not_layer_marker (line : string) :
  Str.startswith line ";TYPE:FILL" = true -> Str.startswith line ";LAYER:" = false.
Proof.
  unfold Str.startswith. intros H. destruct (prefix_app _ _ H) as [r ->]. reflexivity.
Qed.

(** Plug-in: a [;TYPE:FILL] line read before any [;LAYER:] line raises
    (it logs [len(perimeterSegments)], not assigned yet). *)
Theorem plugin_fill_before_layer_raises (cfg : Plugin.Config) (gdl : R) (st : Plugin.State) (line : string) :
  Plugin.perimeterSegments st = None ->
  Plugin.is_begin_infill_segment_line line = true ->
  Plugin.process_line cfg gdl st line = None.
Proof.
  intros Hp Hf. pose proof (fill_marker_not_layer_marker line Hf) as Hl.
  unfold Plugin.process_line. cbv zeta. unfold Plugin.is_begin_layer_line. rewrite Hl, Hp.
  destruct (Plugin.Section_eqb _ Plugin.INNER_WALL && _ && _); cbn [bind]; [reflexivity|].
  destruct (Plugin.Section_eqb _ Plugin.OUTER_WALL && _ && _); cbn [bind]; [reflexivity|].
  rewrite Hf. reflexivity.
Qed.

(** Stand-alone script: after a line containing [;] (other than
    [;TYPE:FILL]) the section is never INFILL. *)
Theorem standalone_comment_leaves_infill (cfg : Standalone.Config) (gdl : R) (st st' : Standalone.State)
    (line : string) (out : list piece) :
  Str.contains ";" line = true ->
  Standalone.is_begin_infill_segment_line line = false ->
  Standalone.process_line cfg gdl st line = Some (st', out) ->
  Standalone.currentSection st' <> Standalone.INFILL.
Proof.
  intros Hc Hf H. unfold Standalone.process_line in H. cbv zeta in H. rewrite Hf, Hc in H.
  bind_some H. bind_some H. destruct p as [[o1 w] l]. bind_some H. injection H as <- _. cbn.
  destruct (Standalone.is_end_inner_wall_line line), (Standalone.is_begin_inner_wall_line line),
           (Standalone.currentSection st); cbn; discriminate.
Qed.

(** Plug-in: after a line containing [;] (other than [;TYPE:FILL]) the
    section is never INFILL; inside an infill section such a line (not a
    wall marker) is assigned back its own text. *)
Theorem plugin_comment_leaves_infill (cfg : Plugin.Config) (gdl : R) (st st' : Plugin.State)
    (line : string) (a : option (list piece)) :
  Str.contains ";" line = true ->
  Plugin.is_begin_infill_segment_line line = false ->
  Plugin.process_line cfg gdl st line = Some (st', a) ->
  Plugin.currentSection st' <> Plugin.INFILL /\
  (Plugin.currentSection st = Plugin.INFILL -> Plugin.is_begin_inner_wall_line line = false ->
   Plugin.is_begin_outer_wall_line line = false -> a = Some [PStr line]).
Proof.
  intros Hc Hf H. unfold Plugin.process_line in H. cbv zeta in H. rewrite Hf, Hc in H.
  bind_some H. bind_some H. bind_some H. destruct p as [[f w] l]. bind_some H. injection H as <- <-.
  split.
  - cbn. destruct (Plugin.is_begin_outer_wall_line line), (Plugin.is_begin_inner_wall_line line),
           (Plugin.currentSection st); cbn; discriminate.
  - intros Hs Hi Ho. rewrite Hs, Hi, Ho. reflexivity.
Qed.

(** Stand-alone script: after a [G0]/[G1] line with [" X"] and [" Y"]
    (other than [;TYPE:FILL]), [lastPosition] is the position parsed from
    that line, whatever the section. *)
Theorem standalone_move_sets_lastPosition (cfg : Standalone.Config) (gdl : R) (st st' : Standalone.State)
    (line : string) (out : list piece) :
  Str.contains " X" line && Str.contains " Y" line && (Str.contains "G1" line || Str.contains "G0" line) = true ->
  Standalone.is_begin_infill_segment_line line = false ->
  Standalone.process_line cfg gdl st line = Some (st', out) ->
  getXY line = Some (Standalone.lastPosition st').
Proof.
  intros Hm Hf H. unfold Standalone.process_line in H. cbv zeta in H. rewrite Hf, Hm in H.
  bind_some H. bind_some H. destruct p as [[o1 w] l]. bind_some H. injection H as <- _. first [exact E1 | reflexivity].
Qed.

(** Plug-in: after a [G0]/[G1] line with [X] and [Y] (other than
    [;TYPE:FILL]), [lastPosition] is the position parsed from that line,
    whatever the section. *)
Theorem plugin_move_sets_lastPosition (cfg : Plugin.Config) (gdl : R) (st st' : Plugin.State)
    (line : string) (a : option (list piece)) :
  Str.contains "X" line && Str.contains "Y" line && (Str.contains "G1" line || Str.contains "G0" line) = true ->
  Plugin.is_begin_infill_segment_line line = false ->
  Plugin.process_line cfg gdl st line = Some (st', a) ->
  getXY line = Some (Plugin.lastPosition st').
Proof.
  intros Hm Hf H. unfold Plugin.process_line in H. cbv zeta in H. rewrite Hf, Hm in H.
  bind_some H. bind_some H. bind_some H. destruct p as [[f w] l]. bind_some H. injection H as <- _. first [exact E2 | reflexivity].
Qed.

(** [standalone_perimeter_update] on an inner-wall move. *)
Lemma standalone_perimeter_update_witness :
  Standalone.process_line (Standalone.mkConfig Standalone.SMALL_SEGMENTS 350 50 6 4) (3 / 2)
    (Standalone.mkState Standalone.INNER_WALL (mkPoint 0 0) (Some [])) "G1 X10 Y0 E1"
  = Some (Standalone.mkState Standalone.INNER_WALL (mkPoint 10 0) (Some [mkSegment (mkPoint 10 0) (mkPoint 0 0)]),
          [PStr "G1 X10 Y0 E1"]) /\
  (Standalone.perimeterSegments (Standalone.mkState Standalone.INNER_WALL (mkPoint 10 0)
      (Some [mkSegment (mkPoint 10 0) (mkPoint 0 0)]))
   = (if Standalone.is_begin_layer_line "G1 X10 Y0 E1" then Some []
      else Standalone.perimeterSegments (Standalone.mkState Standalone.INNER_WALL (mkPoint 0 0) (Some []))) \/
   (Standalone.is_extrusion_line "G1 X10 Y0 E1" = true /\
    (Standalone.is_begin_inner_wall_line "G1 X10 Y0 E1" = true \/
     Standalone.currentSection (Standalone.mkState Standalone.INNER_WALL (mkPoint 0 0) (Some [])) = Standalone.INNER_WALL) /\
    exists ps p, (if Standalone.is_begin_layer_line "G1 X10 Y0 E1" then Some []
                  else Standalone.perimeterSegments (Standalone.mkState Standalone.INNER_WALL (mkPoint 0 0) (Some []))) = Some ps /\
      getXY "G1 X10 Y0 E1" = Some p /\
      Standalone.perimeterSegments (Standalone.mkState Standalone.INNER_WALL (mkPoint 10 0)
        (Some [mkSegment (mkPoint 10 0) (mkPoint 0 0)]))
      = Some (ps ++ [mkSegment p (Standalone.lastPosition (Standalone.mkState Standalone.INNER_WALL (mkPoint 0 0) (Some [])))])%list)).
Proof.
  assert (H : Standalone.process_line (Standalone.mkConfig Standalone.SMALL_SEGMENTS 350 50 6 4) (3 / 2)
    (Standalone.mkState Standalone.INNER_WALL (mkPoint 0 0) (Some [])) "G1 X10 Y0 E1"
  = Some (Standalone.mkState Standalone.INNER_WALL (mkPoint 10 0) (Some [mkSegment (mkPoint 10 0) (mkPoint 0 0)]),
          [PStr "G1 X10 Y0 E1"])) by (unfold Standalone.process_line, getXY; reval; reflexivity).
  split; [exact H|]. exact (standalone_perimeter_update _ _ _ _ _ _ H).
Defined.

(** [plugin_perimeter_update] on an inner-wall move. *)
Lemma plugin_perimeter_update_witness :
  let cfg := Plugin.mkConfig 1 350 50 100 6 4 false 2 (1 / 2) false in
  let st := Plugin.mkState Plugin.INNER_WALL (mkPoint 0 0) (Some []) None in
  let st' := Plugin.mkState Plugin.INNER_WALL (mkPoint 10 0) (Some [mkSegment (mkPoint 10 0) (mkPoint 0 0)]) None in
  let line := "G1 X10 Y0 E1" in
  Plugin.process_line cfg (3 / 2) st line = Some (st', None) /\
  (let base := if Plugin.is_begin_layer_line line then Some [] else Plugin.perimeterSegments st in
   let sec1 := if Plugin.is_begin_outer_wall_line line then Plugin.OUTER_WALL
               else if Plugin.is_begin_inner_wall_line line then Plugin.INNER_WALL
               else Plugin.currentSection st in
   Plugin.perimeterSegments st' = base \/
   (Plugin.is_extrusion_line line = true /\
    sec1 = (if Plugin.test_outer_wall cfg then Plugin.OUTER_WALL else Plugin.INNER_WALL) /\
    exists ps p, base = Some ps /\ getXY line = Some p /\
      Plugin.perimeterSegments st' = Some (ps ++ [mkSegment p (Plugin.lastPosition st)])%list)).
Proof.
  intros cfg st st' line.
  assert (H : Plugin.process_line cfg (3 / 2) st line = Some (st', None))
    by (unfold Plugin.process_line, getXY; reval; reflexivity).
  split; [exact H|]. exact (plugin_perimeter_update _ _ _ _ _ _ H).
Defined.

(** [standalone_wall_before_layer_raises] on an inner-wall move. *)
Lemma standalone_wall_before_layer_raises_witness :
  let st := Standalone.mkState Standalone.INNER_WALL (mkPoint 0 0) None in
  let line := "G1 X10 Y0 E1" in
  (Standalone.perimeterSegments st = None /\ Standalone.is_begin_layer_line line = false /\
   Standalone.is_extrusion_line line = true /\
   (Standalone.is_begin_inner_wall_line line = true \/ Standalone.currentSection st = Standalone.INNER_WALL)) /\
  Standalone.process_line (Standalone.mkConfig Standalone.SMALL_SEGMENTS 350 50 6 4) (3 / 2) st line = None.
Proof.
  intros st line.
  assert (H1 : Standalone.perimeterSegments st = None) by reflexivity.
  assert (H2 : Standalone.is_begin_layer_line line = false) by reflexivity.
  assert (H3 : Standalone.is_extrusion_line line = true) by reflexivity.
  assert (H4 : Standalone.is_begin_inner_wall_line line = true \/ Standalone.currentSection st = Standalone.INNER_WALL)
    by (right; reflexivity).
  split; [repeat split; assumption|].
  exact (standalone_wall_before_layer_raises _ _ _ _ H1 H2 H3 H4).
Defined.

(** [plugin_wall_before_layer_raises] with [test_outer_wall] on an outer-wall line. *)
Lemma plugin_wall_before_layer_raises_witness :
  let cfg := Plugin.mkConfig 1 350 50 100 6 4 false 2 (1 / 2) true in
  let st := Plugin.mkState Plugin.NOTHING (mkPoint 0 0) None None in
  let line := ";TYPE:WALL-OUTER G1 X10 Y0 E1" in
  (Plugin.perimeterSegments st = None /\ Plugin.is_begin_layer_line line = false /\
   Plugin.is_extrusion_line line = true /\
   (if Plugin.is_begin_outer_wall_line line then Plugin.OUTER_WALL
    else if Plugin.is_begin_inner_wall_line line then Plugin.INNER_WALL
    else Plugin.currentSection st) = (if Plugin.test_outer_wall cfg then Plugin.OUTER_WALL else Plugin.INNER_WALL)) /\
  Plugin.process_line cfg (3 / 2) st line = None.
Proof.
  intros cfg st line.
  assert (H1 : Plugin.perimeterSegments st = None) by reflexivity.
  assert (H2 : Plugin.is_begin_layer_line line = false) by reflexivity.
  assert (H3 : Plugin.is_extrusion_line line = true) by reflexivity.
  assert (H4 : (if Plugin.is_begin_outer_wall_line line then Plugin.OUTER_WALL
    else if Plugin.is_begin_inner_wall_line line then Plugin.INNER_WALL
    else Plugin.currentSection st) = (if Plugin.test_outer_wall cfg then Plugin.OUTER_WALL else Plugin.INNER_WALL))
    by reflexivity.
  split; [repeat split; assumption|].
  exact (plugin_wall_before_layer_raises cfg (3 / 2) st line H1 H2 H3 H4).
Defined.

(** [plugin_fill_before_layer_raises] at the first line of a file. *)
Lemma plugin_fill_before_layer_raises_witness :
  let st := Plugin.mkState Plugin.NOTHING (mkPoint 0 0) None None in
  (Plugin.perimeterSegments st = None /\ Plugin.is_begin_infill_segment_line ";TYPE:FILL" = true) /\
  Plugin.process_line (Plugin.mkConfig 1 350 50 100 6 4 false 2 (1 / 2) false) (3 / 2) st ";TYPE:FILL" = None.
Proof.
  intros st.
  assert (H1 : Plugin.perimeterSegments st = None) by reflexivity.
  assert (H2 : Plugin.is_begin_infill_segment_line ";TYPE:FILL" = true) by reflexivity.
  split; [split; assumption|]. exact (plugin_fill_before_layer_raises _ _ _ _ H1 H2).
Defined.

(** [standalone_comment_leaves_infill] on [;MESH:NONMESH]. *)
Lemma standalone_comment_leaves_infill_witness :
  let st := Standalone.mkState Standalone.INFILL (mkPoint 0 0) (Some []) in
  let st' := Standalone.mkState Standalone.NOTHING (mkPoint 0 0) (Some []) in
  (Str.contains ";" ";MESH:NONMESH" = true /\ Standalone.is_begin_infill_segment_line ";MESH:NONMESH" = false /\
   Standalone.process_line (Standalone.mkConfig Standalone.SMALL_SEGMENTS 350 50 6 4) (3 / 2) st ";MESH:NONMESH"
   = Some (st', [PStr ";MESH:NONMESH"])) /\
  Standalone.currentSection st' <> Standalone.INFILL.
Proof.
  intros st st'.
  assert (H1 : Str.contains ";" ";MESH:NONMESH" = true) by reflexivity.
  assert (H2 : Standalone.is_begin_infill_segment_line ";MESH:NONMESH" = false) by reflexivity.
  assert (H3 : Standalone.process_line (Standalone.mkConfig Standalone.SMALL_SEGMENTS 350 50 6 4) (3 / 2) st ";MESH:NONMESH"
   = Some (st', [PStr ";MESH:NONMESH"])) by reflexivity.
  split; [repeat split; assumption|]. exact (standalone_comment_leaves_infill _ _ _ _ _ _ H1 H2 H3).
Defined.

(** [plugin_comment_leaves_infill] on [;MESH:NONMESH]. *)
Lemma plugin_comment_leaves_infill_witness :
  let st := Plugin.mkState Plugin.INFILL (mkPoint 0 0) (Some []) None in
  let st' := Plugin.mkState Plugin.NOTHING (mkPoint 0 0) (Some []) None in
  (Str.contains ";" ";MESH:NONMESH" = true /\ Plugin.is_begin_infill_segment_line ";MESH:NONMESH" = false /\
   Plugin.process_line (Plugin.mkConfig 1 350 50 100 6 4 false 2 (1 / 2) false) (3 / 2) st ";MESH:NONMESH"
   = Some (st', Some [PStr ";MESH:NONMESH"])) /\
  (Plugin.currentSection st' <> Plugin.INFILL /\
   (Plugin.currentSection st = Plugin.INFILL -> Plugin.is_begin_inner_wall_line ";MESH:NONMESH" = false ->
    Plugin.is_begin_outer_wall_line ";MESH:NONMESH" = false -> Some [PStr ";MESH:NONMESH"] = Some [PStr ";MESH:NONMESH"])).
Proof.
  intros st st'.
  assert (H1 : Str.contains ";" ";MESH:NONMESH" = true) by reflexivity.
  assert (H2 : Plugin.is_begin_infill_segment_line ";MESH:NONMESH" = false) by reflexivity.
  assert (H3 : Plugin.process_line (Plugin.mkConfig 1 350 50 100 6 4 false 2 (1 / 2) false) (3 / 2) st ";MESH:NONMESH"
   = Some (st', Some [PStr ";MESH:NONMESH"])) by reflexivity.
  split; [repeat split; assumption|]. exact (plugin_comment_leaves_infill _ _ _ _ _ _ H1 H2 H3).
Defined.

(** [standalone_move_sets_lastPosition] on a travel move. *)
Lemma standalone_move_sets_lastPosition_witness :
  let st' := Standalone.mkState Standalone.NOTHING (mkPoint 5 7) None in
  (Str.contains " X" "G0 X5 Y7" && Str.contains " Y" "G0 X5 Y7"
     && (Str.contains "G1" "G0 X5 Y7" || Str.contains "G0" "G0 X5 Y7") = true /\
   Standalone.is_begin_infill_segment_line "G0 X5 Y7" = false /\
   Standalone.process_line (Standalone.mkConfig Standalone.SMALL_SEGMENTS 350 50 6 4) (3 / 2)
     Standalone.initial_state "G0 X5 Y7" = Some (st', [PStr "G0 X5 Y7"])) /\
  getXY "G0 X5 Y7" = Some (Standalone.lastPosition st').
Proof.
  intros st'.
  assert (H1 : Str.contains " X" "G0 X5 Y7" && Str.contains " Y" "G0 X5 Y7"
     && (Str.contains "G1" "G0 X5 Y7" || Str.contains "G0" "G0 X5 Y7") = true) by reflexivity.
  assert (H2 : Standalone.is_begin_infill_segment_line "G0 X5 Y7" = false) by reflexivity.
  assert (H3 : Standalone.process_line (Standalone.mkConfig Standalone.SMALL_SEGMENTS 350 50 6 4) (3 / 2)
     Standalone.initial_state "G0 X5 Y7" = Some (st', [PStr "G0 X5 Y7"]))
    by (unfold Standalone.process_line, getXY; reval; reflexivity).
  split; [repeat split; assumption|]. exact (standalone_move_sets_lastPosition _ _ _ _ _ _ H1 H2 H3).
Defined.

(** [plugin_move_sets_lastPosition] on a travel move. *)
Lemma plugin_move_sets_lastPosition_witness :
  let st' := Plugin.mkState Plugin.NOTHING (mkPoint 5 7) None None in
  (Str.contains "X" "G0 X5 Y7" && Str.contains "Y" "G0 X5 Y7"
     && (Str.contains "G1" "G0 X5 Y7" || Str.contains "G0" "G0 X5 Y7") = true /\
   Plugin.is_begin_infill_segment_line "G0 X5 Y7" = false /\
   Plugin.process_line (Plugin.mkConfig 1 350 50 100 6 4 false 2 (1 / 2) false) (3 / 2)
     Execute.initial_state "G0 X5 Y7" = Some (st', None)) /\
  getXY "G0 X5 Y7" = Some (Plugin.lastPosition st').
Proof.
  intros st'.
  assert (H1 : Str.contains "X" "G0 X5 Y7" && Str.contains "Y" "G0 X5 Y7"
     && (Str.contains "G1" "G0 X5 Y7" || Str.contains "G0" "G0 X5 Y7") = true) by reflexivity.
  assert (H2 : Plugin.is_begin_infill_segment_line "G0 X5 Y7" = false) by reflexivity.
  assert (H3 : Plugin.process_line (Plugin.mkConfig 1 350 50 100 6 4 false 2 (1 / 2) false) (3 / 2)
     Execute.initial_state "G0 X5 Y7" = Some (st', None))
    by (unfold Plugin.process_line, getXY; reval; reflexivity).
  split; [repeat split; assumption|]. exact (plugin_move_sets_lastPosition _ _ _ _ _ _ H1 H2 H3).
Defined.

(** ** Feed rates *)

(** Plug-in, [gradual_speed] on: the feed written is clamped between
    [current_feed * min_over_speed_factor] and
    [current_feed * max_over_speed_factor] (when these bounds are in
    order). *)
Theorem feed_string_bounds (cfg : Plugin.Config) (cf segmentFeed : R) (stringFeed : list piece) :
  Plugin.gradual_speed cfg = true ->
  cf * Plugin.min_over_speed_factor cfg <= cf * Plugin.max_over_speed_factor cfg ->
  exists f, Plugin.feed_string cfg cf segmentFeed stringFeed = [PStr " F"; PInt f] /\
    cf * Plugin.min_over_speed_factor cfg <= f <= cf * Plugin.max_over_speed_factor cfg.
Proof.
  intros Hg Hle. unfold Plugin.feed_string. rewrite Hg.
  destruct (Rlt_dec (cf * Plugin.max_over_speed_factor cfg) segmentFeed) as [H1|H1];
  match goal with |- context [Rlt_dec ?a ?b] => destruct (Rlt_dec a b) as [H2|H2] end;
  eexists; (split; [reflexivity | lra]).
Qed.

(** [get_points_distance] is 0 exactly between equal points. *)
Theorem get_points_distance_zero (p q : Point2D) :
  get_points_distance p q = 0 <-> p = q.
Proof.
  destruct p as [a b], q as [c d]. unfold get_points_distance, pow_half. cbn. split.
  - intros H. apply sqrt_eq_0 in H; [|apply Rplus_le_le_0_compat; apply pow2_ge_0].
    assert (Ha : (a - c) * (a - c) + (b - d) * (b - d) = 0) by (rewrite <- H; ring).
    destruct (Rplus_sqr_eq_0 (a - c) (b - d) Ha). f_equal; lra.
  - intros H. injection H as -> ->. rewrite <- sqrt_0. f_equal. ring.
Qed.


(** [c in s] for a one-character [c]. *)
Lemma contains_char_in (ch : ascii) (s : string) :
  Str.contains (String ch EmptyString) s = true <-> In ch (list_ascii_of_string s).
Proof.
  induction s as [|c s IH]; cbn.
  - split; [discriminate | intros []].
  - destruct (ascii_dec ch c) as [<-|Hne]; cbn.
    + split; [intros _; left; reflexivity | intros _; destruct s; reflexivity].
    + rewrite IH. split; [intros H; right; exact H | intros [H|H]; [congruence | exact H]].
Qed.

(** A line holding an [E] has a field holding an [E]. *)
Lemma split_acc_contains_E (acc : list ascii) (s : string) :
  In "E"%char acc \/ In "E"%char (list_ascii_of_string s) ->
  existsb (Str.contains "E") (Str.split_acc acc s) = true.
Proof.
  revert acc. induction s as [|c s IH]; intros acc H; cbn.
  - destruct H as [H|[]]. rewrite orb_true_iff. left.
    apply contains_char_in. rewrite list_ascii_of_string_of_list_ascii. apply in_rev in H. exact H.
  - destruct (Ascii.eqb_spec c " "%char) as [->|Hne]; cbn.
    + destruct H as [H|[H|H]].
      * rewrite orb_true_iff. left. apply contains_char_in.
        rewrite list_ascii_of_string_of_list_ascii. apply in_rev in H. exact H.
      * discriminate H.
      * rewrite orb_true_iff. right. apply IH. right. exact H.
    + apply IH. destruct H as [H|[H|H]]; [left; right; exact H | left; left; exact H | right; exact H].
Qed.

(** The small-segment rebuild reads [current_feed] at the first field with an [E]. *)
Lemma small_rebuild_no_feed (cfg : Plugin.Config) (m : R) (o sf : list piece) (l : list string) :
  existsb (Str.contains "E") l = true -> Plugin.small_rebuild cfg None m o sf l = None.
Proof.
  revert o sf. induction l as [|el l IH]; intros o sf H; cbn in H |- *; [discriminate|].
  destruct (Str.contains "E" el) eqn:He.
  - destruct (Str.py_float (Str.drop1 el)); reflexivity.
  - apply IH. exact H.
Qed.

(** Every sub-move of the linear loop reads [current_feed]. *)
Lemma linear_steps_no_feed (cfg : Plugin.Config) (perim : option (list Segment)) (dir : Point2D)
    (e : R) (n : nat) (lastP : Point2D) (sf : list piece) :
  Plugin.linear_steps cfg perim None dir e (S n) lastP sf = None.
Proof.
  cbn. destruct perim as [ps|]; cbn [bind]; [|reflexivity].
  destruct (min_distance_from_segment _ ps) as [d|]; cbn [bind]; [|reflexivity].
  destruct (Rlt_dec d (Plugin.gradient_thickness cfg)); [|reflexivity].
  match goal with |- context [fdiv ?a ?b] => destruct (fdiv a b) end; reflexivity.
Qed.

(** A subdivided linear move reads [current_feed]. *)
Lemma plugin_linear_move_no_feed (cfg : Plugin.Config) (gdl : R) (perim : option (list Segment))
    (nl : list piece) (a b : Point2D) (splitLine : list string) :
  2 <= get_points_distance a b / gdl ->
  Plugin.linear_move cfg gdl perim None nl a b splitLine = None.
Proof.
  intros Hs. destruct (steps_nonzero _ _ Hs) as (Hg & _ & _).
  unfold Plugin.linear_move.
  destruct (find_extrusion None splitLine) as [[ext|]|]; cbn [bind]; try reflexivity.
  rewrite fdiv_nonzero by exact Hg. cbn [bind].
  destruct (fdiv ext _); cbn [bind]; [|reflexivity].
  destruct (fdiv (x b - x a) _); cbn [bind]; [|reflexivity].
  destruct (fdiv (y b - y a) _); cbn [bind]; [|reflexivity].
  destruct (Rle_dec 2 (get_points_distance a b / gdl)) as [_|]; [|lra].
  destruct (py_int_steps _ Hs) as [n ->]. rewrite linear_steps_no_feed. reflexivity.
Qed.

(** Plug-in: while no [F] value has been read ([current_feed] is not
    assigned), an infill extrusion line without [F] raises when it is
    rewritten: a small-segment move near the wall, or a linear move of at
    least two sub-segments. *)
Theorem plugin_infill_without_feed_raises (cfg : Plugin.Config) (gdl : R) (st : Plugin.State)
    (line : string) (p : Point2D) :
  Plugin.current_feed st = None ->
  Str.contains "F" line = false ->
  Str.contains "E" line && Str.contains "G1" line && Str.contains "X" line && Str.contains "Y" line = true ->
  getXY line = Some p ->
  ((Plugin.infill_type cfg = 1%Z /\
    exists ps d, Plugin.perimeterSegments st = Some ps /\
      min_distance_from_segment (mkSegment (Plugin.lastPosition st) p) ps = Some d /\
      d < Plugin.gradient_thickness cfg) \/
   (Plugin.infill_type cfg = 2%Z /\ 2 <= get_points_distance (Plugin.lastPosition st) p / gdl)) ->
  Plugin.infill_block cfg gdl st line = None.
Proof.
  intros Hf HF Hx Hp Hcase. unfold Plugin.infill_block. rewrite HF, Hf, Hx. cbn [andb bind]. rewrite Hp. cbn [bind].
  assert (HE : existsb (Str.contains "E") (Str.split_space line) = true).
  { apply split_acc_contains_E. right. apply contains_char_in.
    destruct (Str.contains "E" line) eqn:He; [reflexivity | discriminate Hx]. }
  destruct Hcase as [(Ht & ps & d & Hps & Hd & Hlt)|(Ht & Hs)]; rewrite Ht.
  - cbn [Z.eqb Pos.eqb bind]. rewrite Hps. cbn [bind]. rewrite Hd. cbn [bind].
    destruct (Rlt_dec d (Plugin.gradient_thickness cfg)) as [_|]; [|lra].
    destruct (mapRange _ _ d) as [m|]; cbn [bind]; [|reflexivity].
    rewrite small_rebuild_no_feed by exact HE. reflexivity.
  - cbn [Z.eqb Pos.eqb]. rewrite plugin_linear_move_no_feed by exact Hs. reflexivity.
Qed.

(** [feed_string_bounds]: a feed of 5000 clamped to 1500 * 2. *)
Lemma feed_string_bounds_witness :
  let cfg := Plugin.mkConfig 1 350 50 100 6 4 true 2 (1 / 2) false in
  (Plugin.gradual_speed cfg = true /\
   1500 * Plugin.min_over_speed_factor cfg <= 1500 * Plugin.max_over_speed_factor cfg) /\
  exists f, Plugin.feed_string cfg 1500 5000 [] = [PStr " F"; PInt f] /\
    1500 * Plugin.min_over_speed_factor cfg <= f <= 1500 * Plugin.max_over_speed_factor cfg.
Proof.
  intros cfg.
  assert (H1 : Plugin.gradual_speed cfg = true) by reflexivity.
  assert (H2 : 1500 * Plugin.min_over_speed_factor cfg <= 1500 * Plugin.max_over_speed_factor cfg)
    by (cbn; lra).
  split; [split; assumption|]. exact (feed_string_bounds cfg 1500 5000 [] H1 H2).
Defined.

(** [plugin_infill_without_feed_raises] on a gyroid move at distance 1/2 from the wall. *)
Lemma plugin_infill_without_feed_raises_witness :
  let cfg := Plugin.mkConfig 1 350 50 100 2 4 false 2 (1 / 2) false in
  let st := Plugin.mkState Plugin.INFILL (mkPoint 0 0) (Some [mkSegment (mkPoint 0 0) (mkPoint 10 0)]) None in
  let line := "G1 X10 Y1 E1" in
  (Plugin.current_feed st = None /\ Str.contains "F" line = false /\
   Str.contains "E" line && Str.contains "G1" line && Str.contains "X" line && Str.contains "Y" line = true /\
   getXY line = Some (mkPoint 10 1) /\
   ((Plugin.infill_type cfg = 1%Z /\
     exists ps d, Plugin.perimeterSegments st = Some ps /\
       min_distance_from_segment (mkSegment (Plugin.lastPosition st) (mkPoint 10 1)) ps = Some d /\
       d < Plugin.gradient_thickness cfg) \/
    (Plugin.infill_type cfg = 2%Z /\ 2 <= get_points_distance (Plugin.lastPosition st) (mkPoint 10 1) / (1 / 2)))) /\
  Plugin.infill_block cfg (1 / 2) st line = None.
Proof.
  intros cfg st line.
  assert (H1 : Plugin.current_feed st = None) by reflexivity.
  assert (H2 : Str.contains "F" line = false) by reflexivity.
  assert (H3 : Str.contains "E" line && Str.contains "G1" line && Str.contains "X" line && Str.contains "Y" line = true)
    by reflexivity.
  assert (H4 : getXY line = Some (mkPoint 10 1)) by (unfold getXY; reval; reflexivity).
  assert (H5 : (Plugin.infill_type cfg = 1%Z /\
     exists ps d, Plugin.perimeterSegments st = Some ps /\
       min_distance_from_segment (mkSegment (Plugin.lastPosition st) (mkPoint 10 1)) ps = Some d /\
       d < Plugin.gradient_thickness cfg) \/
    (Plugin.infill_type cfg = 2%Z /\ 2 <= get_points_distance (Plugin.lastPosition st) (mkPoint 10 1) / (1 / 2))).
  { left. split; [reflexivity|]. exists [mkSegment (mkPoint 0 0) (mkPoint 10 0)], (1 / 2).
    split; [reflexivity|]. split; [|cbn; lra].
    unfold min_distance_from_segment, dist, midpoint, fdiv, pow_half, py_min. reval. repeat rdecide.
    f_equal. apply sqrt_value; lra. }
  split; [repeat split; assumption|].
  exact (plugin_infill_without_feed_raises cfg (1 / 2) st line (mkPoint 10 1) H1 H2 H3 H4 H5).
Defined.

End Extras.
